(** * ARDS cohort extraction: a shallow embedding of the notebooks

    The development follows the four notebooks of the repository:

    - [Cohort]   : [01_cohort_definition_optimized.ipynb]  (pivot based S/F)
    - [CohortV1] : the earlier cohort notebook (de-duplicated stays, [merge_asof])
    - [Ards]     : [02_ards_identification_optimized.ipynb] (onset within 60 min)
    - [Berlin]   : the Berlin-criteria notebook (P/F ratio, 7 day window)

    Modelling conventions.
    - A pandas [DataFrame] with columns is the list of its rows (a record per
      row, in row order); the column-less [pd.DataFrame()] is a separate
      constructor, because indexing it by a column name raises [KeyError].
    - [datetime64[ns]] values are integers (nanoseconds since the epoch), so
      [Timedelta.total_seconds()] is a division by [10^9].
    - Numeric columns are exact rationals ([Q]); a nullable column is an
      [option] ([None] is NaN / NaT, and every comparison with it is false).
      The input tables hold the values as a notebook has loaded them: the
      narrowing to [float32] and [int32] that the optimized notebooks ask of
      [read_csv] is not modelled, nor is the rounding of floating-point
      arithmetic or its overflow to [inf]. A division by zero is guarded by
      the notebooks' masks wherever a ratio is formed; a quotient beyond the
      floating-point range is not, and it is exact here.
    - A string is the sequence of its bytes, and [str.lower()] is modelled on
      ASCII letters only: on text outside ASCII a [.] of a pattern stands
      for one byte, where Python matches one code point.
    - A Python [set] of admission identifiers is a [gset Z].
    - [print] calls, [gc.collect()] and [del] statements are not modelled,
      except the one [del] that names a variable which may be unbound. *)

From Stdlib Require Import ZArith QArith Qminmax Lqa Lia Bool List String Ascii.
From Stdlib Require Import Permutation DecimalString.
From stdpp Require Import base decidable option list sorting gmap sets.
Import ListNotations.

Local Open Scope Z_scope.

Set Warnings "-clear-no-such-hyp".

(** ** Numbers, timestamps, NaN-aware comparisons *)

Definition Qlt_bool (x y : Q) : bool := negb (Qle_bool y x).

Definition Timestamp := Z.
Definition Timedelta := Z.

(** [Timedelta.total_seconds()] *)
Definition total_seconds (d : Timedelta) : Q := (inject_Z d / 1000000000)%Q.
Arguments total_seconds d%_Z.

(** [x >= c], [x <= c] on a float column that may hold NaN *)
Definition nan_ge (x : option Q) (c : Q) : bool :=
  match x with Some v => Qle_bool c v | None => false end.
Definition nan_le (x : option Q) (c : Q) : bool :=
  match x with Some v => Qle_bool v c | None => false end.

(** [Series.dt.year] of a [datetime64[ns]] value (proleptic Gregorian
    calendar, days counted from 1970-01-01). *)
Definition year_of (ts : Timestamp) : Z :=
  let days := ts / 86400000000000 in
  let z := days + 719468 in
  let era := z / 146097 in
  let doe := z - era * 146097 in
  let yoe := (doe - doe / 1460 + doe / 36524 - doe / 146096) / 365 in
  let y := yoe + era * 400 in
  let doy := doe - (365 * yoe + yoe / 4 - yoe / 100) in
  let mp := (5 * doy + 2) / 153 in
  let m := if mp <? 10 then mp + 3 else mp - 9 in
  if m <=? 2 then y + 1 else y.

(** [str(n)] for a non-negative integer *)
Definition str (n : nat) : string := NilZero.string_of_uint (Nat.to_uint n).

(** [range(a, b)] *)
Definition range (a b : nat) : list nat := seq a (b - a).

(** ** pandas operations on lists of rows *)

(** [Series.isin(list)] on integers *)
Definition isin (x : Z) (l : list Z) : bool := existsb (Z.eqb x) l.

(** [Series.isin(set)]; a NaN key is in no set of identifiers *)
Definition isin_set (x : Z) (s : gset Z) : bool := bool_decide (x ∈ s).
Definition isin_set_nan (x : option Z) (s : gset Z) : bool :=
  match x with Some k => isin_set k s | None => false end.

(** [len(s) > 0] on a set *)
Definition nonempty (s : gset Z) : bool := 0 <? Z.of_nat (size s).

(** [left.merge(right, on=key, how='inner')]: for each left row, in order,
    its matching right rows, in order. *)
Definition merge_inner {A B C : Type} (ka : A -> Z) (kb : B -> Z)
    (mk : A -> B -> C) (left : list A) (right : list B) : list C :=
  flat_map (fun a => map (mk a) (List.filter (fun b => kb b =? ka a) right)) left.

(** [left.merge(right, on=key, how='left')]: a left row without a match is
    kept once, with missing right columns. *)
Definition merge_left {A B C : Type} (ka : A -> Z) (kb : B -> Z)
    (mk : A -> option B -> C) (left : list A) (right : list B) : list C :=
  flat_map (fun a =>
    match List.filter (fun b => kb b =? ka a) right with
    | [] => [mk a None]
    | bs => map (fun b => mk a (Some b)) bs
    end) left.

(** [drop_duplicates([key])]: the first row of each key is kept. *)
Fixpoint drop_duplicates_from {A : Type} (key : A -> Z) (seen : list Z)
    (l : list A) : list A :=
  match l with
  | [] => []
  | x :: r =>
      if isin (key x) seen then drop_duplicates_from key seen r
      else x :: drop_duplicates_from key (key x :: seen) r
  end.

Definition drop_duplicates {A : Type} (key : A -> Z) (l : list A) : list A :=
  drop_duplicates_from key [] l.

(** [df[df.duplicated(subset=[key], keep=False)]]: the rows whose key occurs
    more than once. *)
Definition duplicated {A : Type} (key : A -> Z) (l : list A) : list A :=
  List.filter
    (fun x => (1 <? length (List.filter (fun y => (key y =? key x)%Z) l))%nat) l.

(** Group keys as [groupby] / [pivot_table] list them: distinct, ascending. *)
Definition sorted_unique (l : list Z) : list Z :=
  merge_sort Z.le (remove_dups l).

(** Lexicographic order on composite keys whose first component is an
    integer. *)
Definition lex_le {B : Type} (leB : relation B) : relation (Z * B) :=
  fun a b => a.1 < b.1 \/ (a.1 = b.1 /\ leB a.2 b.2).

#[global] Instance lex_le_dec {B : Type} (leB : relation B)
  `{!RelDecision leB} : RelDecision (lex_le leB).
Proof. intros a b; unfold lex_le; apply _. Defined.

Definition sorted_unique2 (l : list (Z * Z)) : list (Z * Z) :=
  merge_sort (lex_le Z.le) (remove_dups l).

Definition sorted_unique3 (l : list (Z * (Z * Z))) : list (Z * (Z * Z)) :=
  merge_sort (lex_le (lex_le Z.le)) (remove_dups l).

(** [sort_values(by)]: a stable sort; [le] is the order on the sort key. *)
Fixpoint insert_sorted {A : Type} (le : A -> A -> bool) (x : A) (l : list A) : list A :=
  match l with
  | [] => [x]
  | y :: r => if le x y then x :: y :: r else y :: insert_sorted le x r
  end.

Definition sort_values {A : Type} (le : A -> A -> bool) (l : list A) : list A :=
  fold_right (insert_sorted le) [] l.

(** [Index.is_monotonic_increasing] *)
Fixpoint is_monotonic_increasing (l : list Z) : bool :=
  match l with
  | x :: (y :: _) as r => (x <=? y) && is_monotonic_increasing r
  | _ => true
  end.

(** [min] of a non-empty column *)
Definition min_Z (x : Z) (l : list Z) : Z := fold_left Z.min l x.
Definition min_Q (x : Q) (l : list Q) : Q := fold_left Qmin l x.

(** [min] of a column, NaN when it has no value *)
Definition min_of_Z (l : list Z) : option Z :=
  match l with [] => None | x :: r => Some (min_Z x r) end.
Definition min_of_Q (l : list Q) : option Q :=
  match l with [] => None | x :: r => Some (min_Q x r) end.

(** ** Exceptions and the column-less frame *)

Inductive exn :=
  | KeyError (column : string)
  | NameError (name : string)
  | ValueError (msg : string).

Inductive result (A : Type) :=
  | Ok (a : A)
  | Raise (e : exn).
Arguments Ok {A} a.
Arguments Raise {A} e.

#[global] Instance result_ret : MRet result := fun A a => Ok a.

#[global] Instance result_bind : MBind result := fun A B k m =>
  match m with Ok a => k a | Raise e => Raise e end.

(** A [DataFrame]: [pd.DataFrame()] has neither rows nor columns. *)
Inductive DataFrame (R : Type) :=
  | NoColumns
  | Frame (rows : list R).
Arguments NoColumns {R}.
Arguments Frame {R} rows.

Definition len {R : Type} (df : DataFrame R) : nat :=
  match df with NoColumns => 0%nat | Frame rows => length rows end.

(** [df[column]]: [KeyError] on a frame that has no such column. *)
Definition getitem {R A : Type} (df : DataFrame R) (column : string)
    (proj : R -> A) : result (list A) :=
  match df with
  | NoColumns => Raise (KeyError column)
  | Frame rows => Ok (map proj rows)
  end.

Definition rows_of {R : Type} (df : DataFrame R) : list R :=
  match df with NoColumns => [] | Frame rows => rows end.

(** ** Input tables (the columns the notebooks read) *)

Record Patient := {
  p_subject_id : Z;
  anchor_age : Z;
  anchor_year : Z;
  gender : string }.

Record Admission := {
  a_subject_id : Z;
  a_hadm_id : Z;
  admittime : Timestamp;
  dischtime : Timestamp;
  admission_type : string;
  admission_location : string;
  discharge_location : string;
  insurance : string;
  marital_status : string;
  hospital_expire_flag : Z }.

Record IcuStay := {
  s_hadm_id : Z;
  s_stay_id : Z;
  intime : Timestamp;
  outtime : Timestamp }.

Record ChartEvent := {
  ce_hadm_id : Z;
  ce_stay_id : Z;
  ce_itemid : Z;
  ce_charttime : Timestamp;
  ce_valuenum : option Q }.

Record Diagnosis := {
  d_hadm_id : Z;
  icd_code : option string }.

Record RadiologyNote := {
  note_id : string;
  r_hadm_id : option Z;
  r_charttime : Timestamp;
  text : option string }.

Record Tables := {
  patients : list Patient;
  admissions : list Admission;
  icustays : list IcuStay;
  chartevents : list ChartEvent;
  diagnoses : list Diagnosis;
  radiology : list RadiologyNote }.

(** FiO2 unit normalisation, as every notebook applies it to an FiO2 reading:
    [df.loc[valuenum > 1, 'valuenum'] /= 100]. *)
Definition normalize_fio2 (v : Q) : Q :=
  if Qlt_bool 1 v then (v / 100)%Q else v.

(** Diagnosis code rule sets. *)
Definition hf_codes : list string :=
  map str (range 4280 4290) ++ ["I50"%string] ++
  map (fun x => ("I50" ++ str x)%string) (range 0 10).

Definition pregnancy_icd9_prefixes : list string := map str (range 630 680).

(** [icd_code.str.startswith(tuple(prefixes), na=False)] *)
Definition startswith (prefixes : list string) (code : option string) : bool :=
  match code with
  | Some s => existsb (fun p => String.prefix p s) prefixes
  | None => false
  end.

(** [icd_code.str[:3].isin(prefixes)] *)
Definition first3_isin (prefixes : list string) (code : option string) : bool :=
  match code with
  | Some s => existsb (String.eqb (substring 0 3 s)) prefixes
  | None => false
  end.

Definition hf_mask (d : Diagnosis) : bool := startswith hf_codes (icd_code d).

Definition pregnancy_mask (d : Diagnosis) : bool :=
  first3_isin pregnancy_icd9_prefixes (icd_code d)
  || startswith ["O"%string] (icd_code d).

(** ** The radiology text classifier

    The patterns use literals, alternation, [.*] and [.?] only; [.] matches
    any character but a newline, and [re.search] tries every start. *)

Inductive regex :=
  | Lit (s : string)
  | AnyStar
  | AnyOpt
  | Seq (r1 r2 : regex)
  | Alt (r1 r2 : regex).

Definition is_newline (c : ascii) : bool := Ascii.eqb c "010"%char.

Fixpoint strip_prefix (p s : string) : option string :=
  match p, s with
  | EmptyString, _ => Some s
  | String a p', String b s' => if Ascii.eqb a b then strip_prefix p' s' else None
  | String _ _, EmptyString => None
  end.

Fixpoint any_star (k : string -> bool) (s : string) : bool :=
  k s || match s with
         | String c s' => negb (is_newline c) && any_star k s'
         | EmptyString => false
         end.

Fixpoint matches (r : regex) (k : string -> bool) (s : string) : bool :=
  match r with
  | Lit p => match strip_prefix p s with Some rest => k rest | None => false end
  | AnyStar => any_star k s
  | AnyOpt => k s || match s with
                     | String c s' => negb (is_newline c) && k s'
                     | EmptyString => false
                     end
  | Seq r1 r2 => matches r1 (matches r2 k) s
  | Alt r1 r2 => matches r1 k s || matches r2 k s
  end.

Fixpoint re_search (r : regex) (s : string) : bool :=
  matches r (fun _ => true) s
  || match s with String _ s' => re_search r s' | EmptyString => false end.

Definition lower_ascii (c : ascii) : ascii :=
  let n := nat_of_ascii c in
  if (65 <=? n)%nat && (n <=? 90)%nat then ascii_of_nat (n + 32) else c.

Fixpoint lower (s : string) : string :=
  match s with
  | EmptyString => EmptyString
  | String c s' => String (lower_ascii c) (lower s')
  end.

(** [(?:infiltrate|opacity|opacities|consolidation)] *)
Definition finding : regex :=
  Alt (Lit "infiltrate") (Alt (Lit "opacity") (Alt (Lit "opacities") (Lit "consolidation"))).

(** [(?:infiltrate|opacity|consolidation)] *)
Definition finding_one_side : regex :=
  Alt (Lit "infiltrate") (Alt (Lit "opacity") (Lit "consolidation")).

Definition then_ (r1 r2 : regex) : regex := Seq r1 (Seq AnyStar r2).

Definition bilateral_patterns : list regex :=
  [ then_ (Lit "bilateral") finding;
    then_ finding (Lit "bilateral");
    then_ (Lit "both lung") finding;
    then_ finding (Lit "both lung");
    then_ (Lit "diffuse") finding;
    then_ (Lit "multifocal") finding;
    then_ (Lit "bibasilar") finding;
    Seq (Lit "bilateral") (Seq AnyStar (Seq (Lit "ground") (Seq AnyOpt (Lit "glass"))));
    then_ (Lit "bilateral") (Lit "airspace disease");
    Lit "ards";
    Lit "acute respiratory distress syndrome" ].

(** [detect_bilateral_infiltrates(text)]; a missing text is negative. *)
Definition detect_bilateral_infiltrates (text : option string) : bool :=
  match text with
  | None => false
  | Some txt =>
      let text_lower := lower txt in
      existsb (fun p => re_search p text_lower) bilateral_patterns
      || (re_search (then_ (Lit "left") finding_one_side) text_lower
          && re_search (then_ (Lit "right") finding_one_side) text_lower)
  end.

(** [Series.str.contains(pattern, regex=True, na=False)] *)
Definition str_contains (pattern : regex) (column : list string) : list bool :=
  map (re_search pattern) column.

(** [detect_bilateral_infiltrates_vectorized(text_series)], the column-wise
    classifier of the optimized ARDS notebook: a missing text is replaced by
    the empty string, and the pattern columns are accumulated with [|=]. *)
Definition detect_bilateral_infiltrates_vectorized
    (text_series : list (option string)) : list bool :=
  let text_lower :=
    map (fun t => match t with Some s => lower s | None => EmptyString end)
        text_series in
  let bilateral_matches :=
    fold_left (fun acc pattern => zip_with orb acc (str_contains pattern text_lower))
      bilateral_patterns (map (fun _ => false) text_series) in
  let left_infiltrate :=
    str_contains (then_ (Lit "left") finding_one_side) text_lower in
  let right_infiltrate :=
    str_contains (then_ (Lit "right") finding_one_side) text_lower in
  zip_with orb bilateral_matches (zip_with andb left_infiltrate right_infiltrate).

(** A line feed, the one character that [.] does not match. *)
Definition newline : string := String "010"%char EmptyString.

(** No literal of the pattern holds a line feed. *)
Fixpoint has_newline (s : string) : bool :=
  match s with
  | EmptyString => false
  | String c s' => is_newline c || has_newline s'
  end.

Fixpoint within_line (r : regex) : bool :=
  match r with
  | Lit p => negb (has_newline p)
  | AnyStar | AnyOpt => true
  | Seq r1 r2 | Alt r1 r2 => within_line r1 && within_line r2
  end.

(** * The cohort definition notebook (01, optimized) *)

Module Cohort.

(** Item identifiers of the ventilation parameters. *)
Definition PEEP_ITEMIDS : list Z := [220339; 224700; 224699].
Definition SPO2_ITEMIDS : list Z := [220277; 224696].
Definition FIO2_ITEMIDS : list Z := [220210; 223835].
Definition ALL_VENT_ITEMIDS : list Z := PEEP_ITEMIDS ++ SPO2_ITEMIDS ++ FIO2_ITEMIDS.

Inductive ParamType := unknown | peep | spo2 | fio2.

#[global] Instance ParamType_eq_dec : EqDecision ParamType.
Proof. solve_decision. Defined.

(** The column starts as ['unknown'] and is overwritten three times. *)
Definition classify (itemid : Z) : ParamType :=
  let p := unknown in
  let p := if isin itemid PEEP_ITEMIDS then peep else p in
  let p := if isin itemid SPO2_ITEMIDS then spo2 else p in
  let p := if isin itemid FIO2_ITEMIDS then fio2 else p in
  p.

(** [admissions.merge(patients[...], on='subject_id', how='left')] *)
Record PatientData := {
  pd_adm : Admission;
  pd_patient : option Patient }.

Definition admit_year (a : Admission) : Z := year_of (admittime a).

Definition age_at_admission (r : PatientData) : option Z :=
  match pd_patient r with
  | Some p => Some (anchor_age p + (admit_year (pd_adm r) - anchor_year p))
  | None => None
  end.

Definition is_adult (r : PatientData) : bool :=
  match age_at_admission r with Some a => 18 <=? a | None => false end.

(** A row of [adult_icu_admissions]: the admission columns and the stay. *)
Record AdultIcu := {
  ai_adm : PatientData;
  ai_stay : IcuStay }.

Definition hadm_id (r : AdultIcu) : Z := a_hadm_id (pd_adm (ai_adm r)).
Definition stay_id (r : AdultIcu) : Z := s_stay_id (ai_stay r).
Definition subject_id (r : AdultIcu) : Z := a_subject_id (pd_adm (ai_adm r)).

(** A chart event kept by the cohort filter: its value is not null. *)
Record VentEvent := {
  ve_stay_id : Z;
  ve_itemid : Z;
  ve_charttime : Timestamp;
  ve_valuenum : Q }.

(** A row of [vent_data] after classification and the merge with the stays. *)
Record VentData := {
  vd_event : VentEvent;
  param_type : ParamType;
  vd_hadm_id : option Z;
  vd_intime : option Timestamp }.

Definition charttime (r : VentData) : Timestamp := ve_charttime (vd_event r).
Definition valuenum (r : VentData) : Q := ve_valuenum (vd_event r).

Definition hours_from_icu (r : VentData) : option Q :=
  match vd_intime r with
  | Some t0 => Some (total_seconds (charttime r - t0) / 3600)%Q
  | None => None
  end.

Definition set_valuenum (r : VentData) (v : Q) : VentData :=
  {| vd_event := {| ve_stay_id := ve_stay_id (vd_event r);
                    ve_itemid := ve_itemid (vd_event r);
                    ve_charttime := ve_charttime (vd_event r);
                    ve_valuenum := v |};
     param_type := param_type r;
     vd_hadm_id := vd_hadm_id r;
     vd_intime := vd_intime r |}.

(** A row of [sf_pivot]: one per (hadm_id, charttime). *)
Record SfPivot := {
  pv_hadm_id : Z;
  pv_charttime : Timestamp;
  pv_spo2 : option Q;
  pv_fio2 : option Q }.

(** A row of [sf_ratios]. *)
Record SfRatio := {
  sr_hadm_id : Z;
  sr_charttime : Timestamp;
  sr_spo2 : Q;
  sr_fio2 : Q;
  sf_ratio : Q }.

(** A row of [final_cohort]. *)
Record CohortRow := {
  c_row : AdultIcu;
  admission_dttm : Timestamp;
  discharge_dttm : Timestamp;
  mortality : Z;
  icu_los_days : Q;
  excluded_hf : bool;
  excluded_pregnancy : bool }.

(** The pivot key of a row; rows with a missing [hadm_id] form no group. *)
Definition pivot_key (r : VentData) : option (Z * Timestamp) :=
  match vd_hadm_id r with Some h => Some (h, charttime r) | None => None end.

(** [aggfunc='first']: the first value of the parameter in the group. *)
Definition first_value (rows : list VentData) (k : Z * Timestamp)
    (p : ParamType) : option Q :=
  head (map valuenum
    (List.filter (fun r => bool_decide (pivot_key r = Some k)
                           && bool_decide (param_type r = p)) rows)).

Definition pivot_table (rows : list VentData) : list SfPivot :=
  map (fun k => {| pv_hadm_id := k.1; pv_charttime := k.2;
                   pv_spo2 := first_value rows k spo2;
                   pv_fio2 := first_value rows k fio2 |})
      (sorted_unique2 (omap pivot_key rows)).

(** [dropna(subset=['spo2','fio2'])], [fio2 > 0], then the division. *)
Definition ratio_of (p : SfPivot) : list SfRatio :=
  match pv_spo2 p, pv_fio2 p with
  | Some s, Some f =>
      if Qlt_bool 0 f
      then [{| sr_hadm_id := pv_hadm_id p; sr_charttime := pv_charttime p;
               sr_spo2 := s; sr_fio2 := f; sf_ratio := (s / f)%Q |}]
      else []
  | _, _ => []
  end.

(** ICU length of stay in days. *)
Definition los_days (s : IcuStay) : Q :=
  (total_seconds (outtime s - intime s) / (24 * 3600))%Q.

Section Pipeline.

Variable t : Tables.

(** Cell 4: age, adults, inner join with the ICU stays. *)
Definition patient_data : list PatientData :=
  merge_left a_subject_id p_subject_id Build_PatientData (admissions t) (patients t).

Definition adult_admissions : list PatientData :=
  List.filter is_adult patient_data.

Definition adult_icu_admissions : list AdultIcu :=
  merge_inner (fun r => a_hadm_id (pd_adm r)) s_hadm_id Build_AdultIcu
    adult_admissions (icustays t).

(** Cell 6: chart events of the cohort's stays, ventilation items, non-null. *)
Definition target_stay_ids : gset Z := list_to_set (map stay_id adult_icu_admissions).

Definition vent_event (e : ChartEvent) : list VentEvent :=
  match ce_valuenum e with
  | Some v =>
      if isin_set (ce_stay_id e) target_stay_ids && isin (ce_itemid e) ALL_VENT_ITEMIDS
      then [{| ve_stay_id := ce_stay_id e; ve_itemid := ce_itemid e;
               ve_charttime := ce_charttime e; ve_valuenum := v |}]
      else []
  | None => []
  end.

(** Cells 9 and 10: parameter type, left merge on [stay_id]. *)
Definition vent_data : list VentData :=
  merge_left ve_stay_id stay_id
    (fun e m => {| vd_event := e; param_type := classify (ve_itemid e);
                   vd_hadm_id := option_map hadm_id m;
                   vd_intime := option_map (fun r => intime (ai_stay r)) m |})
    (flat_map vent_event (chartevents t)) adult_icu_admissions.

(** Cell 12: PEEP >= 5 within the first 48 hours. *)
Definition peep_mask (r : VentData) : bool :=
  bool_decide (param_type r = peep)
  && nan_ge (hours_from_icu r) 0
  && nan_le (hours_from_icu r) 48
  && Qle_bool 5 (valuenum r).

Definition peep_qualifying : list VentData := List.filter peep_mask vent_data.

Definition peep_qualifying_admissions : gset Z :=
  list_to_set (omap vd_hadm_id peep_qualifying).

Definition cohort_peep_qualified : list AdultIcu :=
  List.filter (fun r => isin_set (hadm_id r) peep_qualifying_admissions)
    adult_icu_admissions.

Definition vent_data_filtered : list VentData :=
  List.filter (fun r => isin_set_nan (vd_hadm_id r) peep_qualifying_admissions)
    vent_data.

(** Cell 14: S/F ratios by pivot, threshold < 315. *)
Definition spo2_fio2_data : list VentData :=
  List.filter (fun r => bool_decide (param_type r = spo2)
                        || bool_decide (param_type r = fio2)) vent_data_filtered.

Definition fio2_mask (r : VentData) : bool :=
  bool_decide (param_type r = fio2) && Qlt_bool 1 (valuenum r).

(** [df.loc[fio2_mask, 'valuenum'] = df.loc[fio2_mask, 'valuenum'] / 100] *)
Definition convert_fio2 (r : VentData) : VentData :=
  if fio2_mask r then set_valuenum r (valuenum r / 100)%Q else r.

Definition spo2_fio2_normalized : list VentData := map convert_fio2 spo2_fio2_data.

Definition sf_pivot : list SfPivot := pivot_table spo2_fio2_normalized.

Definition sf_ratios : list SfRatio := flat_map ratio_of sf_pivot.

Definition low_sf_ratios : list SfRatio :=
  List.filter (fun r => Qlt_bool (sf_ratio r) 315) sf_ratios.

Definition sf_qualifying_admissions : gset Z :=
  list_to_set (map sr_hadm_id low_sf_ratios).

Definition final_qualifying_admissions : gset Z :=
  if (0 <? length spo2_fio2_data)%nat
  then peep_qualifying_admissions ∩ sf_qualifying_admissions
  else ∅.

(** Cell 17: exclusions. *)
Definition hf_admissions : gset Z :=
  list_to_set (map d_hadm_id (List.filter hf_mask (diagnoses t))).

Definition pregnancy_admissions : gset Z :=
  list_to_set (map d_hadm_id (List.filter pregnancy_mask (diagnoses t))).

Definition excluded_admissions : gset Z := hf_admissions ∪ pregnancy_admissions.

Definition final_cohort_admissions : gset Z :=
  if nonempty final_qualifying_admissions
  then final_qualifying_admissions ∖ excluded_admissions
  else ∅.

(** Cell 19: radiology reports. *)
Definition radiology_admissions : gset Z :=
  list_to_set (omap r_hadm_id (radiology t)).

Definition final_cohort_admissions_w_reports : gset Z :=
  if nonempty final_cohort_admissions
  then final_cohort_admissions ∩ radiology_admissions
  else ∅.

(** Cell 21: the final cohort, one row per kept row of
    [adult_icu_admissions]; the exclusion flags are read from the sets of
    cell 17 when that cell defined them. *)
Definition cohort_row (r : AdultIcu) : CohortRow :=
  {| c_row := r;
     admission_dttm := admittime (pd_adm (ai_adm r));
     discharge_dttm := dischtime (pd_adm (ai_adm r));
     mortality := hospital_expire_flag (pd_adm (ai_adm r));
     icu_los_days := los_days (ai_stay r);
     excluded_hf :=
       if nonempty final_qualifying_admissions
       then isin_set (hadm_id r) hf_admissions else false;
     excluded_pregnancy :=
       if nonempty final_qualifying_admissions
       then isin_set (hadm_id r) pregnancy_admissions else false |}.

Definition final_cohort : DataFrame CohortRow :=
  if nonempty final_cohort_admissions_w_reports
  then Frame (map cohort_row
         (List.filter (fun r => isin_set (hadm_id r) final_cohort_admissions_w_reports)
            adult_icu_admissions))
  else NoColumns.

(** Cells 22, 25 and 27 read columns of [final_cohort] behind
    [if len(final_cohort) > 0]; only the column accesses are kept. *)
Definition cell_duplicates (fc : DataFrame CohortRow) : result unit :=
  if (0 <? len fc)%nat then
    _ ← getitem fc "stay_id" (fun r => stay_id (c_row r));
    _ ← getitem fc "hadm_id" (fun r => hadm_id (c_row r));
    Ok tt
  else Ok tt.

(** The two frames cell 22 builds: the rows with a repeated stay identifier
    and the rows with a repeated admission identifier. *)
Definition stay_duplicates (fc : DataFrame CohortRow) : list CohortRow :=
  duplicated (fun r => stay_id (c_row r)) (rows_of fc).

Definition hadm_duplicates (fc : DataFrame CohortRow) : list CohortRow :=
  duplicated (fun r => hadm_id (c_row r)) (rows_of fc).

Definition cell_summary (fc : DataFrame CohortRow) : result unit :=
  if (0 <? len fc)%nat then
    _ ← getitem fc "subject_id" (fun r => subject_id (c_row r));
    _ ← getitem fc "age_at_admission" (fun r => age_at_admission (ai_adm (c_row r)));
    _ ← getitem fc "gender" (fun r => option_map gender (pd_patient (ai_adm (c_row r))));
    _ ← getitem fc "mortality" mortality;
    _ ← getitem fc "icu_los_days" icu_los_days;
    _ ← getitem fc "admission_type" (fun r => admission_type (pd_adm (ai_adm (c_row r))));
    _ ← getitem fc "admission_location" (fun r => admission_location (pd_adm (ai_adm (c_row r))));
    Ok tt
  else Ok tt.

(** What cell 27 writes: the cohort file, when there is a cohort. *)
Definition cell_save (fc : DataFrame CohortRow) : result (option (list CohortRow)) :=
  if (0 <? len fc)%nat then
    _ ← getitem fc "subject_id" (fun r => subject_id (c_row r));
    _ ← getitem fc "age_at_admission" (fun r => age_at_admission (ai_adm (c_row r)));
    _ ← getitem fc "mortality" mortality;
    _ ← getitem fc "icu_los_days" icu_los_days;
    Ok (Some (rows_of fc))
  else Ok None.

Record Output := {
  out_final_cohort : DataFrame CohortRow;
  out_saved : option (list CohortRow) }.

(** The notebook from the first cell to the last. *)
Definition run_notebook : result Output :=
  let fc := final_cohort in
  _ ← cell_duplicates fc;
  _ ← cell_summary fc;
  saved ← cell_save fc;
  Ok {| out_final_cohort := fc; out_saved := saved |}.

End Pipeline.

End Cohort.

(** * The earlier cohort notebook (one stay per admission, [merge_asof]) *)

Module CohortV1.

Definition peep_itemids : list Z := [220339; 224700; 224699].
Definition spo2_itemids : list Z := [220277; 224696].
Definition fio2_itemids : list Z := [220210; 223835].
Definition all_itemids : list Z := peep_itemids ++ spo2_itemids ++ fio2_itemids.

Definition classify (itemid : Z) : Cohort.ParamType :=
  let p := Cohort.unknown in
  let p := if isin itemid peep_itemids then Cohort.peep else p in
  let p := if isin itemid spo2_itemids then Cohort.spo2 else p in
  let p := if isin itemid fio2_itemids then Cohort.fio2 else p in
  p.

(** The three columns handed to [merge_asof]. *)
Record Reading := {
  rd_hadm_id : Z;
  rd_charttime : Timestamp;
  rd_valuenum : Q }.

(** A row of [sf_ratios]. *)
Record SfRow := {
  sfr_hadm_id : Z;
  sfr_charttime : Timestamp;
  valuenum_spo2 : Q;
  valuenum_fio2 : Q;
  sf_ratio : Q }.

(** A row of [final_cohort]. *)
Record FinalRow := {
  fr_row : Cohort.AdultIcu;
  has_heart_failure : bool;
  is_pregnant : bool;
  admission_dttm : Timestamp;
  discharge_dttm : Timestamp }.

Definition hadm_id (r : FinalRow) : Z := Cohort.hadm_id (fr_row r).

(** [tolerance=pd.Timedelta(hours=2)] *)
Definition tolerance : Timedelta := 2 * 3600 * 1000000000.

(** [sort_values(['hadm_id', 'charttime'])] *)
Definition reading_le (a b : Reading) : bool :=
  (rd_hadm_id a <? rd_hadm_id b)
  || ((rd_hadm_id a =? rd_hadm_id b) && (rd_charttime a <=? rd_charttime b)).

(** [merge_asof(..., on='charttime', by='hadm_id', direction='nearest')]:
    the backward candidate is the last right row of the same admission at or
    before the left time, the forward candidate the first one at or after it;
    a candidate farther than the tolerance is dropped; the backward candidate
    wins a tie. *)
Definition backward (right : list Reading) (s : Reading) : option Reading :=
  match last (List.filter (fun f => (rd_hadm_id f =? rd_hadm_id s)
                                    && (rd_charttime f <=? rd_charttime s)) right) with
  | Some f => if tolerance <? rd_charttime s - rd_charttime f then None else Some f
  | None => None
  end.

Definition forward (right : list Reading) (s : Reading) : option Reading :=
  match head (List.filter (fun f => (rd_hadm_id f =? rd_hadm_id s)
                                    && (rd_charttime s <=? rd_charttime f)) right) with
  | Some f => if tolerance <? rd_charttime f - rd_charttime s then None else Some f
  | None => None
  end.

Definition nearest (right : list Reading) (s : Reading) : option Reading :=
  match backward right s, forward right s with
  | Some b, Some f =>
      if rd_charttime s - rd_charttime b <=? rd_charttime f - rd_charttime s
      then Some b else Some f
  | Some b, None => Some b
  | None, f => f
  end.

Definition merge_asof (left right : list Reading)
    : result (list (Reading * option Reading)) :=
  if negb (is_monotonic_increasing (map rd_charttime left))
  then Raise (ValueError "left keys must be sorted")
  else if negb (is_monotonic_increasing (map rd_charttime right))
  then Raise (ValueError "right keys must be sorted")
  else Ok (map (fun s => (s, nearest right s)) left).

(** [dropna(subset=['valuenum_fio2'])], [valuenum_fio2 > 0], the division. *)
Definition ratio_of (m : Reading * option Reading) : list SfRow :=
  match m.2 with
  | Some f =>
      if Qlt_bool 0 (rd_valuenum f)
      then [{| sfr_hadm_id := rd_hadm_id m.1; sfr_charttime := rd_charttime m.1;
               valuenum_spo2 := rd_valuenum m.1; valuenum_fio2 := rd_valuenum f;
               sf_ratio := (rd_valuenum m.1 / rd_valuenum f)%Q |}]
      else []
  | None => []
  end.

Definition reading (r : Cohort.VentData) : list Reading :=
  match Cohort.vd_hadm_id r with
  | Some h => [{| rd_hadm_id := h; rd_charttime := Cohort.charttime r;
                  rd_valuenum := Cohort.valuenum r |}]
  | None => []
  end.

Section Pipeline.

Variable t : Tables.

Definition patient_admissions : list Cohort.PatientData :=
  merge_left a_subject_id p_subject_id Cohort.Build_PatientData
    (admissions t) (patients t).

Definition adult_admissions : list Cohort.PatientData :=
  List.filter Cohort.is_adult patient_admissions.

(** The stays are de-duplicated per admission before the join. *)
Definition admissions_with_icu : list Cohort.AdultIcu :=
  merge_inner (fun r => a_hadm_id (Cohort.pd_adm r)) s_hadm_id Cohort.Build_AdultIcu
    adult_admissions (drop_duplicates s_hadm_id (icustays t)).

Definition cohort_icustays : list IcuStay :=
  List.filter (fun s => isin (s_hadm_id s) (map Cohort.hadm_id admissions_with_icu))
    (icustays t).

Definition cohort_stay_ids : gset Z := list_to_set (map s_stay_id cohort_icustays).

Definition cohort_event (e : ChartEvent) : list Cohort.VentEvent :=
  match ce_valuenum e with
  | Some v =>
      if isin_set (ce_stay_id e) cohort_stay_ids && isin (ce_itemid e) all_itemids
      then [{| Cohort.ve_stay_id := ce_stay_id e; Cohort.ve_itemid := ce_itemid e;
               Cohort.ve_charttime := ce_charttime e; Cohort.ve_valuenum := v |}]
      else []
  | None => []
  end.

(** [cohort_data.merge(cohort_icustays[...], on='stay_id')] (inner). *)
Definition cohort_data : list Cohort.VentData :=
  merge_inner Cohort.ve_stay_id s_stay_id
    (fun e s => {| Cohort.vd_event := e;
                   Cohort.param_type := classify (Cohort.ve_itemid e);
                   Cohort.vd_hadm_id := Some (s_hadm_id s);
                   Cohort.vd_intime := Some (intime s) |})
    (flat_map cohort_event (chartevents t)) cohort_icustays.

Definition peep_first_48h : list Cohort.VentData :=
  List.filter Cohort.peep_mask cohort_data.

Definition admissions_with_peep : gset Z :=
  list_to_set (omap Cohort.vd_hadm_id peep_first_48h).

Definition cohort_data_peep : list Cohort.VentData :=
  List.filter (fun r => isin_set_nan (Cohort.vd_hadm_id r) admissions_with_peep)
    cohort_data.

Definition spo2_data : list Cohort.VentData :=
  List.filter (fun r => bool_decide (Cohort.param_type r = Cohort.spo2)) cohort_data_peep.

Definition fio2_data : list Cohort.VentData :=
  List.filter (fun r => bool_decide (Cohort.param_type r = Cohort.fio2)) cohort_data_peep.

Definition fio2_normalized : list Cohort.VentData :=
  map (fun r => Cohort.set_valuenum r (normalize_fio2 (Cohort.valuenum r))) fio2_data.

Definition sf_ratios : result (list SfRow) :=
  m ← merge_asof
        (sort_values reading_le (flat_map reading spo2_data))
        (sort_values reading_le (flat_map reading fio2_normalized));
  Ok (flat_map ratio_of m).

Definition admissions_with_low_sf (sf : list SfRow) : gset Z :=
  list_to_set (map sfr_hadm_id (List.filter (fun r => Qlt_bool (sf_ratio r) 315) sf)).

Definition qualifying_admissions (sf : list SfRow) : gset Z :=
  admissions_with_peep ∩ admissions_with_low_sf sf.

Definition cohort_with_criteria : result (DataFrame Cohort.AdultIcu) :=
  if (0 <? length spo2_data)%nat && (0 <? length fio2_data)%nat then
    sf ← sf_ratios;
    Ok (Frame (List.filter
                 (fun r => isin_set (Cohort.hadm_id r) (qualifying_admissions sf))
                 admissions_with_icu))
  else Ok NoColumns.

Definition admissions_with_radiology : gset Z :=
  list_to_set (omap r_hadm_id (radiology t)).

Definition cohort_with_radiology (c : DataFrame Cohort.AdultIcu)
    : result (DataFrame Cohort.AdultIcu) :=
  if (0 <? len c)%nat then
    ids ← getitem c "hadm_id" Cohort.hadm_id;
    Ok (Frame (List.filter
                 (fun r => isin_set (Cohort.hadm_id r) admissions_with_radiology)
                 (rows_of c)))
  else Ok NoColumns.

Definition hf_hadm_ids : gset Z :=
  list_to_set (map d_hadm_id (List.filter hf_mask (diagnoses t))).

Definition pregnant_hadm_ids : gset Z :=
  list_to_set (map d_hadm_id (List.filter pregnancy_mask (diagnoses t))).

Definition final_row (r : Cohort.AdultIcu) : FinalRow :=
  {| fr_row := r;
     has_heart_failure := isin_set (Cohort.hadm_id r) hf_hadm_ids;
     is_pregnant := isin_set (Cohort.hadm_id r) pregnant_hadm_ids;
     admission_dttm := admittime (Cohort.pd_adm (Cohort.ai_adm r));
     discharge_dttm := dischtime (Cohort.pd_adm (Cohort.ai_adm r)) |}.

Definition apply_exclusions (c : DataFrame Cohort.AdultIcu)
    : result (DataFrame FinalRow) :=
  if (0 <? len c)%nat then
    ids ← getitem c "hadm_id" Cohort.hadm_id;
    Ok (Frame (List.filter
                 (fun r => negb (has_heart_failure r) && negb (is_pregnant r))
                 (map final_row (rows_of c))))
  else Ok NoColumns.

(** The S/F cell, the guarded radiology cell and the exclusion cell, one
    after the other. The cell that stands between the last two in the file
    is not part of this chain; [run_notebook] below has it. *)
Definition final_cohort : result (DataFrame FinalRow) :=
  c ← cohort_with_criteria;
  c ← cohort_with_radiology c;
  apply_exclusions c.

(** The cell at lines 389-403 rebinds [cohort_with_radiology] to
    [cohort_with_sf.merge(...)]. No cell of the notebook binds
    [cohort_with_sf]: the lookup of the name raises before the arguments of
    the call are evaluated. *)
Definition cell_radiology_merge : result (DataFrame Cohort.AdultIcu) :=
  Raise (NameError "cohort_with_sf").

(** The cells in the order of the file, as a run of the whole notebook
    executes them: the exclusion cell reads the [cohort_with_radiology] of
    the cell before it. *)
Definition run_notebook : result (DataFrame FinalRow) :=
  c ← cohort_with_criteria;
  _ ← cohort_with_radiology c;
  c ← cell_radiology_merge;
  apply_exclusions c.

End Pipeline.

End CohortV1.

(** * The ARDS identification notebook (02, optimized) *)

Module Ards.

Definition SPO2_ITEMIDS : list Z := [220277; 224696].
Definition FIO2_ITEMIDS : list Z := [220210; 223835].
Definition SF_ITEMIDS : list Z := SPO2_ITEMIDS ++ FIO2_ITEMIDS.

Inductive ParamType := unknown | spo2 | fio2.

#[global] Instance ParamType_eq_dec : EqDecision ParamType.
Proof. solve_decision. Defined.

Definition classify (itemid : Z) : ParamType :=
  let p := unknown in
  let p := if isin itemid SPO2_ITEMIDS then spo2 else p in
  let p := if isin itemid FIO2_ITEMIDS then fio2 else p in
  p.

(** The base cohort is the file written by the cohort notebook. *)
Definition BaseRow : Type := Cohort.CohortRow.
Definition stay_id (b : BaseRow) : Z := Cohort.stay_id (Cohort.c_row b).
Definition hadm_id (b : BaseRow) : Z := Cohort.hadm_id (Cohort.c_row b).
Definition base_intime (b : BaseRow) : Timestamp := intime (Cohort.ai_stay (Cohort.c_row b)).

(** A row of [sf_data] after the merge with the base cohort. *)
Record SfData := {
  sd_stay_id : Z;
  sd_charttime : Timestamp;
  sd_valuenum : Q;
  param_type : ParamType;
  sd_hadm_id : option Z;
  sd_intime : option Timestamp }.

Definition minutes_between (charttime : Timestamp) (t0 : option Timestamp) : option Q :=
  match t0 with
  | Some t0 => Some (total_seconds (charttime - t0) / 60)%Q
  | None => None
  end.

Definition minutes_from_icu (r : SfData) : option Q :=
  minutes_between (sd_charttime r) (sd_intime r).

Definition set_valuenum (r : SfData) (v : Q) : SfData :=
  {| sd_stay_id := sd_stay_id r; sd_charttime := sd_charttime r; sd_valuenum := v;
     param_type := param_type r; sd_hadm_id := sd_hadm_id r; sd_intime := sd_intime r |}.

(** A row of [sf_pivot], indexed by (stay_id, hadm_id, charttime). *)
Record SfPivot := {
  pv_stay_id : Z;
  pv_hadm_id : Z;
  pv_charttime : Timestamp;
  pv_spo2 : option Q;
  pv_fio2 : option Q }.

(** A row of [sf_ratios] before and after the merge that adds [intime]. *)
Record Ratio := {
  rt_stay_id : Z;
  rt_hadm_id : Z;
  rt_charttime : Timestamp;
  rt_spo2 : Q;
  rt_fio2 : Q;
  rt_sf_ratio : Q }.

Record SfRatio := {
  sr_ratio : Ratio;
  sr_intime : option Timestamp }.

Definition sr_stay_id (r : SfRatio) : Z := rt_stay_id (sr_ratio r).
Definition sr_hadm_id (r : SfRatio) : Z := rt_hadm_id (sr_ratio r).
Definition sr_charttime (r : SfRatio) : Timestamp := rt_charttime (sr_ratio r).
Definition sr_spo2 (r : SfRatio) : Q := rt_spo2 (sr_ratio r).
Definition sr_fio2 (r : SfRatio) : Q := rt_fio2 (sr_ratio r).
Definition sf_ratio (r : SfRatio) : Q := rt_sf_ratio (sr_ratio r).

(** A row of [ards_onset_times]. *)
Record Onset := {
  on_hadm_id : Z;
  ards_onset_time : Timestamp;
  ards_onset_sf_ratio : Q;
  ards_onset_minutes_from_icu : option Q }.

(** A row of [bilateral_by_admission]. *)
Record Bilateral := {
  bl_hadm_id : Z;
  has_bilateral_infiltrates : bool;
  first_radiology_time : Timestamp }.

Inductive Severity := none | mild | moderate | severe.

(** A row of the flagged [final_cohort]. *)
Record Flagged := {
  f_base : BaseRow;
  f_ards_onset_time : option Timestamp;
  f_ards_onset_sf_ratio : option Q;
  f_ards_onset_minutes_from_icu : option Q;
  f_has_bilateral_infiltrates : bool;
  f_first_radiology_time : option Timestamp;
  has_ards_onset : bool;
  has_ards : bool;
  hours_icu_to_ards_onset : option Q;
  ards_severity : Severity }.

Definition pivot_key (r : SfData) : option (Z * (Z * Timestamp)) :=
  match sd_hadm_id r with
  | Some h => Some (sd_stay_id r, (h, sd_charttime r))
  | None => None
  end.

Definition first_value (rows : list SfData) (k : Z * (Z * Timestamp))
    (p : ParamType) : option Q :=
  head (map sd_valuenum
    (List.filter (fun r => bool_decide (pivot_key r = Some k)
                           && bool_decide (param_type r = p)) rows)).

Definition pivot_table (rows : list SfData) : list SfPivot :=
  map (fun k => {| pv_stay_id := k.1; pv_hadm_id := k.2.1; pv_charttime := k.2.2;
                   pv_spo2 := first_value rows k spo2;
                   pv_fio2 := first_value rows k fio2 |})
      (sorted_unique3 (omap pivot_key rows)).

(** [dropna(subset=['spo2','fio2'])], [fio2 > 0], then the division. *)
Definition ratio_of (p : SfPivot) : list Ratio :=
  match pv_spo2 p, pv_fio2 p with
  | Some s, Some f =>
      if Qlt_bool 0 f
      then [{| rt_stay_id := pv_stay_id p; rt_hadm_id := pv_hadm_id p;
               rt_charttime := pv_charttime p; rt_spo2 := s; rt_fio2 := f;
               rt_sf_ratio := (s / f)%Q |}]
      else []
  | _, _ => []
  end.

Definition sr_minutes_from_icu (r : SfRatio) : option Q :=
  minutes_between (sr_charttime r) (sr_intime r).

(** Severity bands of the S/F ratio at onset. *)
Definition severity_of (onset : bool) (ratio : option Q) : Severity :=
  let s := none in
  let s := if onset && match ratio with Some r => Qlt_bool 235 r | None => false end
           then mild else s in
  let s := if onset && nan_le ratio 235
              && match ratio with Some r => Qlt_bool 150 r | None => false end
           then moderate else s in
  let s := if onset && nan_le ratio 150 then severe else s in
  s.

Section Pipeline.

Variable base_cohort : list BaseRow.
Variable chartevents : list ChartEvent.
Variable radiology : list RadiologyNote.
(** The text classifier, applied to the [text] column. *)
Variable detect : option string -> bool.

(** Cell 5 *)
Definition target_stay_ids : gset Z := list_to_set (map stay_id base_cohort).

Definition sf_event (e : ChartEvent) : list (Z * Z * Timestamp * Q) :=
  match ce_valuenum e with
  | Some v =>
      if isin_set (ce_stay_id e) target_stay_ids && isin (ce_itemid e) SF_ITEMIDS
      then [(ce_stay_id e, ce_itemid e, ce_charttime e, v)]
      else []
  | None => []
  end.

(** Cell 6 *)
Definition sf_data : list SfData :=
  merge_left (fun e : Z * Z * Timestamp * Q => e.1.1.1) stay_id
    (fun e m => {| sd_stay_id := e.1.1.1; sd_charttime := e.1.2; sd_valuenum := e.2;
                   param_type := classify e.1.1.2;
                   sd_hadm_id := option_map hadm_id m;
                   sd_intime := option_map base_intime m |})
    (flat_map sf_event chartevents) base_cohort.

Definition sf_data_60min : list SfData :=
  List.filter (fun r => nan_ge (minutes_from_icu r) 0 && nan_le (minutes_from_icu r) 60)
    sf_data.

(** Cell 7 *)
Definition spo2_data : list SfData :=
  List.filter (fun r => bool_decide (param_type r = spo2)) sf_data_60min.

Definition fio2_data : list SfData :=
  List.filter (fun r => bool_decide (param_type r = fio2)) sf_data_60min.

Definition fio2_mask (r : SfData) : bool :=
  bool_decide (param_type r = fio2) && Qlt_bool 1 (sd_valuenum r).

Definition convert_fio2 (r : SfData) : SfData :=
  if fio2_mask r then set_valuenum r (sd_valuenum r / 100)%Q else r.

Definition sf_data_60min_normalized : list SfData := map convert_fio2 sf_data_60min.

Definition sf_pivot : list SfPivot := pivot_table sf_data_60min_normalized.

Definition sf_ratios : DataFrame SfRatio :=
  if (0 <? length spo2_data)%nat && (0 <? length fio2_data)%nat
  then Frame (merge_left rt_stay_id stay_id
                (fun r m => {| sr_ratio := r; sr_intime := option_map base_intime m |})
                (flat_map ratio_of sf_pivot) base_cohort)
  else NoColumns.

(** Cell 10: the onset record of each admission. *)
Definition ards_sf_criteria (sf : list SfRatio) : list SfRatio :=
  List.filter (fun r => Qle_bool (sf_ratio r) 315) sf.

Definition group (crit : list SfRatio) (h : Z) : list SfRatio :=
  List.filter (fun r => sr_hadm_id r =? h) crit.

Definition onset_of (crit : list SfRatio) (h : Z) : list Onset :=
  match min_of_Z (map sr_charttime (group crit h)),
        min_of_Q (map sf_ratio (group crit h)) with
  | Some tmin, Some qmin =>
      [{| on_hadm_id := h;
          ards_onset_time := tmin;
          ards_onset_sf_ratio := qmin;
          ards_onset_minutes_from_icu :=
            min_of_Q (omap sr_minutes_from_icu (group crit h)) |}]
  | _, _ => []
  end.

Definition groupby_onset (crit : list SfRatio) : list Onset :=
  flat_map (onset_of crit) (sorted_unique (map sr_hadm_id crit)).

Definition ards_onset_times : DataFrame Onset :=
  if (0 <? len sf_ratios)%nat then
    let crit := ards_sf_criteria (rows_of sf_ratios) in
    if (0 <? length crit)%nat then Frame (groupby_onset crit) else NoColumns
  else NoColumns.

(** The last statement of cell 10 is
    [if 'sf_ratios' in locals(): del sf_ratios, ards_sf_criteria].
    Cell 7 always binds [sf_ratios]; [ards_sf_criteria] is bound only in the
    first branch of cell 10, and [del] of an unbound name raises. *)
Definition cell_onset : result (DataFrame Onset) :=
  let onset := ards_onset_times in
  if (0 <? len sf_ratios)%nat then Ok onset
  else Raise (NameError "ards_sf_criteria").

(** Cells 12 to 14: radiology reports of the cohort, flag per admission. *)
Definition cohort_hadm_ids : gset Z := list_to_set (map hadm_id base_cohort).

Definition cohort_radiology : list (Z * RadiologyNote) :=
  omap (fun n => match r_hadm_id n with
                 | Some h => if isin_set h cohort_hadm_ids then Some (h, n) else None
                 | None => None
                 end) radiology.

Definition bilateral_infiltrates (n : RadiologyNote) : bool := detect (text n).

Definition reports_of (h : Z) : list RadiologyNote :=
  map snd (List.filter (fun x => x.1 =? h) cohort_radiology).

Definition bilateral_of (h : Z) : list Bilateral :=
  match min_of_Z (map r_charttime (reports_of h)) with
  | Some tmin =>
      [{| bl_hadm_id := h;
          has_bilateral_infiltrates := existsb bilateral_infiltrates (reports_of h);
          first_radiology_time := tmin |}]
  | None => []
  end.

Definition bilateral_by_admission : list Bilateral :=
  flat_map bilateral_of (sorted_unique (map fst cohort_radiology)).

(** Cell 16: two left joins on [hadm_id], then [fillna(False)]. *)
Definition merge_onset : list (BaseRow * option Onset) :=
  if (0 <? len ards_onset_times)%nat
  then merge_left hadm_id on_hadm_id (fun b m => (b, m))
         base_cohort (rows_of ards_onset_times)
  else map (fun b => (b, None)) base_cohort.

Definition merge_bilateral : list (BaseRow * option Onset * option Bilateral) :=
  if (0 <? length bilateral_by_admission)%nat
  then merge_left (fun x : BaseRow * option Onset => hadm_id x.1) bl_hadm_id
         (fun x m => (x, m)) merge_onset bilateral_by_admission
  else map (fun x => (x, None)) merge_onset.

(** Cell 17: the flags. *)
Definition flag (x : BaseRow * option Onset * option Bilateral) : Flagged :=
  let b := x.1.1 in
  let onset_time := option_map ards_onset_time x.1.2 in
  let onset_ratio := option_map ards_onset_sf_ratio x.1.2 in
  let bilateral :=
    match x.2 with Some r => has_bilateral_infiltrates r | None => false end in
  let onset := bool_decide (is_Some onset_time) in
  {| f_base := b;
     f_ards_onset_time := onset_time;
     f_ards_onset_sf_ratio := onset_ratio;
     f_ards_onset_minutes_from_icu :=
       match x.1.2 with Some o => ards_onset_minutes_from_icu o | None => None end;
     f_has_bilateral_infiltrates := bilateral;
     f_first_radiology_time := option_map first_radiology_time x.2;
     has_ards_onset := onset;
     has_ards := onset && bilateral;
     hours_icu_to_ards_onset :=
       match onset_time with
       | Some t1 => Some (total_seconds (t1 - base_intime b) / 3600)%Q
       | None => None
       end;
     ards_severity := severity_of onset onset_ratio |}.

Definition final_cohort : list Flagged := map flag merge_bilateral.

(** The cells in order, as a run of the whole notebook executes them. *)
Definition run_notebook : result (list Flagged) :=
  _ ← cell_onset; Ok final_cohort.

End Pipeline.

End Ards.

(** * The Berlin-criteria notebook *)

Module Berlin.

Inductive Kind := k_peep | k_fio2_percent | k_fio2_fraction | k_pao2 | k_pf_ratio.

(** The dictionary [ventilation_itemids]. *)
Definition ventilation_itemids (k : Kind) : list Z :=
  match k with
  | k_peep => [220339; 224700]
  | k_fio2_percent => [220210]
  | k_fio2_fraction => [223835; 224698]
  | k_pao2 => [220224; 224689]
  | k_pf_ratio => [223834]
  end.

Definition all_itemids : list Z :=
  flat_map ventilation_itemids [k_peep; k_fio2_percent; k_fio2_fraction; k_pao2; k_pf_ratio].

Inductive ParamType :=
  unknown | peep | fio2_percent | fio2_fraction | fio2 | pao2 | pf_ratio.

#[global] Instance ParamType_eq_dec : EqDecision ParamType.
Proof. solve_decision. Defined.

Definition classify (itemid : Z) : ParamType :=
  let p := unknown in
  let p := if isin itemid (ventilation_itemids k_peep) then peep else p in
  let p := if isin itemid (ventilation_itemids k_fio2_percent) then fio2_percent else p in
  let p := if isin itemid (ventilation_itemids k_fio2_fraction) then fio2_fraction else p in
  let p := if isin itemid (ventilation_itemids k_pao2) then pao2 else p in
  let p := if isin itemid (ventilation_itemids k_pf_ratio) then pf_ratio else p in
  p.

(** A row of [df] inside [process_vent_params_vectorized]. *)
Record VentRow := {
  vr_hadm_id : Z;
  vr_charttime : Timestamp;
  vr_param : ParamType;
  vr_value : option Q }.

(** The percentage rows are divided by 100, then both FiO2 types are
    renamed to ['fio2']. *)
Definition vent_row (e : ChartEvent) : VentRow :=
  let p := classify (ce_itemid e) in
  let v := if bool_decide (p = fio2_percent)
           then option_map (fun x => (x / 100)%Q) (ce_valuenum e)
           else ce_valuenum e in
  let p := if bool_decide (p = fio2_percent) then fio2 else p in
  let p := if bool_decide (p = fio2_fraction) then fio2 else p in
  {| vr_hadm_id := ce_hadm_id e; vr_charttime := ce_charttime e;
     vr_param := p; vr_value := v |}.

(** A row of [vent_processed]. *)
Record Vent := {
  v_hadm_id : Z;
  v_charttime : Timestamp;
  v_peep : option Q;
  v_fio2 : option Q;
  v_pao2 : option Q;
  v_pf_ratio : option Q }.

Definition pivot_key (r : VentRow) : option (Z * Timestamp) :=
  match vr_value r with
  | Some _ => Some (vr_hadm_id r, vr_charttime r)
  | None => None
  end.

(** [aggfunc='first']: the first non-null value of the parameter. *)
Definition first_value (rows : list VentRow) (k : Z * Timestamp)
    (p : ParamType) : option Q :=
  head (omap vr_value
    (List.filter (fun r => bool_decide ((vr_hadm_id r, vr_charttime r) = k)
                           && bool_decide (vr_param r = p)) rows)).

(** The P/F ratio is computed where it was not recorded directly. *)
Definition with_pf_ratio (r : Vent) : Vent :=
  match v_pf_ratio r, v_pao2 r, v_fio2 r with
  | None, Some pa, Some f =>
      if Qlt_bool 0 f
      then {| v_hadm_id := v_hadm_id r; v_charttime := v_charttime r;
              v_peep := v_peep r; v_fio2 := v_fio2 r; v_pao2 := v_pao2 r;
              v_pf_ratio := Some (pa / f)%Q |}
      else r
  | _, _, _ => r
  end.

Definition process_vent_params_vectorized (df : list ChartEvent) : list Vent :=
  let rows := map vent_row df in
  map (fun k => with_pf_ratio
                  {| v_hadm_id := k.1; v_charttime := k.2;
                     v_peep := first_value rows k peep;
                     v_fio2 := first_value rows k fio2;
                     v_pao2 := first_value rows k pao2;
                     v_pf_ratio := first_value rows k pf_ratio |})
      (sorted_unique2 (omap pivot_key rows)).

(** A row of [bilateral_infiltrates_df]. *)
Record BilateralTime := {
  bt_hadm_id : Z;
  bilateral_infiltrates_time : Timestamp;
  bt_note_id : string }.

(** A row of [vent_with_bilateral]. *)
Record VentBilateral := {
  vb_vent : Vent;
  vb_bilateral_time : Timestamp;
  vb_admission_dttm : Timestamp }.

Definition hours (d : Timedelta) : Q := (total_seconds d / 3600)%Q.
Arguments hours d%_Z.

Definition hours_from_admission (r : VentBilateral) : Q :=
  hours (v_charttime (vb_vent r) - vb_admission_dttm r).
Definition hours_from_bilateral (r : VentBilateral) : Q :=
  hours (v_charttime (vb_vent r) - vb_bilateral_time r).
Definition bilateral_from_admission (r : VentBilateral) : Q :=
  hours (vb_bilateral_time r - vb_admission_dttm r).

(** The Berlin filter of [identify_ards_onset_vectorized_corrected]. *)
Definition berlin_mask (r : VentBilateral) : bool :=
  Qle_bool (bilateral_from_admission r) 168
  && Qle_bool 0 (hours_from_bilateral r)
  && Qle_bool 0 (hours_from_admission r)
  && Qle_bool (hours_from_admission r) 168
  && nan_ge (v_peep (vb_vent r)) 5
  && bool_decide (is_Some (v_pf_ratio (vb_vent r)))
  && nan_le (v_pf_ratio (vb_vent r)) 300.

Inductive Severity := s_severe | s_moderate | s_mild | s_unknown.

(** [np.select]: the first condition that holds. *)
Definition severity_of (pf : option Q) : Severity :=
  if nan_le pf 100 then s_severe
  else if nan_le pf 200 then s_moderate
  else if nan_le pf 300 then s_mild
  else s_unknown.

(** A row of [ards_df]. *)
Record ArdsRow := {
  ar_row : VentBilateral;
  ards_severity : Severity }.

(** The outcome of a call of the per-admission function: the value it
    returns, or the [IndexError] of [.iloc[0]] on an empty selection. *)
Inductive Outcome (A : Type) :=
  | Returns (a : A)
  | IndexError.
Arguments Returns {A} a.
Arguments IndexError {A}.

(** A row of [ards_cohort]. *)
Record ArdsCohortRow := {
  ac_base : CohortV1.FinalRow;
  ac_ards : ArdsRow;
  hours_to_ards_onset : Q }.

(** [timedelta(days=7)] *)
Definition seven_days : Timedelta := 7 * 24 * 3600 * 1000000000.

Section Identify.

Variable bilateral_infiltrates_df : list BilateralTime.
Variable vent_processed : list Vent.
Variable base_cohort : list CohortV1.FinalRow.

Definition vent_with_bilateral : list VentBilateral :=
  merge_inner (fun x : Vent * Timestamp => v_hadm_id x.1) CohortV1.hadm_id
    (fun x b => {| vb_vent := x.1; vb_bilateral_time := x.2;
                   vb_admission_dttm := CohortV1.admission_dttm b |})
    (merge_inner v_hadm_id bt_hadm_id
       (fun v b => (v, bilateral_infiltrates_time b))
       vent_processed bilateral_infiltrates_df)
    base_cohort.

Definition qualifying_measurements : list VentBilateral :=
  List.filter berlin_mask vent_with_bilateral.

(** [groupby('hadm_id')['charttime'].idxmin()]: per admission, the first row
    holding the smallest chart time. *)
Definition earliest (h : Z) : list VentBilateral :=
  let g := List.filter (fun r => v_hadm_id (vb_vent r) =? h) qualifying_measurements in
  match min_of_Z (map (fun r => v_charttime (vb_vent r)) g) with
  | Some tmin =>
      match List.filter (fun r => v_charttime (vb_vent r) =? tmin) g with
      | r :: _ => [r]
      | [] => []
      end
  | None => []
  end.

Definition earliest_ards : list VentBilateral :=
  flat_map earliest
    (sorted_unique (map (fun r => v_hadm_id (vb_vent r)) qualifying_measurements)).

Definition identify_ards_onset_vectorized_corrected : DataFrame ArdsRow :=
  if (length vent_with_bilateral =? 0)%nat then NoColumns
  else if (length qualifying_measurements =? 0)%nat then NoColumns
  else Frame (map (fun r => {| ar_row := r;
                               ards_severity := severity_of (v_pf_ratio (vb_vent r)) |})
                  earliest_ards).

(** [identify_ards_onset_corrected(hadm_id, ...)], the per-admission
    function; the dictionary it returns holds the fields of a row of
    [ards_df]. The first row of [sort_values('charttime')] is the first, in
    frame order, of the rows with the smallest chart time. *)
Definition identify_ards_onset_corrected (hadm_id : Z) : Outcome (option ArdsRow) :=
  if negb (isin hadm_id (map bt_hadm_id bilateral_infiltrates_df)) then Returns None
  else
    match List.filter (fun b => bt_hadm_id b =? hadm_id) bilateral_infiltrates_df,
          List.filter (fun c => CohortV1.hadm_id c =? hadm_id) base_cohort with
    | [], _ => IndexError
    | _ :: _, [] => IndexError
    | b :: _, c :: _ =>
        let bilateral_time := bilateral_infiltrates_time b in
        let admission_time := CohortV1.admission_dttm c in
        if Qlt_bool 7 (total_seconds (bilateral_time - admission_time) / (24 * 3600))
        then Returns None
        else
          let hadm_vent := List.filter (fun v => v_hadm_id v =? hadm_id) vent_processed in
          if (length hadm_vent =? 0)%nat then Returns None
          else
            let time_window_end := admission_time + seven_days in
            let qualifying_measurements :=
              List.filter
                (fun v => (bilateral_time <=? v_charttime v)
                          && (admission_time <=? v_charttime v)
                          && (v_charttime v <=? time_window_end)
                          && nan_ge (v_peep v) 5
                          && bool_decide (is_Some (v_pf_ratio v))
                          && nan_le (v_pf_ratio v) 300) hadm_vent in
            if (length qualifying_measurements =? 0)%nat then Returns None
            else
              match sort_values (fun a b => v_charttime a <=? v_charttime b)
                      qualifying_measurements with
              | [] => IndexError
              | first_qualifying :: _ =>
                  let pf_ratio := v_pf_ratio first_qualifying in
                  let severity :=
                    if nan_le pf_ratio 100 then s_severe
                    else if nan_le pf_ratio 200 then s_moderate
                    else s_mild in
                  Returns (Some
                    {| ar_row := {| vb_vent := first_qualifying;
                                    vb_bilateral_time := bilateral_time;
                                    vb_admission_dttm := admission_time |};
                       ards_severity := severity |})
              end
    end.

End Identify.

Section Notebook.

Variable base_cohort : list CohortV1.FinalRow.
Variable radiology : list RadiologyNote.
Variable icustays : list IcuStay.
Variable chartevents : list ChartEvent.
Variable detect : option string -> bool.

Definition cohort_hadm_ids : gset Z := list_to_set (map CohortV1.hadm_id base_cohort).

Definition cohort_radiology : list (Z * RadiologyNote) :=
  omap (fun n => match r_hadm_id n with
                 | Some h => if isin_set h cohort_hadm_ids then Some (h, n) else None
                 | None => None
                 end) radiology.

(** The reports of an admission that the classifier flags. *)
Definition positive_reports (h : Z) : list RadiologyNote :=
  map snd (List.filter (fun x => (x.1 =? h) && detect (text x.2)) cohort_radiology).

Definition bilateral_of (h : Z) : list BilateralTime :=
  match positive_reports h with
  | n :: rest =>
      [{| bt_hadm_id := h;
          bilateral_infiltrates_time := min_Z (r_charttime n) (map r_charttime rest);
          bt_note_id := note_id n |}]
  | [] => []
  end.

Definition bilateral_infiltrates_df : list BilateralTime :=
  flat_map bilateral_of
    (sorted_unique (map fst (List.filter (fun x => detect (text x.2)) cohort_radiology))).

Definition cohort_icustays : list IcuStay :=
  List.filter (fun s => isin_set (s_hadm_id s) cohort_hadm_ids) icustays.

(** The chunks that hold a matching row are concatenated; [pd.concat] of
    an empty list raises. *)
Definition vent_df : result (list ChartEvent) :=
  match List.filter (fun e => isin (ce_stay_id e) (map s_stay_id cohort_icustays)
                              && isin (ce_itemid e) all_itemids) chartevents with
  | [] => Raise (ValueError "No objects to concatenate")
  | rows => Ok rows
  end.

Definition vent_processed : result (list Vent) :=
  df ← vent_df; Ok (process_vent_params_vectorized df).

Definition ards_df : result (DataFrame ArdsRow) :=
  vp ← vent_processed;
  Ok (identify_ards_onset_vectorized_corrected bilateral_infiltrates_df vp base_cohort).

(** [base_cohort.merge(ards_df, on='hadm_id', how='inner')]: the frame
    without columns has no ['hadm_id'] to join on. *)
Definition ards_cohort (df : DataFrame ArdsRow) : result (list ArdsCohortRow) :=
  match df with
  | NoColumns => Raise (KeyError "hadm_id")
  | Frame rows =>
      Ok (merge_inner CohortV1.hadm_id (fun a => v_hadm_id (vb_vent (ar_row a)))
            (fun b a =>
               {| ac_base := b; ac_ards := a;
                  hours_to_ards_onset :=
                    hours (v_charttime (vb_vent (ar_row a)) - CohortV1.admission_dttm b) |})
            base_cohort rows)
  end.

(** The cells in order, up to the frame that is saved. *)
Definition run_notebook : result (list ArdsCohortRow) :=
  df ← ards_df; ards_cohort df.

End Notebook.

End Berlin.

(** * Stage sets, the composition rule, and sample tables *)

(** The row of [patient_data] for an admission and its patient. *)
Definition patient_row (adm : Admission) (p : Patient) : Cohort.PatientData :=
  {| Cohort.pd_adm := adm; Cohort.pd_patient := Some p |}.

(** Sample tables: one adult admission with one ICU stay starting at hour 1,
    PEEP 6 at hour 11, and one SpO2 / FiO2 pair at hour 11. *)
Definition hour : Z := 3600000000000.
Definition minute : Z := 60000000000.

Definition sample_admission : Admission :=
  {| a_subject_id := 1; a_hadm_id := 100; admittime := 0; dischtime := 240 * hour;
     admission_type := "URGENT"; admission_location := "EMERGENCY ROOM";
     discharge_location := "HOME"; insurance := "Medicare";
     marital_status := "SINGLE"; hospital_expire_flag := 0 |}.

Definition sample_patient : Patient :=
  {| p_subject_id := 1; anchor_age := 50; anchor_year := 1970; gender := "F" |}.

Definition sample_stay : IcuStay :=
  {| s_hadm_id := 100; s_stay_id := 7; intime := 1 * hour; outtime := 25 * hour |}.

Definition sample_second_stay : IcuStay :=
  {| s_hadm_id := 100; s_stay_id := 8; intime := 100 * hour; outtime := 136 * hour |}.

Definition event (stay itemid : Z) (at_ : Timestamp) (v : Q) : ChartEvent :=
  {| ce_hadm_id := 100; ce_stay_id := stay; ce_itemid := itemid;
     ce_charttime := at_; ce_valuenum := Some v |}.

Definition sample_note : RadiologyNote :=
  {| note_id := "n1"; r_hadm_id := Some 100; r_charttime := 5 * hour;
     text := Some "bilateral opacities"%string |}.

Definition tables_with (stays : list IcuStay) (events : list ChartEvent)
    (codes : list string) : Tables :=
  {| patients := [sample_patient]; admissions := [sample_admission];
     icustays := stays; chartevents := events;
     diagnoses := map (fun c => {| d_hadm_id := 100; icd_code := Some c |}) codes;
     radiology := [sample_note] |}.

Definition sample_tables (stays : list IcuStay) (events : list ChartEvent) : Tables :=
  tables_with stays events ["J80"%string].

(** PEEP 6 ten hours into the stay, SpO2 90 with FiO2 0.30 at that instant. *)
Definition scenario_events : list ChartEvent :=
  [event 7 220339 (11 * hour) 6; event 7 220277 (11 * hour) 90;
   event 7 223835 (11 * hour) 0.30].

Definition scenario : Tables := sample_tables [sample_stay] scenario_events.

(** SpO2 recorded as -90 with FiO2 0.5 at the same instant. *)
Definition negative_spo2_tables : Tables :=
  sample_tables [sample_stay]
    [event 7 220339 (11 * hour) 6; event 7 220277 (11 * hour) (-90);
     event 7 223835 (11 * hour) 0.5].

(** SpO2 100 with a positive FiO2 of [fio2] at the same instant. *)
Definition tiny_fio2_tables (fio2 : Q) : Tables :=
  sample_tables [sample_stay]
    [event 7 220339 (11 * hour) 6; event 7 220277 (11 * hour) 100;
     event 7 223835 (11 * hour) fio2].

(** Every binary32 value is below [2^128] and every binary64 value below
    [2^1024]: a division whose exact quotient reaches the bound returns
    [inf]. *)
Definition float32_bound : Q := inject_Z (2 ^ 128).
Definition float64_bound : Q := inject_Z (2 ^ 1024).

(** One PEEP reading of 5 at [offset] nanoseconds after the ICU admission. *)
Definition peep_at (offset : Timedelta) : Tables :=
  sample_tables [sample_stay] [event 7 220339 (intime sample_stay + offset) 5].

(** The admissions of the frames that carry the age and the ICU stage. *)
Definition admission_ids (t : Tables) : gset Z :=
  list_to_set (map a_hadm_id (admissions t)).

Definition adult_ids (t : Tables) : gset Z :=
  list_to_set (map (fun r => a_hadm_id (Cohort.pd_adm r)) (Cohort.adult_admissions t)).

Definition icu_ids (t : Tables) : gset Z :=
  list_to_set (map s_hadm_id (icustays t)).

Definition adult_icu_ids (t : Tables) : gset Z :=
  list_to_set (map Cohort.hadm_id (Cohort.adult_icu_admissions t)).

(** The composition rule: stages are applied one after the other to the
    set of all admissions, an inclusion stage by intersection, an exclusion
    stage by difference. *)
Inductive Stage :=
  | Include (s : gset Z)
  | Exclude (s : gset Z).

Definition apply_stage (acc : gset Z) (st : Stage) : gset Z :=
  match st with
  | Include s => acc ∩ s
  | Exclude s => acc ∖ s
  end.

Definition evaluate (universe : gset Z) (stages : list Stage) : gset Z :=
  fold_left apply_stage stages universe.

Definition passes (x : Z) (st : Stage) : Prop :=
  match st with
  | Include s => x ∈ s
  | Exclude s => x ∉ s
  end.

(** The stages of the cohort notebook. *)
Definition cohort_stages (t : Tables) : list Stage :=
  [ Include (adult_ids t); Include (icu_ids t);
    Include (Cohort.peep_qualifying_admissions t);
    Include (Cohort.sf_qualifying_admissions t);
    Include (Cohort.radiology_admissions t);
    Exclude (Cohort.hf_admissions t);
    Exclude (Cohort.pregnancy_admissions t) ].

(** The scenario admission with a second ICU stay. *)
Definition two_stay_tables : Tables :=
  sample_tables [sample_stay; sample_second_stay] scenario_events.

(** Two observations of the scenario stay, 10 and 20 minutes after ICU
    admission: SpO2 95 on FiO2 40%, then SpO2 90 on FiO2 90%. *)
Definition onset_base_cohort : list Ards.BaseRow := rows_of (Cohort.final_cohort scenario).

Definition onset_events : list ChartEvent :=
  [event 7 220277 (hour + 10 * minute) 95; event 7 220210 (hour + 10 * minute) 40;
   event 7 220277 (hour + 20 * minute) 90; event 7 220210 (hour + 20 * minute) 90].

(** A negative report at hour 2, then a positive report at hour 5. *)
Definition two_reports : list RadiologyNote :=
  [ {| note_id := "n0"; r_hadm_id := Some 100; r_charttime := 2 * hour;
       text := Some "No acute cardiopulmonary process."%string |};
    {| note_id := "n1"; r_hadm_id := Some 100; r_charttime := 5 * hour;
       text := Some "Bilateral patchy opacities."%string |} ].

(** The claim's reading of the ratio: the SpO2 charted for the admission at
    the instant of the observation, over the FiO2 of the observation. *)
Definition spo2_at (events : list ChartEvent) (h : Z) (at_ : Timestamp) : option Q :=
  head (omap ce_valuenum
    (List.filter (fun e => (ce_hadm_id e =? h) && (ce_charttime e =? at_)
                           && isin (ce_itemid e) Cohort.SPO2_ITEMIDS) events)).

Definition sf_ratio_at (events : list ChartEvent) (v : Berlin.Vent) : option Q :=
  match spo2_at events (Berlin.v_hadm_id v) (Berlin.v_charttime v), Berlin.v_fio2 v with
  | Some s, Some f => if Qlt_bool 0 f then Some (s / f)%Q else None
  | _, _ => None
  end.

Definition claimed_sf_mask (events : list ChartEvent) (r : Berlin.VentBilateral) : bool :=
  Qle_bool (Berlin.bilateral_from_admission r) 168
  && Qle_bool 0 (Berlin.hours_from_bilateral r)
  && Qle_bool 0 (Berlin.hours_from_admission r)
  && Qle_bool (Berlin.hours_from_admission r) 168
  && nan_ge (Berlin.v_peep (Berlin.vb_vent r)) 5
  && nan_le (sf_ratio_at events (Berlin.vb_vent r)) 300.

(** One observation six hours after admission, after the positive report of
    hour 5: PEEP 8, SpO2 90, FiO2 0.5, PaO2 200. *)
Definition berlin_events : list ChartEvent :=
  [event 7 220339 (6 * hour) 8; event 7 220277 (6 * hour) 90;
   event 7 223835 (6 * hour) 0.5; event 7 220224 (6 * hour) 200].

Definition berlin_base_cohort : list CohortV1.FinalRow :=
  match CohortV1.final_cohort scenario with
  | Ok fc => rows_of fc
  | Raise _ => []
  end.

Definition berlin_vent_processed : list Berlin.Vent :=
  match Berlin.vent_processed berlin_base_cohort [sample_stay] berlin_events with
  | Ok vp => vp
  | Raise _ => []
  end.

Definition berlin_bilateral : list Berlin.BilateralTime :=
  Berlin.bilateral_infiltrates_df berlin_base_cohort two_reports detect_bilateral_infiltrates.

(** A second admission (200) of the sample patient, with its own ICU stay;
    its readings are charted at hour 5, before those of admission 100 at
    hour 11. *)
Definition second_admission : Admission :=
  {| a_subject_id := 1; a_hadm_id := 200; admittime := 0; dischtime := 240 * hour;
     admission_type := "URGENT"; admission_location := "EMERGENCY ROOM";
     discharge_location := "HOME"; insurance := "Medicare";
     marital_status := "SINGLE"; hospital_expire_flag := 0 |}.

Definition second_admission_stay : IcuStay :=
  {| s_hadm_id := 200; s_stay_id := 9; intime := 1 * hour; outtime := 30 * hour |}.

Definition interleaved_tables : Tables :=
  {| patients := [sample_patient];
     admissions := [sample_admission; second_admission];
     icustays := [sample_stay; second_admission_stay];
     chartevents := scenario_events ++
       [event 9 220339 (5 * hour) 6; event 9 220277 (5 * hour) 95;
        event 9 223835 (5 * hour) 0.4];
     diagnoses := [];
     radiology := [sample_note] |}.

(** The observation of hour 6 with PaO2 100 on FiO2 0.5: P/F ratio 200. *)
Definition berlin_case_events : list ChartEvent :=
  [event 7 220339 (6 * hour) 8; event 7 223835 (6 * hour) 0.5;
   event 7 220224 (6 * hour) 100].

Definition berlin_case_vent : list Berlin.Vent :=
  Berlin.process_vent_params_vectorized berlin_case_events.

(** The base cohort of the admission with two ICU stays: two rows. *)
Definition two_stay_base_cohort : list Ards.BaseRow :=
  rows_of (Cohort.final_cohort two_stay_tables).

(** The list [pregnancy_codes] the optimized notebook builds beside the
    mask. *)
Definition pregnancy_codes : list string :=
  map str (range 630 680) ++ ["O"%string].

(** Two positive reports of admission 100: the one charted at hour 9 is
    listed before the one charted at hour 5. *)
Definition out_of_order_reports : list RadiologyNote :=
  [ {| note_id := "n9"; r_hadm_id := Some 100; r_charttime := 9 * hour;
       text := Some "Bilateral patchy opacities."%string |};
    {| note_id := "n5"; r_hadm_id := Some 100; r_charttime := 5 * hour;
       text := Some "Diffuse bilateral infiltrates."%string |} ].

Definition out_of_order_row : Berlin.BilateralTime :=
  {| Berlin.bt_hadm_id := 100; Berlin.bilateral_infiltrates_time := 5 * hour;
     Berlin.bt_note_id := "n9" |}.

(** * Properties *)

(** ** Comparisons *)

Lemma Qlt_bool_iff (x y : Q) : Qlt_bool x y = true <-> (x < y)%Q.
Proof.
  unfold Qlt_bool. rewrite negb_true_iff, <- not_true_iff_false, Qle_bool_iff.
  split; [apply Qnot_le_lt | apply Qlt_not_le].
Qed.

Lemma Qlt_bool_false (x y : Q) : Qlt_bool x y = false <-> (y <= x)%Q.
Proof.
  unfold Qlt_bool. rewrite negb_false_iff. apply Qle_bool_iff.
Qed.

Lemma nan_ge_iff (x : option Q) (c : Q) :
  nan_ge x c = true <-> exists v, x = Some v /\ (c <= v)%Q.
Proof.
  destruct x as [v|]; simpl.
  - rewrite Qle_bool_iff. split; [eauto | intros (w & [= ->] & ?); done].
  - split; [done | intros (w & ? & ?); done].
Qed.

Lemma nan_le_iff (x : option Q) (c : Q) :
  nan_le x c = true <-> exists v, x = Some v /\ (v <= c)%Q.
Proof.
  destruct x as [v|]; simpl.
  - rewrite Qle_bool_iff. split; [eauto | intros (w & [= ->] & ?); done].
  - split; [done | intros (w & ? & ?); done].
Qed.

(** Elapsed time in hours against a bound, read on the nanosecond clock. *)
Lemma hours_le (d : Timedelta) (n : Z) :
  (total_seconds d / 3600 <= inject_Z n)%Q <-> d <= n * 3600000000000.
Proof.
  unfold total_seconds, Qdiv, Qle, Qmult, Qinv, inject_Z; simpl. lia.
Qed.

Lemma hours_ge (d : Timedelta) (n : Z) :
  (inject_Z n <= total_seconds d / 3600)%Q <-> n * 3600000000000 <= d.
Proof.
  unfold total_seconds, Qdiv, Qle, Qmult, Qinv, inject_Z; simpl. lia.
Qed.

(** ** Membership in merged and filtered frames *)

Lemma isin_In (x : Z) (l : list Z) : isin x l = true <-> In x l.
Proof.
  unfold isin. rewrite existsb_exists. split.
  - intros (y & Hy & E). apply Z.eqb_eq in E. by subst.
  - intros H. exists x. split; [done | apply Z.eqb_refl].
Qed.

Lemma isin_set_iff (x : Z) (s : gset Z) : isin_set x s = true <-> x ∈ s.
Proof. unfold isin_set. by rewrite bool_decide_eq_true. Qed.

Lemma isin_set_nan_iff (x : option Z) (s : gset Z) :
  isin_set_nan x s = true <-> exists k, x = Some k /\ k ∈ s.
Proof.
  destruct x as [k|]; simpl.
  - rewrite isin_set_iff. split; [eauto | intros (w & [= ->] & ?); done].
  - split; [done | intros (w & ? & ?); done].
Qed.

Lemma nonempty_iff (s : gset Z) : nonempty s = true <-> s <> ∅.
Proof.
  unfold nonempty. rewrite Z.ltb_lt. split.
  - intros H ->. rewrite size_empty in H. lia.
  - intros H. destruct (decide (size s = 0%nat)) as [E|E]; [|lia].
    apply size_empty_inv in E. by apply leibniz_equiv in E.
Qed.

Lemma nonempty_false (s : gset Z) : nonempty s = false <-> s = ∅.
Proof.
  rewrite <- not_true_iff_false, nonempty_iff.
  destruct (decide (s = ∅)); naive_solver.
Qed.

Section Merge.
Context {A B C : Type} (ka : A -> Z) (kb : B -> Z).

Lemma in_merge_inner (mk : A -> B -> C) (l : list A) (r : list B) (c : C) :
  In c (merge_inner ka kb mk l r) <->
  exists a b, In a l /\ In b r /\ kb b = ka a /\ c = mk a b.
Proof.
  unfold merge_inner. rewrite in_flat_map. split.
  - intros (a & Ha & Hc). apply in_map_iff in Hc as (b & <- & Hb).
    apply filter_In in Hb as [Hb E]. apply Z.eqb_eq in E. eauto 10.
  - intros (a & b & Ha & Hb & E & ->). exists a. split; [done|].
    apply in_map, filter_In. split; [done | by apply Z.eqb_eq].
Qed.

Lemma in_merge_left (mk : A -> option B -> C) (l : list A) (r : list B) (c : C) :
  In c (merge_left ka kb mk l r) <->
  exists a, In a l /\
    ((exists b, In b r /\ kb b = ka a /\ c = mk a (Some b)) \/
     ((forall b, In b r -> kb b <> ka a) /\ c = mk a None)).
Proof.
  unfold merge_left. rewrite in_flat_map.
  split; intros (a & Ha & H); exists a; (split; [done|]).
  - destruct (List.filter _ r) as [|b0 bs] eqn:F.
    + destruct H as [<-|[]]. right. split; [|done].
      intros b Hb E.
      assert (In b (List.filter (fun b => kb b =? ka a) r)) as Hin
        by (apply filter_In; split; [done | by apply Z.eqb_eq]).
      rewrite F in Hin. destruct Hin.
    + left. apply in_map_iff in H as (b & <- & Hb). rewrite <- F in Hb.
      apply filter_In in Hb as [Hb E]. apply Z.eqb_eq in E. eauto.
  - destruct H as [(b & Hb & E & ->)|[Hno ->]].
    + assert (In b (List.filter (fun b => kb b =? ka a) r)) as Hin
        by (apply filter_In; split; [done | by apply Z.eqb_eq]).
      destruct (List.filter _ r) as [|b0 bs]; [destruct Hin|].
      by apply (in_map (fun b => mk a (Some b))).
    + destruct (List.filter _ r) as [|b0 bs] eqn:F; [by left|].
      assert (In b0 (List.filter (fun b => kb b =? ka a) r)) as Hin
        by (rewrite F; by left).
      apply filter_In in Hin as [Hb E]. apply Z.eqb_eq in E. by destruct (Hno b0 Hb).
Qed.

End Merge.

(** ** FiO2 normalisation *)

Lemma normalize_fio2_gt (v : Q) : (1 < v)%Q -> normalize_fio2 v = (v / 100)%Q.
Proof. intros H. unfold normalize_fio2. apply Qlt_bool_iff in H. by rewrite H. Qed.

Lemma normalize_fio2_le (v : Q) : (v <= 1)%Q -> normalize_fio2 v = v.
Proof. intros H. unfold normalize_fio2. apply Qlt_bool_false in H. by rewrite H. Qed.

Lemma Cohort_convert_fio2_value (r : Cohort.VentData) :
  Cohort.valuenum (Cohort.convert_fio2 r) =
  if bool_decide (Cohort.param_type r = Cohort.fio2)
  then normalize_fio2 (Cohort.valuenum r) else Cohort.valuenum r.
Proof.
  unfold Cohort.convert_fio2, Cohort.fio2_mask, normalize_fio2.
  destruct (bool_decide _); simpl; [|done].
  by destruct (Qlt_bool 1 (Cohort.valuenum r)).
Qed.

Lemma Cohort_convert_fio2_key (r : Cohort.VentData) :
  Cohort.pivot_key (Cohort.convert_fio2 r) = Cohort.pivot_key r
  /\ Cohort.param_type (Cohort.convert_fio2 r) = Cohort.param_type r.
Proof.
  unfold Cohort.convert_fio2. by destruct (Cohort.fio2_mask r).
Qed.

(** C6, as the claim states it, fails: a reading above 100 is still divided
    by 100 once and stays above 1; 150 becomes 1.5. *)
Lemma fio2_normalization_leaves_unit_interval :
  (1 < 150)%Q /\ (normalize_fio2 150 == 3 # 2)%Q /\ ~ (normalize_fio2 150 <= 1)%Q.
Proof.
  split; [reflexivity|]. split; [reflexivity|]. intros H. by vm_compute in H.
Qed.

(** C6 (amended): a value above 1 is mapped to value/100, which is positive
    and lies in the unit interval exactly when the reading is at most 100; a
    value of at most 1 is left unchanged; a second application changes nothing
    when the first result is at most 1. The frame operation of the cohort
    notebook applies this map to the FiO2 rows and leaves the other rows. *)
Theorem fio2_normalization (v : Q) :
  ((1 < v)%Q ->
     normalize_fio2 v = (v / 100)%Q /\ (1 # 100 < normalize_fio2 v)%Q
     /\ ((normalize_fio2 v <= 1)%Q <-> (v <= 100)%Q))
  /\ ((v <= 1)%Q -> normalize_fio2 v = v)
  /\ ((normalize_fio2 v <= 1)%Q ->
        normalize_fio2 (normalize_fio2 v) = normalize_fio2 v)
  /\ (forall r : Cohort.VentData,
        Cohort.valuenum (Cohort.convert_fio2 r) =
        if bool_decide (Cohort.param_type r = Cohort.fio2)
        then normalize_fio2 (Cohort.valuenum r) else Cohort.valuenum r).
Proof.
  repeat split.
  - by apply normalize_fio2_gt.
  - rewrite normalize_fio2_gt by done.
    destruct v as [n d]. unfold Qlt, Qdiv, Qmult, Qinv in *; simpl in *. lia.
  - rewrite normalize_fio2_gt by done.
    destruct v as [n d]. unfold Qle, Qdiv, Qmult, Qinv in *; simpl in *. lia.
  - rewrite normalize_fio2_gt by done.
    destruct v as [n d]. unfold Qle, Qdiv, Qmult, Qinv in *; simpl in *. lia.
  - apply normalize_fio2_le.
  - apply normalize_fio2_le.
  - apply Cohort_convert_fio2_value.
Qed.

Lemma fio2_normalization_witness :
  (1 < 40)%Q /\ normalize_fio2 40 = (40 / 100)%Q
  /\ ((3 # 10) <= 1)%Q /\ normalize_fio2 (3 # 10) = (3 # 10).
Proof.
  destruct (fio2_normalization 40) as (Hgt & _).
  destruct (fio2_normalization (3 # 10)) as (_ & Hle & _).
  split; [reflexivity|]. split; [apply Hgt; reflexivity|].
  split; [discriminate|]. apply Hle. discriminate.
Defined.

(** ** The S/F ratio rows *)

Lemma ratio_sign (s f : Q) : (0 < f)%Q -> ((0 <= s / f)%Q <-> (0 <= s)%Q).
Proof.
  intros Hf. split; intros H.
  - assert (s == (s / f) * f)%Q as -> by (field; lra). by apply Qmult_le_0_compat; lra.
  - apply Qle_shift_div_l; lra.
Qed.

Lemma Cohort_ratio_of_row (p : Cohort.SfPivot) (r : Cohort.SfRatio) :
  In r (Cohort.ratio_of p) ->
  Cohort.pv_spo2 p = Some (Cohort.sr_spo2 r) /\ Cohort.pv_fio2 p = Some (Cohort.sr_fio2 r)
  /\ Cohort.sr_hadm_id r = Cohort.pv_hadm_id p
  /\ Cohort.sr_charttime r = Cohort.pv_charttime p
  /\ (0 < Cohort.sr_fio2 r)%Q
  /\ Cohort.sf_ratio r = (Cohort.sr_spo2 r / Cohort.sr_fio2 r)%Q.
Proof.
  unfold Cohort.ratio_of.
  destruct (Cohort.pv_spo2 p) as [s|]; [|done].
  destruct (Cohort.pv_fio2 p) as [f|]; [|done].
  destruct (Qlt_bool 0 f) eqn:Hf; [|done].
  intros [<-|[]]; simpl. by apply Qlt_bool_iff in Hf.
Qed.

Lemma CohortV1_ratio_of_row (m : CohortV1.Reading * option CohortV1.Reading)
    (r : CohortV1.SfRow) :
  In r (CohortV1.ratio_of m) ->
  (exists f, m.2 = Some f /\ CohortV1.valuenum_fio2 r = CohortV1.rd_valuenum f)
  /\ CohortV1.valuenum_spo2 r = CohortV1.rd_valuenum m.1
  /\ CohortV1.sfr_hadm_id r = CohortV1.rd_hadm_id m.1
  /\ CohortV1.sfr_charttime r = CohortV1.rd_charttime m.1
  /\ (0 < CohortV1.valuenum_fio2 r)%Q
  /\ CohortV1.sf_ratio r = (CohortV1.valuenum_spo2 r / CohortV1.valuenum_fio2 r)%Q.
Proof.
  unfold CohortV1.ratio_of. destruct m as [s [f|]]; simpl; [|done].
  destruct (Qlt_bool 0 (CohortV1.rd_valuenum f)) eqn:Hf; [|done].
  intros [<-|[]]; simpl. apply Qlt_bool_iff in Hf. eauto 10.
Qed.

Lemma CohortV1_sf_ratios_rows (t : Tables) (rows : list CohortV1.SfRow) :
  CohortV1.sf_ratios t = Ok rows ->
  exists m, rows = flat_map CohortV1.ratio_of m.
Proof.
  unfold CohortV1.sf_ratios.
  destruct (CohortV1.merge_asof _ _) as [m|e]; simpl; [|done].
  intros [= <-]. eauto.
Qed.

(** C3, as the claim states it, fails: a negative SpO2 reading passes the
    matcher of either cohort notebook and gives the negative ratio -180. *)
Lemma negative_spo2_gives_negative_ratio :
  map (fun r => (Cohort.sr_spo2 r, Cohort.sr_fio2 r, Qred (Cohort.sf_ratio r)))
      (Cohort.sf_ratios negative_spo2_tables) = [((-90)%Q, 0.5%Q, (-180)%Q)]
  /\ (exists r, In r (Cohort.sf_ratios negative_spo2_tables)
                /\ (Cohort.sf_ratio r < 0)%Q)
  /\ (exists rows r, CohortV1.sf_ratios negative_spo2_tables = Ok rows
                     /\ In r rows /\ (CohortV1.sf_ratio r < 0)%Q).
Proof.
  split; [by vm_compute|]. split.
  - eexists. split; [vm_compute; left; reflexivity | reflexivity].
  - eexists _, _. split; [vm_compute; reflexivity|].
    split; [left; reflexivity | reflexivity].
Qed.

Lemma ratio_sign_nonpos (s f : Q) : (0 < f)%Q -> (s <= 0)%Q -> (s / f <= 0)%Q.
Proof.
  intros Hf Hs. apply Qle_shift_div_r; [done|]. lra.
Qed.

(** C3 (amended): every S/F ratio row of the pivot matcher and of the
    nearest-time matcher is formed from a present SpO2 value and a present
    FiO2 value strictly greater than zero; a pair whose FiO2 is missing, zero
    or negative gives no row, so no division by zero takes place. The
    numerator is not filtered: the ratio is at most zero when the SpO2 value
    is, and at least zero when the SpO2 value is. Nothing is stated about the
    size of the ratio. *)
Theorem sf_ratio_denominator_positive (t : Tables) :
  (forall r, In r (Cohort.sf_ratios t) ->
     (0 < Cohort.sr_fio2 r)%Q
     /\ (exists p, In p (Cohort.sf_pivot t)
                   /\ Cohort.pv_spo2 p = Some (Cohort.sr_spo2 r)
                   /\ Cohort.pv_fio2 p = Some (Cohort.sr_fio2 r))
     /\ ((Cohort.sr_spo2 r <= 0)%Q -> (Cohort.sf_ratio r <= 0)%Q)
     /\ ((0 <= Cohort.sr_spo2 r)%Q -> (0 <= Cohort.sf_ratio r)%Q))
  /\ (forall p, (forall f, Cohort.pv_fio2 p = Some f -> (f <= 0)%Q) ->
                Cohort.ratio_of p = [])
  /\ (forall rows r, CohortV1.sf_ratios t = Ok rows -> In r rows ->
     (0 < CohortV1.valuenum_fio2 r)%Q
     /\ ((CohortV1.valuenum_spo2 r <= 0)%Q -> (CohortV1.sf_ratio r <= 0)%Q)
     /\ ((0 <= CohortV1.valuenum_spo2 r)%Q -> (0 <= CohortV1.sf_ratio r)%Q))
  /\ (forall s m, (forall f, m = Some f -> (CohortV1.rd_valuenum f <= 0)%Q) ->
                  CohortV1.ratio_of (s, m) = []).
Proof.
  split; [|split; [|split]].
  - intros r Hr. unfold Cohort.sf_ratios in Hr.
    apply in_flat_map in Hr as (p & Hp & Hr).
    apply Cohort_ratio_of_row in Hr as (Hs & Hf & _ & _ & Hpos & ->).
    split; [done|]. split; [by exists p|].
    split; [by apply ratio_sign_nonpos | by apply ratio_sign].
  - intros p H. unfold Cohort.ratio_of.
    destruct (Cohort.pv_spo2 p) as [s|]; [|done].
    destruct (Cohort.pv_fio2 p) as [f|]; [|done].
    destruct (Qlt_bool 0 f) eqn:Hf; [|done].
    apply Qlt_bool_iff in Hf. specialize (H f eq_refl). lra.
  - intros rows r Hrows Hr.
    apply CohortV1_sf_ratios_rows in Hrows as (m & ->).
    apply in_flat_map in Hr as (x & _ & Hr).
    apply CohortV1_ratio_of_row in Hr as (_ & _ & _ & _ & Hf & ->).
    split; [done|].
    split; [by apply ratio_sign_nonpos | by apply ratio_sign].
  - intros s m H. unfold CohortV1.ratio_of. cbn [snd].
    destruct m as [f|]; [|done].
    destruct (Qlt_bool 0 (CohortV1.rd_valuenum f)) eqn:Hf; [|done].
    apply Qlt_bool_iff in Hf. specialize (H f eq_refl). lra.
Qed.

Lemma sf_ratio_denominator_positive_witness :
  exists r, In r (Cohort.sf_ratios negative_spo2_tables)
            /\ (0 < Cohort.sr_fio2 r)%Q /\ (Cohort.sf_ratio r <= 0)%Q.
Proof.
  destruct (sf_ratio_denominator_positive negative_spo2_tables) as [H _].
  assert (In {| Cohort.sr_hadm_id := 100; Cohort.sr_charttime := 11 * hour;
                Cohort.sr_spo2 := (-90)%Q; Cohort.sr_fio2 := 0.5%Q;
                Cohort.sf_ratio := ((-90) / 0.5)%Q |}
             (Cohort.sf_ratios negative_spo2_tables)) as Hin
    by (vm_compute; left; reflexivity).
  eexists. split; [exact Hin|].
  destruct (H _ Hin) as (Hf & _ & Hneg & _).
  split; [exact Hf|]. apply Hneg. cbn. lra.
Defined.

(** The guard [fio2 > 0] puts no bound on the ratio. SpO2 100 over an FiO2
    of 10^-40 has a quotient of 10^42, beyond every binary32 value (the
    optimized notebook holds the column as float32); over an FiO2 of 10^-310
    the quotient is 10^312, beyond every binary64 value (the earlier notebook
    holds float64). The rows below carry the exact quotient; the notebooks'
    floating-point division returns [inf] there. *)
Example tiny_fio2_ratio_exceeds_float_range :
  (exists r, In r (Cohort.sf_ratios (tiny_fio2_tables (1 # 10 ^ 40)))
             /\ (0 < Cohort.sr_fio2 r)%Q
             /\ (float32_bound <= Cohort.sf_ratio r)%Q)
  /\ (exists rows r,
        CohortV1.sf_ratios (tiny_fio2_tables (1 # 10 ^ 310)) = Ok rows
        /\ In r rows /\ (0 < CohortV1.valuenum_fio2 r)%Q
        /\ (float64_bound <= CohortV1.sf_ratio r)%Q).
Proof.
  split.
  - eexists. split; [vm_compute; left; reflexivity|]. split; by vm_compute.
  - eexists _, _. split; [vm_compute; reflexivity|].
    split; [left; reflexivity|]. split; by vm_compute.
Qed.

(** ** The PEEP window *)

Lemma Cohort_classify_peep (i : Z) :
  Cohort.classify i = Cohort.peep <-> In i Cohort.PEEP_ITEMIDS.
Proof.
  split.
  - unfold Cohort.classify. intros H.
    destruct (isin i Cohort.FIO2_ITEMIDS); [done|].
    destruct (isin i Cohort.SPO2_ITEMIDS); [done|].
    destruct (isin i Cohort.PEEP_ITEMIDS) eqn:E; [|done]. by apply isin_In.
  - intros [<-|[<-|[<-|[]]]]; reflexivity.
Qed.

Lemma CohortV1_classify_eq (i : Z) : CohortV1.classify i = Cohort.classify i.
Proof. reflexivity. Qed.

Lemma in_all_vent_itemids (i : Z) :
  In i Cohort.PEEP_ITEMIDS -> isin i Cohort.ALL_VENT_ITEMIDS = true.
Proof.
  intros H. apply isin_In. unfold Cohort.ALL_VENT_ITEMIDS. apply in_or_app. by left.
Qed.

Lemma kept_event_in {X : Type} (value : option Q) (cond : bool) (mk : Q -> X) (x : X) :
  In x (match value with
        | Some v => if cond then [mk v] else []
        | None => []
        end) <->
  exists v, value = Some v /\ cond = true /\ x = mk v.
Proof.
  destruct value as [v|]; [destruct cond|].
  - split; [intros [<-|[]]; eauto | intros (w & [= <-] & _ & ->); by left].
  - split; [done | intros (w & _ & ? & _); done].
  - split; [done | intros (w & ? & _); done].
Qed.

Lemma Cohort_vent_event_in (t : Tables) (e : ChartEvent) (x : Cohort.VentEvent) :
  In x (Cohort.vent_event t e) <->
  exists v, ce_valuenum e = Some v
    /\ ce_stay_id e ∈ Cohort.target_stay_ids t
    /\ isin (ce_itemid e) Cohort.ALL_VENT_ITEMIDS = true
    /\ x = {| Cohort.ve_stay_id := ce_stay_id e; Cohort.ve_itemid := ce_itemid e;
              Cohort.ve_charttime := ce_charttime e; Cohort.ve_valuenum := v |}.
Proof.
  unfold Cohort.vent_event. rewrite kept_event_in. split.
  - intros (v & Hv & Hc & ->). apply andb_true_iff in Hc as [H1 H2].
    apply isin_set_iff in H1. eauto 10.
  - intros (v & Hv & H1 & H2 & ->). exists v. split; [done|]. split; [|done].
    apply andb_true_iff. split; [by apply isin_set_iff | done].
Qed.

Lemma Cohort_target_stay (t : Tables) (k : Z) :
  k ∈ Cohort.target_stay_ids t <->
  exists s, In s (Cohort.adult_icu_admissions t) /\ Cohort.stay_id s = k.
Proof.
  unfold Cohort.target_stay_ids. rewrite elem_of_list_to_set, list_elem_of_In, in_map_iff.
  split; intros (s & H1 & H2); eauto.
Qed.

(** A row of [vent_data] is a kept event joined with a stay of its own
    identifier; the left merge never leaves a row without a stay. *)
Lemma Cohort_vent_data_in (t : Tables) (r : Cohort.VentData) :
  In r (Cohort.vent_data t) <->
  exists e v s,
    In e (chartevents t) /\ ce_valuenum e = Some v
    /\ isin (ce_itemid e) Cohort.ALL_VENT_ITEMIDS = true
    /\ In s (Cohort.adult_icu_admissions t) /\ Cohort.stay_id s = ce_stay_id e
    /\ r = {| Cohort.vd_event :=
                {| Cohort.ve_stay_id := ce_stay_id e; Cohort.ve_itemid := ce_itemid e;
                   Cohort.ve_charttime := ce_charttime e; Cohort.ve_valuenum := v |};
              Cohort.param_type := Cohort.classify (ce_itemid e);
              Cohort.vd_hadm_id := Some (Cohort.hadm_id s);
              Cohort.vd_intime := Some (intime (Cohort.ai_stay s)) |}.
Proof.
  unfold Cohort.vent_data. rewrite in_merge_left. split.
  - intros (x & Hx & H). apply in_flat_map in Hx as (e & He & Hx).
    apply Cohort_vent_event_in in Hx as (v & Hv & Ht & Hi & ->).
    destruct H as [(s & Hs & E & ->)|[Hno ->]].
    + exists e, v, s. simpl in *. eauto 10.
    + apply Cohort_target_stay in Ht as (s & Hs & E). by destruct (Hno s Hs).
  - intros (e & v & s & He & Hv & Hi & Hs & E & ->).
    eexists. split.
    + apply in_flat_map. exists e. split; [done|].
      apply Cohort_vent_event_in. exists v. split; [done|].
      split; [apply Cohort_target_stay; eauto|]. eauto.
    + left. exists s. simpl. eauto.
Qed.

Lemma Cohort_vent_data_hadm (t : Tables) (r : Cohort.VentData) :
  In r (Cohort.vent_data t) ->
  exists s, In s (Cohort.adult_icu_admissions t)
            /\ Cohort.vd_hadm_id r = Some (Cohort.hadm_id s).
Proof.
  intros H. apply Cohort_vent_data_in in H as (e & v & s & _ & _ & _ & Hs & _ & ->).
  eauto.
Qed.

(** The PEEP mask on a joined row. *)
Lemma peep_mask_iff (r : Cohort.VentData) :
  Cohort.peep_mask r = true <->
  Cohort.param_type r = Cohort.peep
  /\ (exists t0, Cohort.vd_intime r = Some t0
        /\ (0 <= total_seconds (Cohort.charttime r - t0) / 3600)%Q
        /\ (total_seconds (Cohort.charttime r - t0) / 3600 <= 48)%Q)
  /\ (5 <= Cohort.valuenum r)%Q.
Proof.
  unfold Cohort.peep_mask, Cohort.hours_from_icu.
  rewrite !andb_true_iff, bool_decide_eq_true, Qle_bool_iff.
  destruct (Cohort.vd_intime r) as [t0|]; simpl.
  - rewrite !Qle_bool_iff. split.
    + intros (((? & ?) & ?) & ?). eauto 10.
    + intros (? & (t1 & [= <-] & ? & ?) & ?). done.
  - split; [intros (((? & ?) & ?) & ?); done | intros (? & (t1 & ? & _) & ?); done].
Qed.

Lemma Cohort_peep_admission (t : Tables) (h : Z) :
  h ∈ Cohort.peep_qualifying_admissions t <->
  exists e s v,
    In e (chartevents t) /\ In s (Cohort.adult_icu_admissions t)
    /\ Cohort.stay_id s = ce_stay_id e /\ Cohort.hadm_id s = h
    /\ In (ce_itemid e) Cohort.PEEP_ITEMIDS /\ ce_valuenum e = Some v
    /\ (5 <= v)%Q
    /\ (0 <= total_seconds (ce_charttime e - intime (Cohort.ai_stay s)) / 3600)%Q
    /\ (total_seconds (ce_charttime e - intime (Cohort.ai_stay s)) / 3600 <= 48)%Q.
Proof.
  unfold Cohort.peep_qualifying_admissions, Cohort.peep_qualifying.
  rewrite elem_of_list_to_set, list_elem_of_omap. split.
  - intros (r & Hr & Hh). apply list_elem_of_In, filter_In in Hr as [Hr Hm].
    apply Cohort_vent_data_in in Hr as (e & v & s & He & Hv & Hi & Hs & E & ->).
    apply peep_mask_iff in Hm as (Hp & (t0 & Ht0 & H0 & H48) & H5).
    simpl in *. injection Hh as <-. injection Ht0 as <-.
    apply Cohort_classify_peep in Hp. exists e, s, v. eauto 10.
  - intros (e & s & v & He & Hs & E & <- & Hp & Hv & H5 & H0 & H48).
    exists {| Cohort.vd_event :=
                {| Cohort.ve_stay_id := ce_stay_id e; Cohort.ve_itemid := ce_itemid e;
                   Cohort.ve_charttime := ce_charttime e; Cohort.ve_valuenum := v |};
              Cohort.param_type := Cohort.classify (ce_itemid e);
              Cohort.vd_hadm_id := Some (Cohort.hadm_id s);
              Cohort.vd_intime := Some (intime (Cohort.ai_stay s)) |}.
    split; [|reflexivity].
    apply list_elem_of_In, filter_In. split.
    + apply Cohort_vent_data_in. exists e, v, s.
      split; [done|]. split; [done|]. split; [by apply in_all_vent_itemids|].
      split; [done|]. split; [done|]. reflexivity.
    + apply peep_mask_iff. simpl. split; [by apply Cohort_classify_peep|].
      split; [|done]. eexists. split; [reflexivity|]. done.
Qed.

Lemma CohortV1_cohort_event_in (t : Tables) (e : ChartEvent) (x : Cohort.VentEvent) :
  In x (CohortV1.cohort_event t e) <->
  exists v, ce_valuenum e = Some v
    /\ ce_stay_id e ∈ CohortV1.cohort_stay_ids t
    /\ isin (ce_itemid e) CohortV1.all_itemids = true
    /\ x = {| Cohort.ve_stay_id := ce_stay_id e; Cohort.ve_itemid := ce_itemid e;
              Cohort.ve_charttime := ce_charttime e; Cohort.ve_valuenum := v |}.
Proof.
  unfold CohortV1.cohort_event. rewrite kept_event_in. split.
  - intros (v & Hv & Hc & ->). apply andb_true_iff in Hc as [H1 H2].
    apply isin_set_iff in H1. eauto 10.
  - intros (v & Hv & H1 & H2 & ->). exists v. split; [done|]. split; [|done].
    apply andb_true_iff. split; [by apply isin_set_iff | done].
Qed.

Lemma CohortV1_cohort_data_in (t : Tables) (r : Cohort.VentData) :
  In r (CohortV1.cohort_data t) <->
  exists e v s,
    In e (chartevents t) /\ ce_valuenum e = Some v
    /\ isin (ce_itemid e) CohortV1.all_itemids = true
    /\ In s (CohortV1.cohort_icustays t) /\ s_stay_id s = ce_stay_id e
    /\ r = {| Cohort.vd_event :=
                {| Cohort.ve_stay_id := ce_stay_id e; Cohort.ve_itemid := ce_itemid e;
                   Cohort.ve_charttime := ce_charttime e; Cohort.ve_valuenum := v |};
              Cohort.param_type := CohortV1.classify (ce_itemid e);
              Cohort.vd_hadm_id := Some (s_hadm_id s);
              Cohort.vd_intime := Some (intime s) |}.
Proof.
  unfold CohortV1.cohort_data. rewrite in_merge_inner. split.
  - intros (x & s & Hx & Hs & E & ->). apply in_flat_map in Hx as (e & He & Hx).
    apply CohortV1_cohort_event_in in Hx as (v & Hv & Ht & Hi & ->).
    exists e, v, s. simpl in *. eauto 10.
  - intros (e & v & s & He & Hv & Hi & Hs & E & ->).
    exists {| Cohort.ve_stay_id := ce_stay_id e; Cohort.ve_itemid := ce_itemid e;
              Cohort.ve_charttime := ce_charttime e; Cohort.ve_valuenum := v |}, s.
    split; [|by eauto].
    apply in_flat_map. exists e. split; [done|].
    apply CohortV1_cohort_event_in. exists v. split; [done|]. split; [|by eauto].
    unfold CohortV1.cohort_stay_ids.
    rewrite elem_of_list_to_set, list_elem_of_In, in_map_iff. eauto.
Qed.

Lemma CohortV1_peep_admission (t : Tables) (h : Z) :
  h ∈ CohortV1.admissions_with_peep t <->
  exists e s v,
    In e (chartevents t) /\ In s (CohortV1.cohort_icustays t)
    /\ s_stay_id s = ce_stay_id e /\ s_hadm_id s = h
    /\ In (ce_itemid e) CohortV1.peep_itemids /\ ce_valuenum e = Some v
    /\ (5 <= v)%Q
    /\ (0 <= total_seconds (ce_charttime e - intime s) / 3600)%Q
    /\ (total_seconds (ce_charttime e - intime s) / 3600 <= 48)%Q.
Proof.
  unfold CohortV1.admissions_with_peep, CohortV1.peep_first_48h.
  rewrite elem_of_list_to_set, list_elem_of_omap. split.
  - intros (r & Hr & Hh). apply list_elem_of_In, filter_In in Hr as [Hr Hm].
    apply CohortV1_cohort_data_in in Hr as (e & v & s & He & Hv & Hi & Hs & E & ->).
    apply peep_mask_iff in Hm as (Hp & (t0 & Ht0 & H0 & H48) & H5).
    simpl in *. injection Hh as <-. injection Ht0 as <-.
    apply Cohort_classify_peep in Hp. exists e, s, v. eauto 10.
  - intros (e & s & v & He & Hs & E & <- & Hp & Hv & H5 & H0 & H48).
    exists {| Cohort.vd_event :=
                {| Cohort.ve_stay_id := ce_stay_id e; Cohort.ve_itemid := ce_itemid e;
                   Cohort.ve_charttime := ce_charttime e; Cohort.ve_valuenum := v |};
              Cohort.param_type := CohortV1.classify (ce_itemid e);
              Cohort.vd_hadm_id := Some (s_hadm_id s);
              Cohort.vd_intime := Some (intime s) |}.
    split; [|reflexivity].
    apply list_elem_of_In, filter_In. split.
    + apply CohortV1_cohort_data_in. exists e, v, s.
      split; [done|]. split; [done|]. split; [by apply in_all_vent_itemids|].
      split; [done|]. split; [done|]. reflexivity.
    + apply peep_mask_iff. simpl. split; [by apply Cohort_classify_peep|].
      split; [|done]. eexists. split; [reflexivity|]. done.
Qed.

(** C8: an admission passes the PEEP window filter exactly when one of its
    PEEP readings has a value of at least 5 and an elapsed time from ICU
    admission between 0 and 48 hours, both bounds included (in either cohort
    notebook); on the nanosecond clock the window is 0 to 172800 seconds. A
    reading at 48 hours or at 0 hours qualifies, one at 48.0001 hours or at
    -0.0001 hours does not. *)
Theorem peep_window_filter :
  (forall (t : Tables) (h : Z),
     h ∈ Cohort.peep_qualifying_admissions t <->
     exists e s v,
       In e (chartevents t) /\ In s (Cohort.adult_icu_admissions t)
       /\ Cohort.stay_id s = ce_stay_id e /\ Cohort.hadm_id s = h
       /\ In (ce_itemid e) Cohort.PEEP_ITEMIDS /\ ce_valuenum e = Some v
       /\ (5 <= v)%Q
       /\ (0 <= total_seconds (ce_charttime e - intime (Cohort.ai_stay s)) / 3600)%Q
       /\ (total_seconds (ce_charttime e - intime (Cohort.ai_stay s)) / 3600 <= 48)%Q)
  /\ (forall (t : Tables) (h : Z),
     h ∈ CohortV1.admissions_with_peep t <->
     exists e s v,
       In e (chartevents t) /\ In s (CohortV1.cohort_icustays t)
       /\ s_stay_id s = ce_stay_id e /\ s_hadm_id s = h
       /\ In (ce_itemid e) CohortV1.peep_itemids /\ ce_valuenum e = Some v
       /\ (5 <= v)%Q
       /\ (0 <= total_seconds (ce_charttime e - intime s) / 3600)%Q
       /\ (total_seconds (ce_charttime e - intime s) / 3600 <= 48)%Q)
  /\ (forall d : Timedelta,
     ((0 <= total_seconds d / 3600)%Q /\ (total_seconds d / 3600 <= 48)%Q)
     <-> 0 <= d <= 172800 * 1000000000)
  /\ (100 ∈ Cohort.peep_qualifying_admissions (peep_at (48 * hour)))
  /\ (100 ∉ Cohort.peep_qualifying_admissions (peep_at (48 * hour + 360000000)))
  /\ (100 ∈ Cohort.peep_qualifying_admissions (peep_at 0))
  /\ (100 ∉ Cohort.peep_qualifying_admissions (peep_at (- 360000000)))
  /\ (100 ∈ CohortV1.admissions_with_peep (peep_at (48 * hour)))
  /\ (100 ∉ CohortV1.admissions_with_peep (peep_at (48 * hour + 360000000)))
  /\ (100 ∈ CohortV1.admissions_with_peep (peep_at 0))
  /\ (100 ∉ CohortV1.admissions_with_peep (peep_at (- 360000000))).
Proof.
  split; [exact Cohort_peep_admission|].
  split; [exact CohortV1_peep_admission|].
  split.
  { intros d. change 0%Q with (inject_Z 0). change 48%Q with (inject_Z 48).
    rewrite hours_ge, hours_le. lia. }
  repeat split; by vm_compute.
Qed.

(** ** Stage sets and their composition *)

Lemma sorted_unique_elem (l : list Z) (x : Z) : x ∈ sorted_unique l <-> x ∈ l.
Proof. unfold sorted_unique. by rewrite merge_sort_Permutation, elem_of_remove_dups. Qed.

Lemma sorted_unique_NoDup (l : list Z) : NoDup (sorted_unique l).
Proof.
  unfold sorted_unique. rewrite merge_sort_Permutation. apply NoDup_remove_dups.
Qed.

Lemma sorted_unique2_elem (l : list (Z * Z)) (x : Z * Z) : x ∈ sorted_unique2 l <-> x ∈ l.
Proof. unfold sorted_unique2. by rewrite merge_sort_Permutation, elem_of_remove_dups. Qed.

Lemma sorted_unique3_elem (l : list (Z * (Z * Z))) (x : Z * (Z * Z)) :
  x ∈ sorted_unique3 l <-> x ∈ l.
Proof. unfold sorted_unique3. by rewrite merge_sort_Permutation, elem_of_remove_dups. Qed.

(** Every S/F ratio row of the cohort notebook belongs to an admission that
    passed the PEEP filter: the ratios are computed on the filtered rows. *)
Lemma Cohort_sf_ratio_hadm (t : Tables) (r : Cohort.SfRatio) :
  In r (Cohort.sf_ratios t) ->
  Cohort.sr_hadm_id r ∈ Cohort.peep_qualifying_admissions t.
Proof.
  unfold Cohort.sf_ratios, Cohort.sf_pivot, Cohort.pivot_table.
  intros Hr. apply in_flat_map in Hr as (p & Hp & Hr).
  apply Cohort_ratio_of_row in Hr as (_ & _ & -> & _).
  apply in_map_iff in Hp as (k & <- & Hk). simpl.
  apply list_elem_of_In, sorted_unique2_elem, list_elem_of_omap in Hk as (x & Hx & Hkey).
  unfold Cohort.spo2_fio2_normalized in Hx.
  apply list_elem_of_In, in_map_iff in Hx as (y & <- & Hy).
  destruct (Cohort_convert_fio2_key y) as [Ek _]. rewrite Ek in Hkey.
  unfold Cohort.spo2_fio2_data, Cohort.vent_data_filtered in Hy.
  apply filter_In in Hy as [Hy _]. apply filter_In in Hy as [_ Hy].
  apply isin_set_nan_iff in Hy as (h & Hh & Hin).
  unfold Cohort.pivot_key in Hkey. rewrite Hh in Hkey. by injection Hkey as <-.
Qed.

Lemma Cohort_sf_subset_peep (t : Tables) :
  Cohort.sf_qualifying_admissions t ⊆ Cohort.peep_qualifying_admissions t.
Proof.
  intros h. unfold Cohort.sf_qualifying_admissions, Cohort.low_sf_ratios.
  rewrite elem_of_list_to_set, list_elem_of_In, in_map_iff.
  intros (r & <- & Hr). apply filter_In in Hr as [Hr _].
  by apply Cohort_sf_ratio_hadm.
Qed.

Lemma Cohort_no_data_no_sf (t : Tables) :
  Cohort.spo2_fio2_data t = [] -> Cohort.sf_qualifying_admissions t = ∅.
Proof.
  intros E. unfold Cohort.sf_qualifying_admissions, Cohort.low_sf_ratios,
    Cohort.sf_ratios, Cohort.sf_pivot, Cohort.spo2_fio2_normalized.
  rewrite E. reflexivity.
Qed.

Lemma length_pos_false {A : Type} (l : list A) : (0 <? length l)%nat = false -> l = [].
Proof. destruct l; [done | simpl; done]. Qed.

Lemma Cohort_final_qualifying (t : Tables) :
  Cohort.final_qualifying_admissions t =
  Cohort.peep_qualifying_admissions t ∩ Cohort.sf_qualifying_admissions t.
Proof.
  unfold Cohort.final_qualifying_admissions.
  destruct (0 <? length (Cohort.spo2_fio2_data t))%nat eqn:E; [done|].
  apply length_pos_false in E. rewrite (Cohort_no_data_no_sf t E). set_solver.
Qed.

Lemma Cohort_final_cohort_admissions (t : Tables) :
  Cohort.final_cohort_admissions t =
  Cohort.final_qualifying_admissions t ∖ Cohort.excluded_admissions t.
Proof.
  unfold Cohort.final_cohort_admissions.
  destruct (nonempty (Cohort.final_qualifying_admissions t)) eqn:E; [done|].
  apply nonempty_false in E. rewrite E. set_solver.
Qed.

Lemma Cohort_final_w_reports (t : Tables) :
  Cohort.final_cohort_admissions_w_reports t =
  Cohort.final_cohort_admissions t ∩ Cohort.radiology_admissions t.
Proof.
  unfold Cohort.final_cohort_admissions_w_reports.
  destruct (nonempty (Cohort.final_cohort_admissions t)) eqn:E; [done|].
  apply nonempty_false in E. rewrite E. set_solver.
Qed.

Lemma Cohort_final_set (t : Tables) :
  Cohort.final_cohort_admissions_w_reports t =
  (Cohort.peep_qualifying_admissions t ∩ Cohort.sf_qualifying_admissions t
     ∩ Cohort.radiology_admissions t)
  ∖ (Cohort.hf_admissions t ∪ Cohort.pregnancy_admissions t).
Proof.
  rewrite Cohort_final_w_reports, Cohort_final_cohort_admissions, Cohort_final_qualifying.
  unfold Cohort.excluded_admissions. set_solver.
Qed.

Lemma adult_icu_ids_eq (t : Tables) : adult_icu_ids t = adult_ids t ∩ icu_ids t.
Proof.
  apply set_eq. intros h. unfold adult_icu_ids, adult_ids, icu_ids.
  rewrite elem_of_intersection, !elem_of_list_to_set, !list_elem_of_In, !in_map_iff.
  unfold Cohort.adult_icu_admissions. split.
  - intros (r & <- & Hr). apply in_merge_inner in Hr as (a & s & Ha & Hs & E & ->).
    unfold Cohort.hadm_id; simpl. split; [exists a | exists s]; done.
  - intros [(a & <- & Ha) (s & E & Hs)]. exists (Cohort.Build_AdultIcu a s).
    split; [done|]. apply in_merge_inner. exists a, s. done.
Qed.

Lemma adult_ids_subset (t : Tables) : adult_ids t ⊆ admission_ids t.
Proof.
  intros h. unfold adult_ids, admission_ids.
  rewrite !elem_of_list_to_set, !list_elem_of_In, !in_map_iff.
  intros (r & <- & Hr). unfold Cohort.adult_admissions in Hr.
  apply filter_In in Hr as [Hr _]. unfold Cohort.patient_data in Hr.
  apply in_merge_left in Hr as (a & Ha & [(p & _ & _ & ->)|[_ ->]]); eauto.
Qed.

Lemma Cohort_peep_subset (t : Tables) :
  Cohort.peep_qualifying_admissions t ⊆ adult_icu_ids t.
Proof.
  intros h Hh. apply Cohort_peep_admission in Hh as (e & s & v & _ & Hs & _ & <- & _).
  unfold adult_icu_ids. rewrite elem_of_list_to_set, list_elem_of_In. by apply in_map.
Qed.

Lemma elem_of_evaluate (stages : list Stage) (universe : gset Z) (x : Z) :
  x ∈ evaluate universe stages <-> x ∈ universe /\ Forall (passes x) stages.
Proof.
  unfold evaluate. revert universe.
  induction stages as [|st stages IH]; intros universe; simpl.
  - split; [intros H; split; [done | constructor] | intros [H _]; done].
  - rewrite IH, Forall_cons. destruct st as [s|s]; simpl; set_solver.
Qed.

Lemma evaluate_Permutation (universe : gset Z) (l1 l2 : list Stage) :
  Permutation l1 l2 -> evaluate universe l1 = evaluate universe l2.
Proof.
  intros HP. apply set_eq. intros x. rewrite !elem_of_evaluate.
  split; intros [Hu Hf]; (split; [done|]).
  - eapply Permutation_Forall; [apply HP | done].
  - eapply Permutation_Forall; [symmetry; apply HP | done].
Qed.

Lemma Cohort_final_cohort_ids (t : Tables) :
  list_to_set (map (fun r => Cohort.hadm_id (Cohort.c_row r))
                   (rows_of (Cohort.final_cohort t)))
  = Cohort.final_cohort_admissions_w_reports t.
Proof.
  apply set_eq. intros h. rewrite elem_of_list_to_set, list_elem_of_In, in_map_iff.
  unfold Cohort.final_cohort.
  destruct (nonempty (Cohort.final_cohort_admissions_w_reports t)) eqn:E; simpl.
  - split.
    + intros (r & <- & Hr). apply in_map_iff in Hr as (x & <- & Hx).
      apply filter_In in Hx as [_ Hx]. by apply isin_set_iff in Hx.
    + intros Hh. assert (h ∈ adult_icu_ids t) as Hin.
      { apply Cohort_peep_subset. rewrite Cohort_final_set in Hh. set_solver. }
      unfold adult_icu_ids in Hin.
      apply elem_of_list_to_set, list_elem_of_In, in_map_iff in Hin as (x & <- & Hx).
      exists (Cohort.cohort_row t x). split; [done|].
      apply in_map, filter_In. split; [done | by apply isin_set_iff].
  - apply nonempty_false in E. rewrite E. split; [intros (r & _ & []) | set_solver].
Qed.

(** C5: the final set of admission identifiers is the intersection of the
    inclusion stage sets (adults, ICU stay, PEEP, S/F, radiology) minus the
    union of the heart-failure and pregnancy sets; the stages composed in any
    order give this same set, which is the set of admissions of the final
    cohort rows; the exclusions are subtracted once, as a union, and an
    admission in both exclusion sets is not in the final set. *)
Theorem final_set_algebra (t : Tables) :
  Cohort.final_cohort_admissions_w_reports t =
    (adult_ids t ∩ icu_ids t ∩ Cohort.peep_qualifying_admissions t
       ∩ Cohort.sf_qualifying_admissions t ∩ Cohort.radiology_admissions t)
    ∖ (Cohort.hf_admissions t ∪ Cohort.pregnancy_admissions t)
  /\ (forall stages : list Stage,
        Permutation stages (cohort_stages t) ->
        evaluate (admission_ids t) stages = Cohort.final_cohort_admissions_w_reports t)
  /\ list_to_set (map (fun r => Cohort.hadm_id (Cohort.c_row r))
                      (rows_of (Cohort.final_cohort t)))
     = Cohort.final_cohort_admissions_w_reports t
  /\ Cohort.final_cohort_admissions t =
       Cohort.final_qualifying_admissions t
       ∖ (Cohort.hf_admissions t ∪ Cohort.pregnancy_admissions t)
  /\ (forall h : Z,
        h ∈ Cohort.hf_admissions t -> h ∈ Cohort.pregnancy_admissions t ->
        h ∉ Cohort.final_cohort_admissions_w_reports t).
Proof.
  assert (Cohort.final_cohort_admissions_w_reports t =
    (adult_ids t ∩ icu_ids t ∩ Cohort.peep_qualifying_admissions t
       ∩ Cohort.sf_qualifying_admissions t ∩ Cohort.radiology_admissions t)
    ∖ (Cohort.hf_admissions t ∪ Cohort.pregnancy_admissions t)) as Hfinal.
  { rewrite Cohort_final_set. pose proof (Cohort_peep_subset t) as Hsub.
    rewrite adult_icu_ids_eq in Hsub. set_solver. }
  split; [done|]. split.
  { intros stages HP. rewrite (evaluate_Permutation _ _ _ HP), Hfinal.
    pose proof (adult_ids_subset t). unfold evaluate, cohort_stages; simpl. set_solver. }
  split; [apply Cohort_final_cohort_ids|].
  split; [apply Cohort_final_cohort_admissions|].
  intros h H1 H2. rewrite Hfinal. set_solver.
Qed.

Lemma final_set_algebra_witness :
  Permutation (rev (cohort_stages scenario)) (cohort_stages scenario)
  /\ evaluate (admission_ids scenario) (rev (cohort_stages scenario))
     = Cohort.final_cohort_admissions_w_reports scenario
  /\ elements (Cohort.final_cohort_admissions_w_reports scenario) = [100].
Proof.
  destruct (final_set_algebra scenario) as (_ & Hperm & _).
  split; [symmetry; apply Permutation_rev|].
  split; [apply Hperm; symmetry; apply Permutation_rev | by vm_compute].
Defined.

(** An admission coded both for heart failure and for pregnancy is absent
    from the final set. *)
Example excluded_for_both_reasons :
  let t := tables_with [sample_stay] scenario_events ["42831"; "O80"]%string in
  elements (Cohort.hf_admissions t) = [100]
  /\ elements (Cohort.pregnancy_admissions t) = [100]
  /\ elements (Cohort.final_qualifying_admissions t) = [100]
  /\ elements (Cohort.final_cohort_admissions t) = [].
Proof. by vm_compute. Qed.

(** ** Empty stages *)

Lemma final_cohort_empty (t : Tables) :
  Cohort.final_cohort_admissions_w_reports t = ∅ -> Cohort.final_cohort t = NoColumns.
Proof.
  intros E. unfold Cohort.final_cohort. apply nonempty_false in E. by rewrite E.
Qed.

Lemma run_notebook_ok (t : Tables) :
  Cohort.run_notebook t =
  Ok {| Cohort.out_final_cohort := Cohort.final_cohort t;
        Cohort.out_saved :=
          match Cohort.final_cohort t with
          | NoColumns => None
          | Frame [] => None
          | Frame rows => Some rows
          end |}.
Proof.
  unfold Cohort.run_notebook, Cohort.cell_duplicates, Cohort.cell_summary, Cohort.cell_save.
  destruct (Cohort.final_cohort t) as [|[|r rows]]; reflexivity.
Qed.

Lemma no_adult_icu_no_peep (t : Tables) :
  Cohort.adult_icu_admissions t = [] -> Cohort.peep_qualifying_admissions t = ∅.
Proof.
  intros E. apply set_eq. intros h. split; [|set_solver].
  intros Hh. apply Cohort_peep_admission in Hh as (e & s & v & _ & Hs & _).
  rewrite E in Hs. destruct Hs.
Qed.

Lemma CohortV1_no_peep_no_data (t : Tables) :
  CohortV1.admissions_with_peep t = ∅ -> CohortV1.spo2_data t = [].
Proof.
  intros E. unfold CohortV1.spo2_data, CohortV1.cohort_data_peep. rewrite E.
  induction (CohortV1.cohort_data t) as [|r l IH]; [done|]. simpl.
  destruct (Cohort.vd_hadm_id r); simpl; exact IH.
Qed.

(** The guarded radiology cell never raises, and it ends with the
    column-less frame when the frame it reads has no row. *)
Lemma CohortV1_radiology_cell (t : Tables) (c : DataFrame Cohort.AdultIcu) :
  exists c', CohortV1.cohort_with_radiology t c = Ok c'
             /\ (len c = 0%nat -> c' = NoColumns).
Proof.
  unfold CohortV1.cohort_with_radiology. destruct c as [|rows].
  - eexists. split; [reflexivity|done].
  - cbn [len]. destruct (0 <? length rows)%nat eqn:E.
    + eexists. split; [reflexivity|]. intros H. by rewrite H in E.
    + eexists. split; [reflexivity|done].
Qed.

(** Once the S/F cell has ended, a run of the earlier notebook goes through
    the guarded radiology cell and stops at the cell that reads
    [cohort_with_sf]. *)
Lemma CohortV1_run_stops (t : Tables) (c : DataFrame Cohort.AdultIcu) :
  CohortV1.cohort_with_criteria t = Ok c ->
  CohortV1.run_notebook t = Raise (NameError "cohort_with_sf").
Proof.
  intros E. unfold CohortV1.run_notebook. rewrite E. cbn [mbind result_bind].
  by destruct (CohortV1_radiology_cell t c) as (c' & -> & _).
Qed.

Lemma filter_isin_empty {A : Type} (key : A -> Z) (l : list A) :
  List.filter (fun r => isin_set (key r) ∅) l = [].
Proof. induction l as [|r l IH]; [done | exact IH]. Qed.

Lemma CohortV1_empty_stage (t : Tables) :
  (CohortV1.admissions_with_peep t = ∅
   \/ CohortV1.spo2_data t = [] \/ CohortV1.fio2_data t = [] ->
   CohortV1.cohort_with_criteria t = Ok NoColumns)
  /\ (forall sf, CohortV1.sf_ratios t = Ok sf ->
        CohortV1.qualifying_admissions t sf = ∅
        \/ CohortV1.admissions_with_radiology t = ∅ ->
        exists c c', CohortV1.cohort_with_criteria t = Ok c
                     /\ CohortV1.cohort_with_radiology t c = Ok c'
                     /\ len c' = 0%nat).
Proof.
  split.
  - intros H. unfold CohortV1.cohort_with_criteria.
    destruct H as [H|[H|H]].
    + by rewrite (CohortV1_no_peep_no_data t H).
    + by rewrite H.
    + rewrite H. by rewrite andb_false_r.
  - intros sf Hsf H. unfold CohortV1.cohort_with_criteria.
    destruct (_ && _).
    2:{ exists NoColumns, NoColumns. done. }
    rewrite Hsf. cbn [mbind result_bind].
    destruct H as [H|H].
    + rewrite H, filter_isin_empty. exists (Frame []), NoColumns.
      split; [reflexivity|]. split; reflexivity.
    + eexists. unfold CohortV1.cohort_with_radiology.
      destruct (0 <? len _)%nat.
      * cbn [getitem mbind result_bind rows_of]. rewrite H, filter_isin_empty.
        eexists. split; [reflexivity|]. split; reflexivity.
      * exists NoColumns. split; [reflexivity|]. split; reflexivity.
Qed.

(** C9: the optimized cohort notebook never raises, and whenever one of its
    filter stages is empty (no adult admission, no adult ICU stay, no
    PEEP-qualifying admission, no S/F-qualifying admission, nothing left
    after the exclusions, no admission with a radiology report) it ends with
    the empty cohort: [final_cohort] is the empty frame, the guarded cells
    read no column of it, and no cohort file is written. The earlier
    notebook does not reach its final cohort: its S/F cell and its guarded
    radiology cell accept the empty stage and end with a frame without rows,
    and the cell after them reads [cohort_with_sf], which no cell binds, so
    the run stops there with [NameError]. *)
Theorem empty_stage_outcome (t : Tables) :
  (exists out, Cohort.run_notebook t = Ok out
               /\ Cohort.out_final_cohort out = Cohort.final_cohort t)
  /\ (Cohort.adult_admissions t = []
      \/ Cohort.adult_icu_admissions t = []
      \/ Cohort.peep_qualifying_admissions t = ∅
      \/ Cohort.sf_qualifying_admissions t = ∅
      \/ Cohort.final_qualifying_admissions t = ∅
      \/ Cohort.final_cohort_admissions t = ∅
      \/ Cohort.radiology_admissions t = ∅
      \/ Cohort.final_cohort_admissions_w_reports t = ∅ ->
      Cohort.run_notebook t =
        Ok {| Cohort.out_final_cohort := NoColumns; Cohort.out_saved := None |}
      /\ len (Cohort.final_cohort t) = 0%nat)
  /\ (CohortV1.admissions_with_peep t = ∅
      \/ CohortV1.spo2_data t = [] \/ CohortV1.fio2_data t = [] ->
      CohortV1.cohort_with_criteria t = Ok NoColumns
      /\ CohortV1.cohort_with_radiology t NoColumns = Ok NoColumns
      /\ CohortV1.run_notebook t = Raise (NameError "cohort_with_sf"))
  /\ (forall sf, CohortV1.sf_ratios t = Ok sf ->
        CohortV1.qualifying_admissions t sf = ∅
        \/ CohortV1.admissions_with_radiology t = ∅ ->
        (exists c c', CohortV1.cohort_with_criteria t = Ok c
                      /\ CohortV1.cohort_with_radiology t c = Ok c'
                      /\ len c' = 0%nat)
        /\ CohortV1.run_notebook t = Raise (NameError "cohort_with_sf")).
Proof.
  split.
  { eexists. split; [apply run_notebook_ok | reflexivity]. }
  split; [|split].
  - intros Hempty.
    assert (Cohort.final_cohort_admissions_w_reports t = ∅) as E.
    { rewrite Cohort_final_w_reports, Cohort_final_cohort_admissions,
        Cohort_final_qualifying in *.
      destruct Hempty as [H|[H|[H|[H|[H|[H|[H|H]]]]]]].
      - assert (Cohort.adult_icu_admissions t = []) as H'
          by (unfold Cohort.adult_icu_admissions; by rewrite H).
        rewrite (no_adult_icu_no_peep t H'). set_solver.
      - rewrite (no_adult_icu_no_peep t H). set_solver.
      - rewrite H. set_solver.
      - rewrite H. set_solver.
      - rewrite H. set_solver.
      - rewrite H. set_solver.
      - rewrite H. set_solver.
      - done. }
    rewrite run_notebook_ok, (final_cohort_empty t E). done.
  - intros H. pose proof (proj1 (CohortV1_empty_stage t) H) as E.
    split; [exact E|]. split; [reflexivity|]. exact (CohortV1_run_stops t _ E).
  - intros sf Hsf H.
    destruct (proj2 (CohortV1_empty_stage t) sf Hsf H) as (c & c' & E & E' & Hlen).
    split; [by exists c, c'|]. exact (CohortV1_run_stops t _ E).
Qed.

(** No chart event at all: the PEEP stage of either notebook is empty. *)
Lemma empty_stage_outcome_witness :
  Cohort.peep_qualifying_admissions (sample_tables [sample_stay] []) = ∅
  /\ Cohort.run_notebook (sample_tables [sample_stay] []) =
       Ok {| Cohort.out_final_cohort := NoColumns; Cohort.out_saved := None |}
  /\ CohortV1.admissions_with_peep (sample_tables [sample_stay] []) = ∅
  /\ CohortV1.run_notebook (sample_tables [sample_stay] [])
     = Raise (NameError "cohort_with_sf").
Proof.
  assert (Cohort.peep_qualifying_admissions (sample_tables [sample_stay] []) = ∅) as E
    by reflexivity.
  assert (CohortV1.admissions_with_peep (sample_tables [sample_stay] []) = ∅) as E1
    by reflexivity.
  destruct (empty_stage_outcome (sample_tables [sample_stay] [])) as (_ & H & H1 & _).
  split; [exact E|]. split.
  - apply H. right. right. left. exact E.
  - split; [exact E1|]. apply H1. left. exact E1.
Defined.

(** ** Rows per admission *)

Lemma filter_filter_comm {A : Type} (P Q : A -> bool) (l : list A) :
  List.filter P (List.filter Q l) = List.filter Q (List.filter P l).
Proof.
  induction l as [|x l IH]; [done|]. simpl.
  destruct (P x) eqn:HP, (Q x) eqn:HQ; simpl; rewrite ?HP, ?HQ, IH; done.
Qed.

Lemma filter_all {A : Type} (P : A -> bool) (l : list A) :
  (forall x, In x l -> P x = true) -> List.filter P l = l.
Proof.
  induction l as [|x l IH]; [done|]. intros H. simpl.
  rewrite (H x) by (by left). f_equal. apply IH. intros y Hy. apply H. by right.
Qed.

Lemma filter_none {A : Type} (P : A -> bool) (l : list A) :
  (forall x, In x l -> P x = false) -> List.filter P l = [].
Proof.
  induction l as [|x l IH]; [done|]. intros H. simpl.
  rewrite (H x) by (by left). apply IH. intros y Hy. apply H. by right.
Qed.

Lemma filter_map_swap {A B : Type} (f : A -> B) (P : B -> bool) (l : list A) :
  List.filter P (map f l) = map f (List.filter (fun x => P (f x)) l).
Proof.
  induction l as [|x l IH]; [done|]. simpl. destruct (P (f x)); simpl; by rewrite IH.
Qed.

(** Selecting the rows of one key after a merge is merging the left rows of
    that key. *)
Section MergeKey.
Context {A B C : Type} (ka : A -> Z) (kb : B -> Z) (sel : A -> Z) (kc : C -> Z).

Lemma filter_flat_map_key (f : A -> list C) (l : list A) (h : Z) :
  (forall a c, In c (f a) -> kc c = sel a) ->
  List.filter (fun c => kc c =? h) (flat_map f l)
  = flat_map f (List.filter (fun a => sel a =? h) l).
Proof.
  intros Hk. induction l as [|a l IH]; [done|].
  cbn [flat_map List.filter]. rewrite List.filter_app, IH.
  destruct (sel a =? h) eqn:E; cbn [flat_map].
  - f_equal. apply filter_all. intros c Hc. by rewrite (Hk a c Hc).
  - rewrite filter_none; [done|]. intros c Hc. by rewrite (Hk a c Hc).
Qed.

Lemma filter_merge_inner (mk : A -> B -> C) (l : list A) (r : list B) (h : Z) :
  (forall a b, kc (mk a b) = sel a) ->
  List.filter (fun c => kc c =? h) (merge_inner ka kb mk l r)
  = merge_inner ka kb mk (List.filter (fun a => sel a =? h) l) r.
Proof.
  intros Hk. unfold merge_inner. apply filter_flat_map_key.
  intros a c Hc. apply in_map_iff in Hc as (b & <- & _). apply Hk.
Qed.

Lemma filter_merge_left (mk : A -> option B -> C) (l : list A) (r : list B) (h : Z) :
  (forall a b, kc (mk a b) = sel a) ->
  List.filter (fun c => kc c =? h) (merge_left ka kb mk l r)
  = merge_left ka kb mk (List.filter (fun a => sel a =? h) l) r.
Proof.
  intros Hk. unfold merge_left. apply filter_flat_map_key.
  intros a c Hc. destruct (List.filter _ r) as [|b0 bs].
  - destruct Hc as [<-|[]]. apply Hk.
  - apply in_map_iff in Hc as (b & <- & _). apply Hk.
Qed.

End MergeKey.

(** [drop_duplicates] keeps, for each key, the first row that carries it. *)
Lemma filter_drop_duplicates_from {A : Type} (key : A -> Z) (seen : list Z)
    (l : list A) (k : Z) :
  List.filter (fun y => key y =? k) (drop_duplicates_from key seen l)
  = if isin k seen then []
    else match List.filter (fun y => key y =? k) l with
         | [] => []
         | x :: _ => [x]
         end.
Proof.
  revert seen. induction l as [|x l IH]; intros seen; simpl.
  - by destruct (isin k seen).
  - destruct (isin (key x) seen) eqn:Hx.
    + rewrite IH. destruct (isin k seen) eqn:Hk; [done|].
      destruct (key x =? k) eqn:E; [|done].
      apply Z.eqb_eq in E. congruence.
    + simpl. rewrite IH. destruct (key x =? k) eqn:E.
      * apply Z.eqb_eq in E. subst k. rewrite Hx.
        unfold isin at 1. simpl. by rewrite Z.eqb_refl.
      * unfold isin at 1. simpl. rewrite Z.eqb_sym, E. simpl.
        fold (isin k seen). done.
Qed.

Lemma filter_drop_duplicates {A : Type} (key : A -> Z) (l : list A) (k : Z) :
  List.filter (fun y => key y =? k) (drop_duplicates key l)
  = match List.filter (fun y => key y =? k) l with
    | [] => []
    | x :: _ => [x]
    end.
Proof. unfold drop_duplicates. by rewrite filter_drop_duplicates_from. Qed.

Lemma filter_filter_and {A : Type} (P Q : A -> bool) (l : list A) :
  List.filter P (List.filter Q l) = List.filter (fun x => Q x && P x) l.
Proof.
  induction l as [|x l IH]; [done|]. simpl.
  destruct (Q x); simpl; [destruct (P x)|]; by rewrite IH.
Qed.

(** The rows of the earlier notebook's final cohort are selected rows of
    [admissions_with_icu]. *)
Lemma CohortV1_final_rows (t : Tables) (fc : DataFrame CohortV1.FinalRow) :
  CohortV1.final_cohort t = Ok fc ->
  exists Q, rows_of fc
            = map (CohortV1.final_row t) (List.filter Q (CohortV1.admissions_with_icu t)).
Proof.
  unfold CohortV1.final_cohort, CohortV1.cohort_with_criteria.
  destruct (_ && _).
  - destruct (CohortV1.sf_ratios t) as [sf|e]; [|done].
    cbn [mbind result_bind]. unfold CohortV1.cohort_with_radiology.
    destruct (0 <? len _)%nat.
    + cbn [getitem mbind result_bind rows_of]. unfold CohortV1.apply_exclusions.
      destruct (0 <? len _)%nat.
      * cbn [getitem mbind result_bind rows_of]. intros [= <-].
        cbn [rows_of]. rewrite filter_map_swap, !filter_filter_and. eauto.
      * intros [= <-]. exists (fun _ => false). cbn [rows_of].
        by rewrite filter_none.
    + cbn [mbind result_bind]. intros [= <-]. exists (fun _ => false).
      cbn [rows_of]. by rewrite filter_none.
  - cbn [mbind result_bind]. intros [= <-]. exists (fun _ => false).
    cbn [rows_of]. by rewrite filter_none.
Qed.

Section OneAdmission.

Variable t : Tables.
Variable h : Z.
Variable adm : Admission.
Variable p : Patient.
Variables s1 s2 : IcuStay.

Hypothesis one_admission :
  List.filter (fun a => a_hadm_id a =? h) (admissions t) = [adm].
Hypothesis one_patient :
  List.filter (fun q => p_subject_id q =? a_subject_id adm) (patients t) = [p].
Hypothesis two_stays :
  List.filter (fun s => s_hadm_id s =? h) (icustays t) = [s1; s2].

Lemma admission_key : a_hadm_id adm = h.
Proof using one_admission.
  assert (In adm (List.filter (fun a => a_hadm_id a =? h) (admissions t))) as H
    by (rewrite one_admission; by left).
  apply filter_In in H as [_ H]. by apply Z.eqb_eq.
Qed.

Lemma patient_data_of_admission :
  List.filter (fun r => a_hadm_id (Cohort.pd_adm r) =? h) (Cohort.patient_data t) = [(patient_row adm p)].
Proof using one_admission one_patient.
  unfold Cohort.patient_data.
  rewrite (filter_merge_left a_subject_id p_subject_id a_hadm_id
             (fun r => a_hadm_id (Cohort.pd_adm r)) Cohort.Build_PatientData)
    by done.
  rewrite one_admission. unfold merge_left. cbn [flat_map].
  rewrite one_patient. reflexivity.
Qed.

Lemma adult_admissions_of_admission :
  List.filter (fun r => a_hadm_id (Cohort.pd_adm r) =? h) (Cohort.adult_admissions t)
  = if Cohort.is_adult (patient_row adm p) then [(patient_row adm p)] else [].
Proof using one_admission one_patient.
  unfold Cohort.adult_admissions.
  rewrite filter_filter_comm, patient_data_of_admission. reflexivity.
Qed.

Lemma adult_icu_of_admission :
  List.filter (fun r => Cohort.hadm_id r =? h) (Cohort.adult_icu_admissions t)
  = if Cohort.is_adult (patient_row adm p)
    then [Cohort.Build_AdultIcu (patient_row adm p) s1; Cohort.Build_AdultIcu (patient_row adm p) s2] else [].
Proof using one_admission one_patient two_stays.
  unfold Cohort.adult_icu_admissions.
  rewrite (filter_merge_inner _ s_hadm_id (fun r => a_hadm_id (Cohort.pd_adm r))
             Cohort.hadm_id Cohort.Build_AdultIcu) by done.
  rewrite adult_admissions_of_admission.
  destruct (Cohort.is_adult (patient_row adm p)); [|done].
  unfold merge_inner. cbn [flat_map Cohort.pd_adm patient_row].
  rewrite admission_key, two_stays. reflexivity.
Qed.

Lemma admissions_with_icu_of_admission :
  List.filter (fun r => Cohort.hadm_id r =? h) (CohortV1.admissions_with_icu t)
  = if Cohort.is_adult (patient_row adm p) then [Cohort.Build_AdultIcu (patient_row adm p) s1] else [].
Proof using one_admission one_patient two_stays.
  unfold CohortV1.admissions_with_icu.
  rewrite (filter_merge_inner _ s_hadm_id (fun r => a_hadm_id (Cohort.pd_adm r))
             Cohort.hadm_id Cohort.Build_AdultIcu) by done.
  change (CohortV1.adult_admissions t) with (Cohort.adult_admissions t).
  rewrite adult_admissions_of_admission.
  destruct (Cohort.is_adult (patient_row adm p)); [|done].
  unfold merge_inner. cbn [flat_map Cohort.pd_adm patient_row].
  rewrite admission_key, filter_drop_duplicates, two_stays. reflexivity.
Qed.

Hypothesis survives : h ∈ Cohort.final_cohort_admissions_w_reports t.

Lemma surviving_admission_is_adult : Cohort.is_adult (patient_row adm p) = true.
Proof using one_admission one_patient two_stays survives.
  assert (h ∈ adult_icu_ids t) as Hin.
  { apply Cohort_peep_subset. rewrite Cohort_final_set in survives. set_solver. }
  unfold adult_icu_ids in Hin.
  apply elem_of_list_to_set, list_elem_of_In, in_map_iff in Hin as (x & E & Hx).
  assert (In x (List.filter (fun r => Cohort.hadm_id r =? h) (Cohort.adult_icu_admissions t)))
    as H by (apply filter_In; split; [done | by apply Z.eqb_eq]).
  rewrite adult_icu_of_admission in H. by destruct (Cohort.is_adult (patient_row adm p)).
Qed.

Lemma final_cohort_of_admission :
  List.filter (fun r => Cohort.hadm_id (Cohort.c_row r) =? h)
    (rows_of (Cohort.final_cohort t))
  = [Cohort.cohort_row t (Cohort.Build_AdultIcu (patient_row adm p) s1);
     Cohort.cohort_row t (Cohort.Build_AdultIcu (patient_row adm p) s2)].
Proof using one_admission one_patient two_stays survives.
  unfold Cohort.final_cohort.
  assert (nonempty (Cohort.final_cohort_admissions_w_reports t) = true) as ->.
  { apply nonempty_iff. intros E. rewrite E in survives. set_solver. }
  cbn [rows_of]. rewrite filter_map_swap. cbn [Cohort.c_row Cohort.cohort_row].
  rewrite filter_filter_comm, adult_icu_of_admission, surviving_admission_is_adult.
  rewrite filter_all; [done|].
  intros x Hx. apply isin_set_iff.
  assert (Cohort.hadm_id x = h) as ->; [|done].
  destruct Hx as [<-|[<-|[]]]; apply admission_key.
Qed.

(** C4 (amended): in the optimized cohort notebook an admission with two ICU
    stays that survives every filter stage has two final rows, one per stay
    and in the order of the stays, each carrying the admission columns and the
    length of stay of its own stay, (outtime - intime) in days. The earlier
    notebook joins the stays after [drop_duplicates(['hadm_id'])], so its
    final cohort holds at most one row for the admission, that of the first
    stay. *)
Theorem two_stays_two_rows :
  let rows := List.filter (fun r => Cohort.hadm_id (Cohort.c_row r) =? h)
                (rows_of (Cohort.final_cohort t)) in
  map (fun r => Cohort.ai_stay (Cohort.c_row r)) rows = [s1; s2]
  /\ map (fun r => Cohort.pd_adm (Cohort.ai_adm (Cohort.c_row r))) rows = [adm; adm]
  /\ (forall r, In r rows ->
        (Cohort.icu_los_days r ==
         inject_Z (outtime (Cohort.ai_stay (Cohort.c_row r))
                   - intime (Cohort.ai_stay (Cohort.c_row r))) / 86400000000000)%Q)
  /\ (forall fc, CohortV1.final_cohort t = Ok fc ->
        let rows1 := List.filter (fun r => CohortV1.hadm_id r =? h) (rows_of fc) in
        (length rows1 <= 1)%nat
        /\ (forall r, In r rows1 -> Cohort.ai_stay (CohortV1.fr_row r) = s1)).
Proof using one_admission one_patient two_stays survives.
  cbn zeta. rewrite final_cohort_of_admission.
  split; [done|]. split; [done|]. split.
  - intros r [<-|[<-|[]]]; cbn [Cohort.icu_los_days Cohort.cohort_row Cohort.c_row
      Cohort.ai_stay]; unfold Cohort.los_days, total_seconds; field.
  - intros fc Hfc. destruct (CohortV1_final_rows t fc Hfc) as (Q & ->).
    rewrite filter_map_swap.
    change (fun x => CohortV1.hadm_id (CohortV1.final_row t x) =? h)
      with (fun x => Cohort.hadm_id x =? h).
    rewrite filter_filter_comm, admissions_with_icu_of_admission,
      surviving_admission_is_adult.
    cbn [List.filter].
    destruct (Q _); cbn [map length]; (split; [lia|]).
    + by intros r [<-|[]].
    + by intros r [].
Qed.

End OneAdmission.

(** C4, as the claim states it, fails for the earlier cohort notebook: the
    scenario admission has two ICU stays and passes every stage, and that
    notebook's final cohort holds the single row of the first stay. *)
Lemma earlier_notebook_keeps_one_stay :
  map s_stay_id (List.filter (fun s => s_hadm_id s =? 100) (icustays two_stay_tables))
    = [7; 8]
  /\ (exists rows, CohortV1.final_cohort two_stay_tables = Ok (Frame rows)
        /\ map (fun r => (CohortV1.hadm_id r, Cohort.stay_id (CohortV1.fr_row r))) rows
           = [(100, 7)])
  /\ map (fun r => (Cohort.hadm_id (Cohort.c_row r), Cohort.stay_id (Cohort.c_row r)))
         (rows_of (Cohort.final_cohort two_stay_tables)) = [(100, 7); (100, 8)].
Proof.
  split; [reflexivity|]. split; [|by vm_compute].
  eexists. split; [vm_compute; reflexivity | reflexivity].
Qed.

Lemma two_stays_two_rows_witness :
  100 ∈ Cohort.final_cohort_admissions_w_reports two_stay_tables
  /\ map (fun r => Cohort.ai_stay (Cohort.c_row r))
         (List.filter (fun r => Cohort.hadm_id (Cohort.c_row r) =? 100)
            (rows_of (Cohort.final_cohort two_stay_tables)))
     = [sample_stay; sample_second_stay].
Proof.
  assert (100 ∈ Cohort.final_cohort_admissions_w_reports two_stay_tables) as Hs
    by (by vm_compute).
  split; [exact Hs|].
  exact (proj1 (two_stays_two_rows two_stay_tables 100 sample_admission sample_patient
                  sample_stay sample_second_stay eq_refl eq_refl eq_refl Hs)).
Defined.

(** ** Minima of columns *)

Lemma min_Z_spec (x : Z) (l : list Z) :
  In (min_Z x l) (x :: l) /\ (forall y, In y (x :: l) -> min_Z x l <= y).
Proof.
  unfold min_Z. revert x. induction l as [|a l IH]; intros x; simpl.
  - split; [by left | intros y [<-|[]]; lia].
  - destruct (IH (Z.min x a)) as [Hin Hle]. split.
    + destruct Hin as [E|Hin]; [|by right; right].
      rewrite <- E. destruct (Z.min_spec x a) as [[_ ->]|[_ ->]]; [by left | by right; left].
    + intros y [<-|[<-|Hy]].
      * specialize (Hle (Z.min x a) (or_introl eq_refl)). lia.
      * specialize (Hle (Z.min x a) (or_introl eq_refl)). lia.
      * apply Hle. by right.
Qed.

Lemma min_of_Z_spec (l : list Z) (m : Z) :
  min_of_Z l = Some m -> In m l /\ (forall y, In y l -> m <= y).
Proof.
  destruct l as [|x l]; [done|]. intros [= <-]. apply min_Z_spec.
Qed.

Lemma min_of_Z_is_Some (l : list Z) : l <> [] -> exists m, min_of_Z l = Some m.
Proof. destruct l; [done | eauto]. Qed.

Lemma Qmin_cases (x y : Q) : Qmin x y = x \/ Qmin x y = y.
Proof.
  unfold Qmin, GenericMinMax.gmin. destruct (x ?= y)%Q; auto.
Qed.

Lemma min_Q_spec (x : Q) (l : list Q) :
  In (min_Q x l) (x :: l) /\ (forall y, In y (x :: l) -> (min_Q x l <= y)%Q).
Proof.
  unfold min_Q. revert x. induction l as [|a l IH]; intros x; simpl.
  - split; [by left | intros y [<-|[]]; apply Qle_refl].
  - destruct (IH (Qmin x a)) as [Hin Hle]. split.
    + destruct Hin as [E|Hin]; [|by right; right].
      rewrite <- E. destruct (Qmin_cases x a) as [->| ->]; [by left | by right; left].
    + intros y [<-|[<-|Hy]].
      * eapply Qle_trans; [apply (Hle _ (or_introl eq_refl)) | apply Q.le_min_l].
      * eapply Qle_trans; [apply (Hle _ (or_introl eq_refl)) | apply Q.le_min_r].
      * apply Hle. by right.
Qed.

Lemma min_of_Q_spec (l : list Q) (m : Q) :
  min_of_Q l = Some m -> In m l /\ (forall y, In y l -> (m <= y)%Q).
Proof.
  destruct l as [|x l]; [done|]. intros [= <-]. apply min_Q_spec.
Qed.

(** ** One row per group *)

Lemma filter_key_NoDup (keys : list Z) (h : Z) :
  NoDup keys -> List.filter (fun k => k =? h) keys = if isin h keys then [h] else [].
Proof.
  induction 1 as [|k keys Hk Hnd IH]; [done|]. simpl. rewrite IH.
  unfold isin. simpl. fold (isin h keys). rewrite (Z.eqb_sym h k).
  destruct (k =? h) eqn:E; simpl; [|done].
  apply Z.eqb_eq in E. subst k.
  destruct (isin h keys) eqn:Hin; [|done].
  apply isin_In, list_elem_of_In in Hin. done.
Qed.

Section Groups.
Context {R : Type} (key : R -> Z) (f : Z -> list R).
Hypothesis f_key : forall k x, In x (f k) -> key x = k.
Hypothesis f_one : forall k, (length (f k) <= 1)%nat.

Lemma group_rows (keys : list Z) (h : Z) :
  NoDup keys ->
  List.filter (fun x => key x =? h) (flat_map f keys) = if isin h keys then f h else [].
Proof using f_key.
  intros Hnd.
  rewrite (filter_flat_map_key (fun k => k) key f keys h) by exact f_key.
  rewrite (filter_key_NoDup keys h Hnd).
  destruct (isin h keys); [|done]. simpl. by rewrite app_nil_r.
Qed.

Lemma group_keys_NoDup (keys : list Z) :
  NoDup keys -> NoDup (map key (flat_map f keys)).
Proof using f_key f_one.
  induction 1 as [|k keys Hk Hnd IH]; [constructor|].
  simpl. rewrite map_app. pose proof (f_one k) as H1. pose proof (f_key k) as Hkey.
  destruct (f k) as [|x [|y r]]; simpl in *; [done| |lia].
  constructor; [|done]. rewrite (Hkey x (or_introl eq_refl)).
  intros Hin. apply Hk. apply list_elem_of_In, in_map_iff in Hin as (z & <- & Hz).
  apply in_flat_map in Hz as (k' & Hk' & Hz).
  rewrite (f_key k' z Hz). by apply list_elem_of_In.
Qed.

End Groups.

(** ** Onset records of the ARDS notebook *)

Lemma head_In {A : Type} (l : list A) (x : A) : head l = Some x -> In x l.
Proof. destruct l; [done|]. intros [= <-]. by left. Qed.

Lemma minutes_window (d : Timedelta) :
  ((0 <= total_seconds d / 60)%Q /\ (total_seconds d / 60 <= 60)%Q)
  <-> 0 <= d <= 3600 * 1000000000.
Proof.
  unfold total_seconds, Qdiv, Qle, Qmult, Qinv, inject_Z; simpl. lia.
Qed.

Lemma Ards_convert_fio2_key (r : Ards.SfData) :
  Ards.pivot_key (Ards.convert_fio2 r) = Ards.pivot_key r
  /\ Ards.param_type (Ards.convert_fio2 r) = Ards.param_type r
  /\ Ards.sd_intime (Ards.convert_fio2 r) = Ards.sd_intime r
  /\ Ards.sd_charttime (Ards.convert_fio2 r) = Ards.sd_charttime r
  /\ Ards.sd_stay_id (Ards.convert_fio2 r) = Ards.sd_stay_id r
  /\ Ards.sd_hadm_id (Ards.convert_fio2 r) = Ards.sd_hadm_id r.
Proof.
  unfold Ards.convert_fio2. by destruct (Ards.fio2_mask r).
Qed.

Lemma Ards_convert_fio2_value (r : Ards.SfData) :
  Ards.sd_valuenum (Ards.convert_fio2 r) =
  if bool_decide (Ards.param_type r = Ards.fio2)
  then normalize_fio2 (Ards.sd_valuenum r) else Ards.sd_valuenum r.
Proof.
  unfold Ards.convert_fio2, Ards.fio2_mask, normalize_fio2.
  destruct (bool_decide _); simpl; [|done].
  by destruct (Qlt_bool 1 (Ards.sd_valuenum r)).
Qed.

Section ArdsFacts.

Variable base_cohort : list Ards.BaseRow.
Variable chartevents : list ChartEvent.

(** A row of [sf_data] carries the stay, admission and ICU admission time of
    a base cohort row. *)
Lemma Ards_sf_data_in (r : Ards.SfData) :
  In r (Ards.sf_data base_cohort chartevents) ->
  exists b e v,
    In b base_cohort /\ Ards.stay_id b = Ards.sd_stay_id r
    /\ Ards.sd_hadm_id r = Some (Ards.hadm_id b)
    /\ Ards.sd_intime r = Some (Ards.base_intime b)
    /\ In e chartevents /\ ce_stay_id e = Ards.sd_stay_id r
    /\ ce_charttime e = Ards.sd_charttime r
    /\ ce_valuenum e = Some v /\ Ards.sd_valuenum r = v
    /\ Ards.param_type r = Ards.classify (ce_itemid e).
Proof.
  unfold Ards.sf_data. intros Hr. apply in_merge_left in Hr as (x & Hx & H).
  apply in_flat_map in Hx as (e & He & Hx). unfold Ards.sf_event in Hx.
  apply kept_event_in in Hx as (v & Hv & Hc & ->).
  apply andb_true_iff in Hc as [Ht _]. apply isin_set_iff in Ht.
  destruct H as [(b & Hb & E & ->)|[Hno ->]].
  - exists b, e, v. simpl in *. eauto 15.
  - unfold Ards.target_stay_ids in Ht.
    apply elem_of_list_to_set, list_elem_of_In, in_map_iff in Ht as (b & E & Hb).
    by destruct (Hno b Hb).
Qed.

Lemma Ards_ratio_of_row (p : Ards.SfPivot) (x : Ards.Ratio) :
  In x (Ards.ratio_of p) ->
  Ards.pv_spo2 p = Some (Ards.rt_spo2 x) /\ Ards.pv_fio2 p = Some (Ards.rt_fio2 x)
  /\ Ards.rt_stay_id x = Ards.pv_stay_id p /\ Ards.rt_hadm_id x = Ards.pv_hadm_id p
  /\ Ards.rt_charttime x = Ards.pv_charttime p
  /\ (0 < Ards.rt_fio2 x)%Q
  /\ Ards.rt_sf_ratio x = (Ards.rt_spo2 x / Ards.rt_fio2 x)%Q.
Proof.
  unfold Ards.ratio_of.
  destruct (Ards.pv_spo2 p) as [s|]; [|done].
  destruct (Ards.pv_fio2 p) as [f|]; [|done].
  destruct (Qlt_bool 0 f) eqn:Hf; [|done].
  intros [<-|[]]; simpl. by apply Qlt_bool_iff in Hf.
Qed.

Lemma Ards_window_row (y : Ards.SfData) :
  In y (Ards.sf_data_60min base_cohort chartevents) ->
  exists b, In b base_cohort
    /\ Ards.stay_id b = Ards.sd_stay_id y /\ Ards.sd_hadm_id y = Some (Ards.hadm_id b)
    /\ 0 <= Ards.sd_charttime y - Ards.base_intime b <= 3600 * 1000000000.
Proof.
  unfold Ards.sf_data_60min. intros Hy. apply filter_In in Hy as [Hy Hm].
  apply Ards_sf_data_in in Hy as (b & e & v & Hb & Es & Eh & Ei & _).
  exists b. split; [done|]. split; [done|]. split; [done|].
  unfold Ards.minutes_from_icu in Hm. rewrite Ei in Hm. cbn [Ards.minutes_between] in Hm.
  apply andb_true_iff in Hm as [H0 H60]. cbn [nan_ge nan_le] in *.
  apply Qle_bool_iff in H0, H60. by apply minutes_window.
Qed.

(** A row of [sf_ratios]: it stands at an instant of its stay within 0 to 60
    minutes of the ICU admission of a base cohort row of that stay and
    admission; the FiO2 is positive and the ratio is the quotient. *)
Lemma Ards_sf_ratio_in (r : Ards.SfRatio) :
  In r (rows_of (Ards.sf_ratios base_cohort chartevents)) ->
  (0 < Ards.sr_fio2 r)%Q
  /\ Ards.sf_ratio r = (Ards.sr_spo2 r / Ards.sr_fio2 r)%Q
  /\ exists b, In b base_cohort
       /\ Ards.stay_id b = Ards.sr_stay_id r /\ Ards.hadm_id b = Ards.sr_hadm_id r
       /\ 0 <= Ards.sr_charttime r - Ards.base_intime b <= 3600 * 1000000000.
Proof.
  unfold Ards.sf_ratios. destruct (_ && _); [|done]. cbn [rows_of].
  intros Hr. apply in_merge_left in Hr as (x & Hx & H).
  assert (Ards.sr_ratio r = x) as Ex
    by (destruct H as [(b & _ & _ & ->)|[_ ->]]; reflexivity).
  clear H. unfold Ards.sr_fio2, Ards.sf_ratio, Ards.sr_spo2, Ards.sr_stay_id,
    Ards.sr_hadm_id, Ards.sr_charttime. rewrite Ex. clear Ex r.
  apply in_flat_map in Hx as (p & Hp & Hx).
  apply Ards_ratio_of_row in Hx as (_ & _ & -> & -> & -> & Hf & Hq).
  split; [done|]. split; [done|].
  unfold Ards.sf_pivot, Ards.pivot_table in Hp.
  apply in_map_iff in Hp as (k & <- & Hk). cbn [Ards.pv_stay_id Ards.pv_hadm_id Ards.pv_charttime].
  apply list_elem_of_In, sorted_unique3_elem, list_elem_of_omap in Hk as (y' & Hy' & Hkey).
  unfold Ards.sf_data_60min_normalized in Hy'.
  apply list_elem_of_In, in_map_iff in Hy' as (y & <- & Hy).
  destruct (Ards_convert_fio2_key y) as (Ek & _). rewrite Ek in Hkey.
  apply Ards_window_row in Hy as (b & Hb & Es & Eh & Hw).
  unfold Ards.pivot_key in Hkey. rewrite Eh in Hkey. injection Hkey as <-.
  exists b. done.
Qed.

Lemma Ards_onset_of_key (crit : list Ards.SfRatio) (k : Z) (o : Ards.Onset) :
  In o (Ards.onset_of crit k) -> Ards.on_hadm_id o = k.
Proof.
  unfold Ards.onset_of. destruct (min_of_Z _); [|done]. destruct (min_of_Q _); [|done].
  by intros [<-|[]].
Qed.

Lemma Ards_onset_of_one (crit : list Ards.SfRatio) (k : Z) :
  (length (Ards.onset_of crit k) <= 1)%nat.
Proof.
  unfold Ards.onset_of. destruct (min_of_Z _); [|simpl; lia].
  destruct (min_of_Q _); simpl; lia.
Qed.

Lemma Ards_onset_of_group (crit : list Ards.SfRatio) (h : Z) :
  Ards.group crit h <> [] ->
  exists o, Ards.onset_of crit h = [o]
    /\ min_of_Z (map Ards.sr_charttime (Ards.group crit h)) = Some (Ards.ards_onset_time o)
    /\ min_of_Q (map Ards.sf_ratio (Ards.group crit h)) = Some (Ards.ards_onset_sf_ratio o).
Proof.
  intros Hne. unfold Ards.onset_of.
  destruct (Ards.group crit h) as [|r g]; [done|]. cbn [map min_of_Z min_of_Q].
  eexists. split; [reflexivity|]. done.
Qed.

Lemma Ards_group_in (crit : list Ards.SfRatio) (h : Z) (r : Ards.SfRatio) :
  In r (Ards.group crit h) <-> In r crit /\ Ards.sr_hadm_id r = h.
Proof. unfold Ards.group. rewrite filter_In, Z.eqb_eq. done. Qed.

(** C1 (amended): in the optimized-onset variant every admission with a
    qualifying observation (S/F ratio at most 315, charted within 0 to 60
    minutes of the ICU admission of its stay) has exactly one onset record;
    its onset time is the earliest qualifying timestamp of the admission and
    its onset ratio is the lowest qualifying ratio of the admission; each is
    the value of some qualifying observation, not necessarily of the same
    one. *)
Theorem onset_record (h : Z) :
  let crit := Ards.ards_sf_criteria (rows_of (Ards.sf_ratios base_cohort chartevents)) in
  (exists r, In r crit /\ Ards.sr_hadm_id r = h) ->
  (forall r, In r crit ->
     (Ards.sf_ratio r <= 315)%Q /\ (0 < Ards.sr_fio2 r)%Q
     /\ exists b, In b base_cohort
          /\ Ards.stay_id b = Ards.sr_stay_id r /\ Ards.hadm_id b = Ards.sr_hadm_id r
          /\ 0 <= Ards.sr_charttime r - Ards.base_intime b <= 3600 * 1000000000)
  /\ exists o,
      List.filter (fun o => Ards.on_hadm_id o =? h)
        (rows_of (Ards.ards_onset_times base_cohort chartevents)) = [o]
      /\ (exists r, In r crit /\ Ards.sr_hadm_id r = h
                    /\ Ards.sr_charttime r = Ards.ards_onset_time o)
      /\ (forall r, In r crit -> Ards.sr_hadm_id r = h ->
                    Ards.ards_onset_time o <= Ards.sr_charttime r)
      /\ (exists r, In r crit /\ Ards.sr_hadm_id r = h
                    /\ Ards.sf_ratio r = Ards.ards_onset_sf_ratio o)
      /\ (forall r, In r crit -> Ards.sr_hadm_id r = h ->
                    (Ards.ards_onset_sf_ratio o <= Ards.sf_ratio r)%Q).
Proof.
  cbn zeta. intros (r0 & Hr0 & Hh0). split.
  { intros r Hr. unfold Ards.ards_sf_criteria in Hr. apply filter_In in Hr as [Hr Hle].
    apply Qle_bool_iff in Hle. apply Ards_sf_ratio_in in Hr as (Hf & _ & Hb). done. }
  set (crit := Ards.ards_sf_criteria _) in *.
  assert (Ards.ards_onset_times base_cohort chartevents
          = Frame (Ards.groupby_onset crit)) as ->.
  { unfold Ards.ards_onset_times. fold crit.
    destruct (Ards.sf_ratios base_cohort chartevents) as [|rows]; [destruct Hr0|].
    cbn [len rows_of] in *.
    assert (rows <> []) as Hrows.
    { intros ->. destruct Hr0. }
    destruct rows; [done|]. cbn [length Nat.ltb Nat.leb].
    destruct crit; [destruct Hr0 | done]. }
  cbn [rows_of]. unfold Ards.groupby_onset.
  rewrite (group_rows Ards.on_hadm_id (Ards.onset_of crit)
             (Ards_onset_of_key crit) _ h (sorted_unique_NoDup _)).
  assert (isin h (sorted_unique (map Ards.sr_hadm_id crit)) = true) as ->.
  { apply isin_In, list_elem_of_In, sorted_unique_elem, list_elem_of_In, in_map_iff.
    eauto. }
  destruct (Ards_onset_of_group crit h) as (o & -> & Ht & Hq).
  { intros E. assert (In r0 (Ards.group crit h)) as H by (by apply Ards_group_in).
    rewrite E in H. destruct H. }
  exists o. split; [done|].
  apply min_of_Z_spec in Ht as [Htin Htle]. apply min_of_Q_spec in Hq as [Hqin Hqle].
  apply in_map_iff in Htin as (rt & Et & Hrt). apply Ards_group_in in Hrt as [Hrt Eh].
  apply in_map_iff in Hqin as (rq & Eq & Hrq). apply Ards_group_in in Hrq as [Hrq Eh'].
  split; [eauto|]. split.
  { intros r Hr Eh2. apply Htle, in_map. by apply Ards_group_in. }
  split; [eauto|].
  intros r Hr Eh2. apply Hqle, in_map. by apply Ards_group_in.
Qed.

End ArdsFacts.

(** C1, as the claim states it, fails: the earliest qualifying observation
    has ratio 237.5, and the onset record pairs its timestamp with the ratio
    100 of the later observation. *)
Lemma onset_ratio_not_of_earliest_observation :
  map (fun r => (Ards.sr_charttime r, Qred (Ards.sf_ratio r)))
      (Ards.ards_sf_criteria (rows_of (Ards.sf_ratios onset_base_cohort onset_events)))
    = [(hour + 10 * minute, 475 # 2); (hour + 20 * minute, 100%Q)]
  /\ map (fun o => (Ards.on_hadm_id o, Ards.ards_onset_time o,
                    Qred (Ards.ards_onset_sf_ratio o)))
         (rows_of (Ards.ards_onset_times onset_base_cohort onset_events))
    = [(100, hour + 10 * minute, 100%Q)].
Proof. split; by vm_compute. Qed.

Lemma onset_record_witness :
  exists o,
    List.filter (fun o => Ards.on_hadm_id o =? 100)
      (rows_of (Ards.ards_onset_times onset_base_cohort onset_events)) = [o]
    /\ (exists r,
          In r (Ards.ards_sf_criteria
                  (rows_of (Ards.sf_ratios onset_base_cohort onset_events)))
          /\ Ards.sr_hadm_id r = 100
          /\ Ards.sr_charttime r = Ards.ards_onset_time o).
Proof.
  destruct (onset_record onset_base_cohort onset_events 100) as (_ & o & Ho & Ht & _).
  - eexists. split; [vm_compute; left; reflexivity | reflexivity].
  - exists o. split; [exact Ho | exact Ht].
Defined.

(** ** The flagging stage *)

Lemma filter_key_unique {B : Type} (kb : B -> Z) (r : list B) (k : Z) :
  NoDup (map kb r) -> (length (List.filter (fun b => (kb b =? k)%Z) r) <= 1)%nat.
Proof.
  induction r as [|b r IH]; [simpl; lia|]. intros Hnd. apply NoDup_cons in Hnd as [Hb Hnd].
  simpl. destruct (kb b =? k) eqn:E; [|by apply IH].
  apply Z.eqb_eq in E. rewrite filter_none; [simpl; lia|].
  intros x Hx. apply Z.eqb_neq. intros Ex. apply Hb. rewrite E, <- Ex.
  apply list_elem_of_In. by apply in_map.
Qed.

(** A left join on a key that is unique on the right keeps the left rows,
    once each and in order. *)
Lemma merge_left_keeps_rows {A B C : Type} (ka : A -> Z) (kb : B -> Z)
    (mk : A -> option B -> C) (left_of : C -> A) (l : list A) (r : list B) :
  (forall a m, left_of (mk a m) = a) ->
  NoDup (map kb r) ->
  map left_of (merge_left ka kb mk l r) = l.
Proof.
  intros Hmk Hnd. unfold merge_left. induction l as [|a l IH]; [done|].
  cbn [flat_map]. rewrite map_app, IH. 
  pose proof (filter_key_unique kb r (ka a) Hnd) as Hlen.
  destruct (List.filter _ r) as [|b [|b' bs]]; simpl in *; [by rewrite Hmk..|lia].
Qed.

Section Flagging.

Variable base_cohort : list Ards.BaseRow.
Variable chartevents : list ChartEvent.
Variable radiology : list RadiologyNote.
Variable detect : option string -> bool.

Lemma Ards_onset_keys_NoDup :
  NoDup (map Ards.on_hadm_id (rows_of (Ards.ards_onset_times base_cohort chartevents))).
Proof.
  unfold Ards.ards_onset_times. destruct (0 <? len _)%nat; [|constructor].
  cbn zeta. destruct (0 <? length _)%nat; [|constructor].
  cbn [rows_of]. unfold Ards.groupby_onset.
  apply group_keys_NoDup; [apply Ards_onset_of_key | apply Ards_onset_of_one |].
  apply sorted_unique_NoDup.
Qed.

Lemma Ards_bilateral_of_key (k : Z) (b : Ards.Bilateral) :
  In b (Ards.bilateral_of base_cohort radiology detect k) -> Ards.bl_hadm_id b = k.
Proof.
  unfold Ards.bilateral_of. destruct (min_of_Z _); [|done]. by intros [<-|[]].
Qed.

Lemma Ards_bilateral_of_one (k : Z) :
  (length (Ards.bilateral_of base_cohort radiology detect k) <= 1)%nat.
Proof. unfold Ards.bilateral_of. destruct (min_of_Z _); simpl; lia. Qed.

Lemma Ards_bilateral_keys_NoDup :
  NoDup (map Ards.bl_hadm_id (Ards.bilateral_by_admission base_cohort radiology detect)).
Proof.
  unfold Ards.bilateral_by_admission.
  apply group_keys_NoDup; [apply Ards_bilateral_of_key | apply Ards_bilateral_of_one |].
  apply sorted_unique_NoDup.
Qed.

Lemma Ards_merge_onset_rows :
  map fst (Ards.merge_onset base_cohort chartevents) = base_cohort.
Proof.
  unfold Ards.merge_onset. destruct (0 <? len _)%nat.
  - apply merge_left_keeps_rows; [done | apply Ards_onset_keys_NoDup].
  - rewrite map_map. apply map_id.
Qed.

Lemma Ards_merge_bilateral_rows :
  map fst (Ards.merge_bilateral base_cohort chartevents radiology detect)
  = Ards.merge_onset base_cohort chartevents.
Proof.
  unfold Ards.merge_bilateral. destruct (0 <? length _)%nat.
  - apply merge_left_keeps_rows; [done | apply Ards_bilateral_keys_NoDup].
  - rewrite map_map. apply map_id.
Qed.

Lemma Ards_final_cohort_base :
  map Ards.f_base (Ards.final_cohort base_cohort chartevents radiology detect)
  = base_cohort.
Proof.
  unfold Ards.final_cohort. rewrite map_map. cbn [Ards.f_base Ards.flag].
  rewrite <- (map_map fst fst), Ards_merge_bilateral_rows. apply Ards_merge_onset_rows.
Qed.

(** C10: the flagging stage keeps every base cohort row, once and in order,
    with its columns unchanged: the onset records and the bilateral flags
    hold at most one row per admission and are attached by left join. *)
Theorem flagging_keeps_every_row :
  map Ards.f_base (Ards.final_cohort base_cohort chartevents radiology detect)
    = base_cohort
  /\ length (Ards.final_cohort base_cohort chartevents radiology detect)
     = length base_cohort
  /\ NoDup (map Ards.on_hadm_id
              (rows_of (Ards.ards_onset_times base_cohort chartevents)))
  /\ NoDup (map Ards.bl_hadm_id
              (Ards.bilateral_by_admission base_cohort radiology detect)).
Proof.
  pose proof Ards_final_cohort_base as E.
  split; [exact E|]. split.
  - rewrite <- E at 2. by rewrite length_map.
  - split; [apply Ards_onset_keys_NoDup | apply Ards_bilateral_keys_NoDup].
Qed.

End Flagging.

(** ** Bilateral infiltrates per admission *)

Section Bilateral.

Variable radiology : list RadiologyNote.
Variable detect : option string -> bool.

Section Optimized.

Variable base_cohort : list Ards.BaseRow.
Variable chartevents : list ChartEvent.

Lemma Ards_cohort_radiology_in (h : Z) (n : RadiologyNote) :
  In (h, n) (Ards.cohort_radiology base_cohort radiology) <->
  In n radiology /\ r_hadm_id n = Some h /\ h ∈ Ards.cohort_hadm_ids base_cohort.
Proof.
  unfold Ards.cohort_radiology. rewrite <- list_elem_of_In, list_elem_of_omap. split.
  - intros (x & Hx & E). apply list_elem_of_In in Hx.
    destruct (r_hadm_id x) as [k|] eqn:Ek; [|done].
    destruct (isin_set k _) eqn:Hin; [|done]. injection E as <- <-.
    by apply isin_set_iff in Hin.
  - intros (Hn & E & Hin). exists n. split; [by apply list_elem_of_In|].
    rewrite E. apply isin_set_iff in Hin. by rewrite Hin.
Qed.

Lemma Ards_reports_of_in (h : Z) (n : RadiologyNote) :
  In n (Ards.reports_of base_cohort radiology h) <->
  In n radiology /\ r_hadm_id n = Some h /\ h ∈ Ards.cohort_hadm_ids base_cohort.
Proof.
  unfold Ards.reports_of. rewrite in_map_iff. split.
  - intros ([k m] & <- & Hx). apply filter_In in Hx as [Hx E]. simpl in *.
    apply Z.eqb_eq in E. subst k. by apply Ards_cohort_radiology_in.
  - intros H. exists (h, n). split; [done|]. apply filter_In.
    split; [by apply Ards_cohort_radiology_in | apply Z.eqb_refl].
Qed.

(** The row of an admission in [bilateral_by_admission]. *)
Lemma Ards_bilateral_row (b : Ards.Bilateral) :
  In b (Ards.bilateral_by_admission base_cohort radiology detect) <->
  Ards.reports_of base_cohort radiology (Ards.bl_hadm_id b) <> []
  /\ Ards.has_bilateral_infiltrates b
     = existsb (Ards.bilateral_infiltrates detect)
         (Ards.reports_of base_cohort radiology (Ards.bl_hadm_id b))
  /\ min_of_Z (map r_charttime (Ards.reports_of base_cohort radiology (Ards.bl_hadm_id b)))
     = Some (Ards.first_radiology_time b).
Proof.
  unfold Ards.bilateral_by_admission. rewrite in_flat_map. split.
  - intros (h & Hh & Hb). unfold Ards.bilateral_of in Hb.
    destruct (Ards.reports_of base_cohort radiology h) as [|n ns] eqn:E; [done|].
    cbn [map min_of_Z] in Hb. destruct Hb as [<-|[]].
    cbn [Ards.bl_hadm_id Ards.has_bilateral_infiltrates Ards.first_radiology_time].
    by rewrite E.
  - intros (Hne & Hflag & Hmin). exists (Ards.bl_hadm_id b). split.
    + apply list_elem_of_In, sorted_unique_elem, list_elem_of_In, in_map_iff.
      destruct (Ards.reports_of _ _ _) as [|n ns] eqn:E; [done|].
      assert (In n (Ards.reports_of base_cohort radiology (Ards.bl_hadm_id b))) as Hn
        by (rewrite E; by left).
      apply Ards_reports_of_in, Ards_cohort_radiology_in in Hn. by exists (Ards.bl_hadm_id b, n).
    + unfold Ards.bilateral_of. rewrite Hmin. left. destruct b; simpl in *. by subst.
Qed.

Lemma Ards_flag_of_row (f : Ards.Flagged) :
  In f (Ards.final_cohort base_cohort chartevents radiology detect) ->
  In (Ards.f_base f) base_cohort
  /\ ((exists b, In b (Ards.bilateral_by_admission base_cohort radiology detect)
                 /\ Ards.bl_hadm_id b = Ards.hadm_id (Ards.f_base f)
                 /\ Ards.f_has_bilateral_infiltrates f = Ards.has_bilateral_infiltrates b
                 /\ Ards.f_first_radiology_time f = Some (Ards.first_radiology_time b))
      \/ ((forall b, In b (Ards.bilateral_by_admission base_cohort radiology detect) ->
                     Ards.bl_hadm_id b <> Ards.hadm_id (Ards.f_base f))
          /\ Ards.f_has_bilateral_infiltrates f = false
          /\ Ards.f_first_radiology_time f = None)).
Proof.
  intros Hf.
  assert (In (Ards.f_base f) base_cohort) as Hbase.
  { rewrite <- (Ards_final_cohort_base base_cohort chartevents radiology detect).
    by apply in_map. }
  split; [done|].
  unfold Ards.final_cohort in Hf. apply in_map_iff in Hf as (x & <- & Hx).
  cbn [Ards.flag Ards.f_base Ards.f_has_bilateral_infiltrates Ards.f_first_radiology_time].
  unfold Ards.merge_bilateral in Hx.
  destruct (0 <? length _)%nat eqn:G.
  - apply in_merge_left in Hx as (y & Hy & [(b & Hb & E & ->)|[Hno ->]]); simpl.
    + left. exists b. done.
    + right. done.
  - apply length_pos_false in G. rewrite G.
    apply in_map_iff in Hx as (y & <- & Hy). simpl. right. done.
Qed.

Lemma Ards_flag_iff (f : Ards.Flagged) :
  In f (Ards.final_cohort base_cohort chartevents radiology detect) ->
  (Ards.f_has_bilateral_infiltrates f = true <->
   exists n, In n radiology /\ r_hadm_id n = Some (Ards.hadm_id (Ards.f_base f))
             /\ detect (text n) = true).
Proof.
  intros Hf. apply Ards_flag_of_row in Hf as [Hbase H].
  assert (Ards.hadm_id (Ards.f_base f) ∈ Ards.cohort_hadm_ids base_cohort) as Hin.
  { unfold Ards.cohort_hadm_ids. apply elem_of_list_to_set, list_elem_of_In. by apply in_map. }
  destruct H as [(b & Hb & Ek & -> & _)|(Hno & -> & _)].
  - apply Ards_bilateral_row in Hb as (_ & -> & _). rewrite Ek, existsb_exists.
    split.
    + intros (n & Hn & Hd). apply Ards_reports_of_in in Hn as (Hn & E & _). eauto.
    + intros (n & Hn & E & Hd). exists n. split; [by apply Ards_reports_of_in | done].
  - split; [done|]. intros (n & Hn & E & Hd). exfalso.
    set (h := Ards.hadm_id (Ards.f_base f)) in *.
    assert (In n (Ards.reports_of base_cohort radiology h)) as Hr
      by (by apply Ards_reports_of_in).
    destruct (min_of_Z_is_Some (map r_charttime (Ards.reports_of base_cohort radiology h)))
      as (m & Hm).
    { destruct (Ards.reports_of base_cohort radiology h); [destruct Hr | done]. }
    apply (Hno {| Ards.bl_hadm_id := h;
                  Ards.has_bilateral_infiltrates :=
                    existsb (Ards.bilateral_infiltrates detect)
                      (Ards.reports_of base_cohort radiology h);
                  Ards.first_radiology_time := m |}); [|done].
    apply Ards_bilateral_row. simpl. split; [|done].
    intros E'. rewrite E' in Hr. destruct Hr.
Qed.

Lemma Ards_first_radiology_time (f : Ards.Flagged) (t : Timestamp) :
  In f (Ards.final_cohort base_cohort chartevents radiology detect) ->
  Ards.f_first_radiology_time f = Some t ->
  (exists n, In n radiology /\ r_hadm_id n = Some (Ards.hadm_id (Ards.f_base f))
             /\ r_charttime n = t)
  /\ (forall n, In n radiology -> r_hadm_id n = Some (Ards.hadm_id (Ards.f_base f)) ->
                t <= r_charttime n).
Proof.
  intros Hf Ht. apply Ards_flag_of_row in Hf as [Hbase H].
  assert (Ards.hadm_id (Ards.f_base f) ∈ Ards.cohort_hadm_ids base_cohort) as Hin.
  { unfold Ards.cohort_hadm_ids. apply elem_of_list_to_set, list_elem_of_In. by apply in_map. }
  destruct H as [(b & Hb & Ek & _ & Et)|(_ & _ & Et)]; [|congruence].
  rewrite Ht in Et. injection Et as ->.
  apply Ards_bilateral_row in Hb as (_ & _ & Hmin). rewrite Ek in Hmin.
  apply min_of_Z_spec in Hmin as [Hmin Hle]. split.
  - apply in_map_iff in Hmin as (n & En & Hn). apply Ards_reports_of_in in Hn as (Hn & E & _).
    eauto.
  - intros n Hn E. apply Hle, in_map. by apply Ards_reports_of_in.
Qed.

End Optimized.

Section BerlinVariant.

Variable base_cohort : list CohortV1.FinalRow.

Lemma Berlin_cohort_radiology_in (h : Z) (n : RadiologyNote) :
  In (h, n) (Berlin.cohort_radiology base_cohort radiology) <->
  In n radiology /\ r_hadm_id n = Some h /\ h ∈ Berlin.cohort_hadm_ids base_cohort.
Proof.
  unfold Berlin.cohort_radiology. rewrite <- list_elem_of_In, list_elem_of_omap. split.
  - intros (x & Hx & E). apply list_elem_of_In in Hx.
    destruct (r_hadm_id x) as [k|] eqn:Ek; [|done].
    destruct (isin_set k _) eqn:Hin; [|done]. injection E as <- <-.
    by apply isin_set_iff in Hin.
  - intros (Hn & E & Hin). exists n. split; [by apply list_elem_of_In|].
    rewrite E. apply isin_set_iff in Hin. by rewrite Hin.
Qed.

Lemma Berlin_positive_in (h : Z) (n : RadiologyNote) :
  In n (Berlin.positive_reports base_cohort radiology detect h) <->
  In n radiology /\ r_hadm_id n = Some h /\ h ∈ Berlin.cohort_hadm_ids base_cohort
  /\ detect (text n) = true.
Proof.
  unfold Berlin.positive_reports. rewrite in_map_iff. split.
  - intros ([k m] & <- & Hx). apply filter_In in Hx as [Hx E]. simpl in *.
    apply andb_true_iff in E as [E Hd]. apply Z.eqb_eq in E. subst k.
    apply Berlin_cohort_radiology_in in Hx as (? & ? & ?). done.
  - intros (Hn & E & Hin & Hd). exists (h, n). split; [done|]. apply filter_In.
    split; [by apply Berlin_cohort_radiology_in|]. simpl. by rewrite Z.eqb_refl.
Qed.

Lemma Berlin_bilateral_of_key (k : Z) (b : Berlin.BilateralTime) :
  In b (Berlin.bilateral_of base_cohort radiology detect k) -> Berlin.bt_hadm_id b = k.
Proof.
  unfold Berlin.bilateral_of. destruct (Berlin.positive_reports _ _ _ _); [done|].
  by intros [<-|[]].
Qed.

(** The row of an admission in [bilateral_infiltrates_df]. *)
Lemma Berlin_bilateral_row (b : Berlin.BilateralTime) :
  In b (Berlin.bilateral_infiltrates_df base_cohort radiology detect) <->
  exists n rest,
    Berlin.positive_reports base_cohort radiology detect (Berlin.bt_hadm_id b) = n :: rest
    /\ Berlin.bilateral_infiltrates_time b = min_Z (r_charttime n) (map r_charttime rest)
    /\ Berlin.bt_note_id b = note_id n.
Proof.
  unfold Berlin.bilateral_infiltrates_df. rewrite in_flat_map. split.
  - intros (h & Hh & Hb). unfold Berlin.bilateral_of in Hb.
    destruct (Berlin.positive_reports base_cohort radiology detect h) as [|n rest] eqn:E;
      [done|].
    destruct Hb as [<-|[]].
    cbn [Berlin.bt_hadm_id Berlin.bilateral_infiltrates_time Berlin.bt_note_id].
    rewrite E. eauto.
  - intros (n & rest & E & Ht & En). exists (Berlin.bt_hadm_id b). split.
    + apply list_elem_of_In, sorted_unique_elem, list_elem_of_In, in_map_iff.
      assert (In n (Berlin.positive_reports base_cohort radiology detect (Berlin.bt_hadm_id b)))
        as Hn by (rewrite E; by left).
      apply Berlin_positive_in in Hn as (Hn & Eh & Hin & Hd).
      exists (Berlin.bt_hadm_id b, n). split; [done|]. apply filter_In.
      split; [by apply Berlin_cohort_radiology_in | done].
    + unfold Berlin.bilateral_of. rewrite E. left. destruct b; simpl in *. by subst.
Qed.

Lemma Berlin_flagged_iff (h : Z) :
  (exists b, In b (Berlin.bilateral_infiltrates_df base_cohort radiology detect)
             /\ Berlin.bt_hadm_id b = h)
  <-> h ∈ Berlin.cohort_hadm_ids base_cohort
      /\ exists n, In n radiology /\ r_hadm_id n = Some h /\ detect (text n) = true.
Proof.
  split.
  - intros (b & Hb & <-). apply Berlin_bilateral_row in Hb as (n & rest & E & _).
    assert (In n (Berlin.positive_reports base_cohort radiology detect (Berlin.bt_hadm_id b)))
      as Hn by (rewrite E; by left).
    apply Berlin_positive_in in Hn as (Hn & Eh & Hin & Hd). eauto.
  - intros (Hin & n & Hn & E & Hd).
    assert (In n (Berlin.positive_reports base_cohort radiology detect h)) as Hp
      by (by apply Berlin_positive_in).
    destruct (Berlin.positive_reports base_cohort radiology detect h) as [|n0 rest] eqn:Ep;
      [destruct Hp|].
    exists {| Berlin.bt_hadm_id := h;
              Berlin.bilateral_infiltrates_time := min_Z (r_charttime n0) (map r_charttime rest);
              Berlin.bt_note_id := note_id n0 |}.
    split; [|done]. apply Berlin_bilateral_row. simpl. rewrite Ep. eauto.
Qed.

Lemma Berlin_bilateral_time (b : Berlin.BilateralTime) :
  In b (Berlin.bilateral_infiltrates_df base_cohort radiology detect) ->
  (exists n, In n radiology /\ r_hadm_id n = Some (Berlin.bt_hadm_id b)
             /\ detect (text n) = true
             /\ r_charttime n = Berlin.bilateral_infiltrates_time b)
  /\ (forall n, In n radiology -> r_hadm_id n = Some (Berlin.bt_hadm_id b) ->
                detect (text n) = true ->
                Berlin.bilateral_infiltrates_time b <= r_charttime n).
Proof.
  intros Hb. apply Berlin_bilateral_row in Hb as (n0 & rest & E & -> & _).
  destruct (min_Z_spec (r_charttime n0) (map r_charttime rest)) as [Hin Hle].
  change (r_charttime n0 :: map r_charttime rest)
    with (map r_charttime (n0 :: rest)) in Hin, Hle.
  rewrite <- E in Hin, Hle. split.
  - apply in_map_iff in Hin as (n & En & Hn).
    apply Berlin_positive_in in Hn as (Hn & Eh & _ & Hd). eauto.
  - intros n Hn Eh Hd. apply Hle, in_map. apply Berlin_positive_in.
    split; [done|]. split; [done|]. split; [|done].
    assert (In n0 (Berlin.positive_reports base_cohort radiology detect (Berlin.bt_hadm_id b)))
      as H0 by (rewrite E; by left).
    by apply Berlin_positive_in in H0 as (_ & _ & ? & _).
Qed.

End BerlinVariant.

(** C2 (amended): in the optimized notebook the flag of a cohort row is true
    exactly when some radiology report of its admission classifies true, and
    the timestamp kept with it, [first_radiology_time], is the earliest chart
    time over all reports of the admission. In the Berlin notebook an
    admission of the cohort has a row in [bilateral_infiltrates_df] exactly
    when some report of it classifies true, and the timestamp kept is the
    earliest chart time over its positively classified reports. *)
Theorem bilateral_flag_and_time :
  (forall (base_cohort : list Ards.BaseRow) (chartevents : list ChartEvent)
          (f : Ards.Flagged),
     In f (Ards.final_cohort base_cohort chartevents radiology detect) ->
     (Ards.f_has_bilateral_infiltrates f = true <->
      exists n, In n radiology /\ r_hadm_id n = Some (Ards.hadm_id (Ards.f_base f))
                /\ detect (text n) = true)
     /\ (forall t, Ards.f_first_radiology_time f = Some t ->
          (exists n, In n radiology
                     /\ r_hadm_id n = Some (Ards.hadm_id (Ards.f_base f))
                     /\ r_charttime n = t)
          /\ (forall n, In n radiology ->
                        r_hadm_id n = Some (Ards.hadm_id (Ards.f_base f)) ->
                        t <= r_charttime n)))
  /\ (forall (base_cohort : list CohortV1.FinalRow) (h : Z),
       (exists b, In b (Berlin.bilateral_infiltrates_df base_cohort radiology detect)
                  /\ Berlin.bt_hadm_id b = h)
       <-> h ∈ Berlin.cohort_hadm_ids base_cohort
           /\ exists n, In n radiology /\ r_hadm_id n = Some h /\ detect (text n) = true)
  /\ (forall (base_cohort : list CohortV1.FinalRow) (b : Berlin.BilateralTime),
       In b (Berlin.bilateral_infiltrates_df base_cohort radiology detect) ->
       (exists n, In n radiology /\ r_hadm_id n = Some (Berlin.bt_hadm_id b)
                  /\ detect (text n) = true
                  /\ r_charttime n = Berlin.bilateral_infiltrates_time b)
       /\ (forall n, In n radiology -> r_hadm_id n = Some (Berlin.bt_hadm_id b) ->
                     detect (text n) = true ->
                     Berlin.bilateral_infiltrates_time b <= r_charttime n)).
Proof.
  split; [|split].
  - intros base_cohort chartevents f Hf. split.
    + exact (Ards_flag_iff base_cohort chartevents f Hf).
    + intros t Ht. exact (Ards_first_radiology_time base_cohort chartevents f t Hf Ht).
  - apply Berlin_flagged_iff.
  - apply Berlin_bilateral_time.
Qed.

End Bilateral.

(** C2, as the claim states it, fails in the optimized notebook: the flag is
    true because of the report at hour 5, and the timestamp kept is that of
    the negative report at hour 2, the minimum over all reports. *)
Lemma first_radiology_time_is_over_all_reports :
  map (fun n => (r_charttime n, detect_bilateral_infiltrates (text n))) two_reports
    = [(2 * hour, false); (5 * hour, true)]
  /\ map (fun b => (Ards.bl_hadm_id b, Ards.has_bilateral_infiltrates b,
                    Ards.first_radiology_time b))
         (Ards.bilateral_by_admission onset_base_cohort two_reports
            detect_bilateral_infiltrates)
    = [(100, true, 2 * hour)]
  /\ map (fun f => (Ards.f_has_bilateral_infiltrates f, Ards.f_first_radiology_time f))
         (Ards.final_cohort onset_base_cohort onset_events two_reports
            detect_bilateral_infiltrates)
    = [(true, Some (2 * hour))].
Proof. repeat split; by vm_compute. Qed.

Lemma bilateral_flag_and_time_witness :
  exists f,
    In f (Ards.final_cohort onset_base_cohort onset_events two_reports
            detect_bilateral_infiltrates)
    /\ Ards.f_has_bilateral_infiltrates f = true
    /\ exists n, In n two_reports /\ r_hadm_id n = Some (Ards.hadm_id (Ards.f_base f))
                 /\ detect_bilateral_infiltrates (text n) = true.
Proof.
  destruct (bilateral_flag_and_time two_reports detect_bilateral_infiltrates) as (H & _).
  eexists. split; [vm_compute; left; reflexivity|]. split; [reflexivity|].
  refine (proj1 (proj1 (H onset_base_cohort onset_events _ _)) _).
  - vm_compute. left. reflexivity.
  - reflexivity.
Defined.

(** ** The Berlin filter *)

Lemma hours_le_Z (d : Timedelta) (n : Z) :
  Qle_bool (Berlin.hours d) (inject_Z n) = true <-> d <= n * 3600000000000.
Proof. rewrite Qle_bool_iff. apply hours_le. Qed.

Lemma hours_ge_Z (d : Timedelta) (n : Z) :
  Qle_bool (inject_Z n) (Berlin.hours d) = true <-> n * 3600000000000 <= d.
Proof. rewrite Qle_bool_iff. apply hours_ge. Qed.

Lemma berlin_mask_iff (r : Berlin.VentBilateral) :
  Berlin.berlin_mask r = true <->
  (exists pf, Berlin.v_pf_ratio (Berlin.vb_vent r) = Some pf /\ (pf <= 300)%Q)
  /\ (exists pe, Berlin.v_peep (Berlin.vb_vent r) = Some pe /\ (5 <= pe)%Q)
  /\ Berlin.vb_bilateral_time r <= Berlin.v_charttime (Berlin.vb_vent r)
  /\ Berlin.vb_admission_dttm r <= Berlin.v_charttime (Berlin.vb_vent r)
  /\ Berlin.v_charttime (Berlin.vb_vent r) - Berlin.vb_admission_dttm r <= 168 * hour
  /\ Berlin.vb_bilateral_time r - Berlin.vb_admission_dttm r <= 168 * hour.
Proof.
  unfold Berlin.berlin_mask, Berlin.bilateral_from_admission,
    Berlin.hours_from_bilateral, Berlin.hours_from_admission.
  rewrite !andb_true_iff, nan_ge_iff, nan_le_iff, bool_decide_eq_true.
  change 168%Q with (inject_Z 168). change 0%Q with (inject_Z 0).
  rewrite !hours_le_Z, !hours_ge_Z. unfold hour. split.
  - intros ((((((H1 & H2) & H3) & H4) & H5) & _) & H7).
    split; [done|]. split; [done|]. lia.
  - intros ((pf & E & Hpf) & H5 & H2 & H3 & H4 & H1).
    split; [split; [split; [split; [split; [split|]|]|]|]|]; try lia.
    + exact H5.
    + by rewrite E.
    + eauto.
Qed.

Lemma Berlin_vent_with_bilateral_in
    (bdf : list Berlin.BilateralTime) (vp : list Berlin.Vent)
    (base_cohort : list CohortV1.FinalRow) (r : Berlin.VentBilateral) :
  In r (Berlin.vent_with_bilateral bdf vp base_cohort) <->
  exists b c,
    In (Berlin.vb_vent r) vp /\ In b bdf /\ In c base_cohort
    /\ Berlin.bt_hadm_id b = Berlin.v_hadm_id (Berlin.vb_vent r)
    /\ CohortV1.hadm_id c = Berlin.v_hadm_id (Berlin.vb_vent r)
    /\ Berlin.vb_bilateral_time r = Berlin.bilateral_infiltrates_time b
    /\ Berlin.vb_admission_dttm r = CohortV1.admission_dttm c.
Proof.
  unfold Berlin.vent_with_bilateral. rewrite in_merge_inner. split.
  - intros ([v tb] & c & Hx & Hc & E & ->). apply in_merge_inner in Hx
      as (v' & b & Hv & Hb & Eb & [= -> ->]). simpl in *. exists b, c. done.
  - intros (b & c & Hv & Hb & Hc & Eb & Ec & Et & Ea).
    exists (Berlin.vb_vent r, Berlin.bilateral_infiltrates_time b), c.
    split; [apply in_merge_inner; by eauto 10|]. split; [done|]. split; [done|].
    destruct r; simpl in *. by subst.
Qed.

(** Classification of the item identifiers after the two FiO2 kinds are
    renamed. *)
Lemma Berlin_param_of_item (e : ChartEvent) :
  let i := ce_itemid e in
  let p := Berlin.vr_param (Berlin.vent_row e) in
  (p = Berlin.pf_ratio <-> In i (Berlin.ventilation_itemids Berlin.k_pf_ratio))
  /\ (p = Berlin.pao2 <-> In i (Berlin.ventilation_itemids Berlin.k_pao2))
  /\ (p = Berlin.peep <-> In i (Berlin.ventilation_itemids Berlin.k_peep))
  /\ (p = Berlin.fio2 <->
      In i (Berlin.ventilation_itemids Berlin.k_fio2_percent)
      \/ In i (Berlin.ventilation_itemids Berlin.k_fio2_fraction)).
Proof.
  cbn zeta. unfold Berlin.vent_row. cbn [Berlin.vr_param].
  unfold Berlin.classify, isin, Berlin.ventilation_itemids.
  generalize (ce_itemid e) as i. intros i. cbn [existsb In].
  repeat match goal with
         | |- context [i =? ?b] => destruct (Z.eqb_spec i b) as [->|?]; cbn
         end;
    intuition (discriminate || lia).
Qed.

Lemma Berlin_vent_row_value (e : ChartEvent) :
  Berlin.vr_param (Berlin.vent_row e) <> Berlin.fio2 ->
  Berlin.vr_value (Berlin.vent_row e) = ce_valuenum e.
Proof.
  unfold Berlin.vent_row. cbn [Berlin.vr_param Berlin.vr_value].
  destruct (bool_decide (Berlin.classify (ce_itemid e) = Berlin.fio2_percent)); [|done].
  intros H. by destruct H.
Qed.

Lemma Berlin_first_value_source (df : list ChartEvent) (k : Z * Timestamp)
    (p : Berlin.ParamType) (x : Q) :
  Berlin.first_value (map Berlin.vent_row df) k p = Some x ->
  exists e, In e df /\ ce_hadm_id e = k.1 /\ ce_charttime e = k.2
            /\ Berlin.vr_param (Berlin.vent_row e) = p
            /\ Berlin.vr_value (Berlin.vent_row e) = Some x.
Proof.
  unfold Berlin.first_value. intros H. apply head_In in H.
  apply list_elem_of_In, list_elem_of_omap in H as (r & Hr & Hx).
  apply list_elem_of_In, filter_In in Hr as [Hr Hc].
  apply andb_true_iff in Hc as [Hk Hp].
  apply bool_decide_eq_true in Hk, Hp. apply in_map_iff in Hr as (e & <- & He).
  exists e. destruct k as [h t]. simpl in *. injection Hk as <- <-. done.
Qed.

Lemma Berlin_with_pf_ratio (r : Berlin.Vent) :
  Berlin.v_hadm_id (Berlin.with_pf_ratio r) = Berlin.v_hadm_id r
  /\ Berlin.v_charttime (Berlin.with_pf_ratio r) = Berlin.v_charttime r
  /\ Berlin.v_peep (Berlin.with_pf_ratio r) = Berlin.v_peep r
  /\ Berlin.v_fio2 (Berlin.with_pf_ratio r) = Berlin.v_fio2 r
  /\ Berlin.v_pao2 (Berlin.with_pf_ratio r) = Berlin.v_pao2 r
  /\ (forall x, Berlin.v_pf_ratio (Berlin.with_pf_ratio r) = Some x ->
        Berlin.v_pf_ratio r = Some x
        \/ (Berlin.v_pf_ratio r = None
            /\ exists pa f, Berlin.v_pao2 r = Some pa /\ Berlin.v_fio2 r = Some f
                            /\ (0 < f)%Q /\ x = (pa / f)%Q)).
Proof.
  unfold Berlin.with_pf_ratio.
  destruct (Berlin.v_pf_ratio r) as [q|] eqn:Eq; [rewrite Eq; by eauto 10|].
  destruct (Berlin.v_pao2 r) as [pa|] eqn:Ea; [|rewrite Eq; repeat split; congruence].
  destruct (Berlin.v_fio2 r) as [f|] eqn:Ef; [|rewrite Eq; repeat split; congruence].
  destruct (Qlt_bool 0 f) eqn:Hf; [|rewrite Eq; repeat split; congruence].
  apply Qlt_bool_iff in Hf. cbn. repeat split; try done.
  intros x [= <-]. right. split; [done|]. eauto 10.
Qed.

(** The ratio of a processed observation is the P/F ratio: the directly
    recorded P/F item, or else PaO2 over a positive FiO2, all charted for the
    admission at that instant. *)
Lemma Berlin_pf_ratio_source (df : list ChartEvent) (v : Berlin.Vent) (x : Q) :
  In v (Berlin.process_vent_params_vectorized df) ->
  Berlin.v_pf_ratio v = Some x ->
  (exists e, In e df /\ ce_hadm_id e = Berlin.v_hadm_id v
             /\ ce_charttime e = Berlin.v_charttime v
             /\ In (ce_itemid e) (Berlin.ventilation_itemids Berlin.k_pf_ratio)
             /\ ce_valuenum e = Some x)
  \/ (exists e pa f, In e df /\ ce_hadm_id e = Berlin.v_hadm_id v
             /\ ce_charttime e = Berlin.v_charttime v
             /\ In (ce_itemid e) (Berlin.ventilation_itemids Berlin.k_pao2)
             /\ ce_valuenum e = Some pa
             /\ Berlin.v_fio2 v = Some f /\ (0 < f)%Q /\ x = (pa / f)%Q).
Proof.
  unfold Berlin.process_vent_params_vectorized. cbn zeta.
  intros Hv Hx. apply in_map_iff in Hv as (k & <- & _).
  match type of Hx with
  | Berlin.v_pf_ratio (Berlin.with_pf_ratio ?r) = _ =>
      destruct (Berlin_with_pf_ratio r) as (-> & -> & _ & -> & _ & Hpf)
  end.
  cbn [Berlin.v_hadm_id Berlin.v_charttime Berlin.v_fio2 Berlin.v_pao2 Berlin.v_pf_ratio] in *.
  destruct (Hpf x Hx) as [H|(_ & pa & f & Ha & Ef & Hf & ->)].
  - left. apply Berlin_first_value_source in H as (e & He & Eh & Et & Ep & Ev).
    exists e. rewrite Berlin_vent_row_value in Ev by (rewrite Ep; done).
    apply (Berlin_param_of_item e) in Ep. done.
  - right. apply Berlin_first_value_source in Ha as (e & He & Eh & Et & Ep & Ev).
    exists e, pa, f. rewrite Berlin_vent_row_value in Ev by (rewrite Ep; done).
    apply (Berlin_param_of_item e) in Ep. done.
Qed.

(** C7 (amended): in the Berlin-style variant the qualifying onset
    observations are exactly the joined ventilation observations whose P/F
    ratio is present and at most 300, with PEEP at least 5 at that same
    observation, whose timestamp lies at or after the bilateral-infiltrates
    time, at or after admission and within 168 hours of admission, the
    bilateral-infiltrates time itself lying within 168 hours of admission.
    The ratio tested is the P/F ratio: the recorded P/F item or PaO2 / FiO2. *)
Theorem berlin_qualifying_observations
    (bilateral_infiltrates_df : list Berlin.BilateralTime)
    (vent_processed : list Berlin.Vent) (base_cohort : list CohortV1.FinalRow) :
  (forall r : Berlin.VentBilateral,
     In r (Berlin.qualifying_measurements bilateral_infiltrates_df vent_processed base_cohort)
     <->
     (exists b c,
        In (Berlin.vb_vent r) vent_processed
        /\ In b bilateral_infiltrates_df /\ In c base_cohort
        /\ Berlin.bt_hadm_id b = Berlin.v_hadm_id (Berlin.vb_vent r)
        /\ CohortV1.hadm_id c = Berlin.v_hadm_id (Berlin.vb_vent r)
        /\ Berlin.vb_bilateral_time r = Berlin.bilateral_infiltrates_time b
        /\ Berlin.vb_admission_dttm r = CohortV1.admission_dttm c)
     /\ (exists pf, Berlin.v_pf_ratio (Berlin.vb_vent r) = Some pf /\ (pf <= 300)%Q)
     /\ (exists pe, Berlin.v_peep (Berlin.vb_vent r) = Some pe /\ (5 <= pe)%Q)
     /\ Berlin.vb_bilateral_time r <= Berlin.v_charttime (Berlin.vb_vent r)
     /\ Berlin.vb_admission_dttm r <= Berlin.v_charttime (Berlin.vb_vent r)
     /\ Berlin.v_charttime (Berlin.vb_vent r) - Berlin.vb_admission_dttm r <= 168 * hour
     /\ Berlin.vb_bilateral_time r - Berlin.vb_admission_dttm r <= 168 * hour)
  /\ (forall (df : list ChartEvent) (v : Berlin.Vent) (x : Q),
        In v (Berlin.process_vent_params_vectorized df) ->
        Berlin.v_pf_ratio v = Some x ->
        (exists e, In e df /\ ce_hadm_id e = Berlin.v_hadm_id v
                   /\ ce_charttime e = Berlin.v_charttime v
                   /\ In (ce_itemid e) (Berlin.ventilation_itemids Berlin.k_pf_ratio)
                   /\ ce_valuenum e = Some x)
        \/ (exists e pa f, In e df /\ ce_hadm_id e = Berlin.v_hadm_id v
                   /\ ce_charttime e = Berlin.v_charttime v
                   /\ In (ce_itemid e) (Berlin.ventilation_itemids Berlin.k_pao2)
                   /\ ce_valuenum e = Some pa
                   /\ Berlin.v_fio2 v = Some f /\ (0 < f)%Q /\ x = (pa / f)%Q)).
Proof.
  split; [|apply Berlin_pf_ratio_source].
  intros r. unfold Berlin.qualifying_measurements.
  rewrite filter_In, Berlin_vent_with_bilateral_in, berlin_mask_iff. done.
Qed.

(** C7, as the claim states it, fails: at the sample observation the S/F
    ratio is 180 and the P/F ratio 400; the observation meets every condition
    of the claim read on the S/F ratio, and the notebook does not retain it. *)
Lemma berlin_filter_tests_pf_ratio :
  map (fun r => (Berlin.v_peep (Berlin.vb_vent r),
                 option_map Qred (sf_ratio_at berlin_events (Berlin.vb_vent r)),
                 option_map Qred (Berlin.v_pf_ratio (Berlin.vb_vent r))))
      (Berlin.vent_with_bilateral berlin_bilateral berlin_vent_processed berlin_base_cohort)
    = [(Some 8%Q, Some 180%Q, Some 400%Q)]
  /\ length (List.filter (claimed_sf_mask berlin_events)
               (Berlin.vent_with_bilateral berlin_bilateral berlin_vent_processed
                  berlin_base_cohort)) = 1%nat
  /\ Berlin.qualifying_measurements berlin_bilateral berlin_vent_processed
       berlin_base_cohort = [].
Proof. repeat split; by vm_compute. Qed.

(** The same observation with PaO2 100: the P/F ratio is 200, the
    observation is retained and graded moderate. *)
Example berlin_retained_observation :
  let events := [event 7 220339 (6 * hour) 8; event 7 223835 (6 * hour) 0.5;
                 event 7 220224 (6 * hour) 100] in
  match Berlin.ards_df berlin_base_cohort two_reports [sample_stay] events
          detect_bilateral_infiltrates with
  | Ok (Frame rows) =>
      map (fun r => (Berlin.v_hadm_id (Berlin.vb_vent (Berlin.ar_row r)),
                     Berlin.v_charttime (Berlin.vb_vent (Berlin.ar_row r)),
                     option_map Qred (Berlin.v_pf_ratio (Berlin.vb_vent (Berlin.ar_row r))),
                     Berlin.ards_severity r)) rows
      = [(100, 6 * hour, Some 200%Q, Berlin.s_moderate)]
  | _ => False
  end.
Proof. by vm_compute. Qed.

(** ** Sample evaluations *)

Example year_of_epoch : year_of 0 = 1970.
Proof. reflexivity. Qed.

Example year_of_leap_day : year_of (951782400 * 1000000000) = 2000.
Proof. reflexivity. Qed.

Example year_of_new_year :
  year_of (978307199 * 1000000000) = 2000 /\ year_of (978307200 * 1000000000) = 2001.
Proof. split; reflexivity. Qed.

Example hf_codes_listed :
  hd EmptyString hf_codes = "4280"%string /\ length hf_codes = 21%nat
  /\ length pregnancy_icd9_prefixes = 50%nat.
Proof. repeat split; reflexivity. Qed.

Example classifier_samples :
  map detect_bilateral_infiltrates
    [Some "ARDS."; Some "Left lower lobe opacity. Right base consolidation.";
     Some "Clear lungs."; None; Some "Bilateral ground-glass changes"]%string
  = [true; true; false; false; true].
Proof. reflexivity. Qed.

(** The scenario admission: PEEP 6 ten hours into the stay, S/F = 300, a
    positive radiology report, no exclusion code; it is in the final cohort,
    and flagged for bilateral infiltrates by the ARDS notebook. *)
Example scenario_included :
  map (fun r => Qred (Cohort.sf_ratio r)) (Cohort.sf_ratios scenario) = [300%Q]
  /\ map (fun r => (Cohort.hadm_id (Cohort.c_row r), Cohort.stay_id (Cohort.c_row r),
                    Qred (Cohort.icu_los_days r)))
         (rows_of (Cohort.final_cohort scenario)) = [(100, 7, 1%Q)]
  /\ map Ards.f_has_bilateral_infiltrates
         (Ards.final_cohort (rows_of (Cohort.final_cohort scenario)) []
            (radiology scenario) detect_bilateral_infiltrates) = [true].
Proof. repeat split; by vm_compute. Qed.

(** FiO2 recorded as 0: the pair gives no ratio and the admission fails the
    S/F criterion. *)
Example zero_fio2_gives_no_ratio :
  let t := sample_tables [sample_stay]
             [event 7 220339 (11 * hour) 6; event 7 220277 (11 * hour) 95;
              event 7 223835 (11 * hour) 0] in
  Cohort.sf_ratios t = [] /\ Cohort.final_cohort t = NoColumns.
Proof. split; by vm_compute. Qed.

(** PEEP always 4: the admission fails the PEEP stage. *)
Example low_peep_excluded :
  let t := sample_tables [sample_stay]
             [event 7 220339 (11 * hour) 4; event 7 220277 (11 * hour) 90;
              event 7 223835 (11 * hour) 0.30] in
  Cohort.peep_qualifying_admissions t = ∅ /\ Cohort.final_cohort t = NoColumns.
Proof. split; by vm_compute. Qed.

(** [merge_asof] needs the chart times sorted over the whole frame; after
    [sort_values(['hadm_id', 'charttime'])] two admissions whose times
    interleave are not, and the call raises. *)
Example merge_asof_unsorted :
  let left := sort_values CohortV1.reading_le
                [ {| CohortV1.rd_hadm_id := 2; CohortV1.rd_charttime := 1 * hour;
                     CohortV1.rd_valuenum := 95 |};
                  {| CohortV1.rd_hadm_id := 1; CohortV1.rd_charttime := 2 * hour;
                     CohortV1.rd_valuenum := 90 |} ] in
  CohortV1.merge_asof left [] = Raise (ValueError "left keys must be sorted").
Proof. reflexivity. Qed.

(** Nearest match within two hours; the earlier reading wins a tie. *)
Example merge_asof_nearest :
  let reading (h : Z) (t : Timestamp) (v : Q) :=
    {| CohortV1.rd_hadm_id := h; CohortV1.rd_charttime := t;
       CohortV1.rd_valuenum := v |} in
  CohortV1.merge_asof [reading 1 (10 * hour) 95%Q; reading 1 (20 * hour) 90%Q]
                      [reading 1 (9 * hour) 0.4%Q; reading 1 (11 * hour) 0.6%Q;
                       reading 1 (23 * hour) 0.5%Q]
  = Ok [(reading 1 (10 * hour) 95%Q, Some (reading 1 (9 * hour) 0.4%Q));
        (reading 1 (20 * hour) 90%Q, None)].
Proof. reflexivity. Qed.

(** ** A run of the ARDS notebook *)

Lemma Ards_first_value_source (rows : list Ards.SfData) (k : Z * (Z * Timestamp))
    (p : Ards.ParamType) (x : Q) :
  Ards.first_value rows k p = Some x ->
  exists y, In y rows /\ Ards.pivot_key y = Some k /\ Ards.param_type y = p
            /\ Ards.sd_valuenum y = x.
Proof.
  unfold Ards.first_value. intros H. apply head_In in H.
  apply in_map_iff in H as (y & Hv & Hy). apply filter_In in Hy as [Hy Hc].
  apply andb_true_iff in Hc as [Hk Hp].
  apply bool_decide_eq_true in Hk, Hp. by exists y.
Qed.

Lemma Ards_classify_items (itemid : Z) :
  (Ards.classify itemid = Ards.spo2 -> In itemid Ards.SPO2_ITEMIDS)
  /\ (Ards.classify itemid = Ards.fio2 -> In itemid Ards.FIO2_ITEMIDS).
Proof.
  unfold Ards.classify. cbv zeta.
  destruct (isin itemid Ards.FIO2_ITEMIDS) eqn:Ef,
           (isin itemid Ards.SPO2_ITEMIDS) eqn:Es; split; intros H;
    try discriminate H; by apply isin_In.
Qed.

Lemma normalize_fio2_pos (x : Q) : (0 < normalize_fio2 x)%Q -> (0 < x)%Q.
Proof.
  unfold normalize_fio2. destruct (Qlt_bool 1 x) eqn:E; [|done].
  apply Qlt_bool_iff in E. intros _. lra.
Qed.

Section ArdsRun.

Variable base_cohort : list Ards.BaseRow.
Variable chartevents : list ChartEvent.
Variable radiology : list RadiologyNote.
Variable detect : option string -> bool.

(** A row of the 60 minute window is a chart event of a stay of the base
    cohort, charted within 0 to 60 minutes of the ICU admission of that
    stay. *)
Lemma Ards_window_reading (y : Ards.SfData) :
  In y (Ards.sf_data_60min base_cohort chartevents) ->
  exists b e v,
    In b base_cohort /\ In e chartevents
    /\ ce_stay_id e = Ards.stay_id b /\ Ards.sd_stay_id y = Ards.stay_id b
    /\ Ards.sd_hadm_id y = Some (Ards.hadm_id b)
    /\ ce_charttime e = Ards.sd_charttime y
    /\ ce_valuenum e = Some v /\ Ards.sd_valuenum y = v
    /\ Ards.param_type y = Ards.classify (ce_itemid e)
    /\ 0 <= ce_charttime e - Ards.base_intime b <= 3600 * 1000000000.
Proof.
  unfold Ards.sf_data_60min. intros Hy. apply filter_In in Hy as [Hy Hm].
  apply Ards_sf_data_in in Hy as (b & e & v & Hb & Es & Eh & Ei & He & Ee & Et & Ev & Ex & Ep).
  exists b, e, v. repeat (split; [congruence || done|]).
  unfold Ards.minutes_from_icu in Hm. rewrite Ei in Hm. cbn [Ards.minutes_between] in Hm.
  apply andb_true_iff in Hm as [H0 H60]. cbn [nan_ge nan_le] in *.
  apply Qle_bool_iff in H0, H60. rewrite Et. by apply minutes_window.
Qed.

(** The run of the optimized ARDS notebook. Cell 10 ends with
    [del sf_ratios, ards_sf_criteria], and [ards_sf_criteria] is bound only
    when [sf_ratios] has a row: the run either stops there with [NameError]
    or reaches the flagged cohort. It reaches the flagged cohort only if some
    ICU stay of the base cohort has an SpO2 reading and an FiO2 reading
    greater than zero charted at the same instant, within the first 60
    minutes of the stay. *)
Theorem ards_run_needs_paired_readings :
  Ards.run_notebook base_cohort chartevents radiology detect
  = Raise (NameError "ards_sf_criteria")
  \/ (Ards.run_notebook base_cohort chartevents radiology detect
      = Ok (Ards.final_cohort base_cohort chartevents radiology detect)
      /\ exists e1 b1 e2 b2 s x,
           In e1 chartevents /\ In b1 base_cohort
           /\ ce_stay_id e1 = Ards.stay_id b1
           /\ In (ce_itemid e1) Ards.SPO2_ITEMIDS /\ ce_valuenum e1 = Some s
           /\ 0 <= ce_charttime e1 - Ards.base_intime b1 <= 3600 * 1000000000
           /\ In e2 chartevents /\ In b2 base_cohort
           /\ ce_stay_id e2 = Ards.stay_id b2
           /\ In (ce_itemid e2) Ards.FIO2_ITEMIDS /\ ce_valuenum e2 = Some x
           /\ (0 < x)%Q
           /\ 0 <= ce_charttime e2 - Ards.base_intime b2 <= 3600 * 1000000000
           /\ ce_stay_id e1 = ce_stay_id e2
           /\ Ards.hadm_id b1 = Ards.hadm_id b2
           /\ ce_charttime e1 = ce_charttime e2).
Proof.
  unfold Ards.run_notebook, Ards.cell_onset. cbv zeta.
  destruct (0 <? len (Ards.sf_ratios base_cohort chartevents))%nat eqn:Elen;
    [right|by left].
  split; [reflexivity|].
  unfold Ards.sf_ratios in Elen. destruct (_ && _); [|done].
  cbn [len] in Elen.
  destruct (merge_left _ _ _ _ _) as [|r rest] eqn:Em; [done|].
  assert (In r (merge_left Ards.rt_stay_id Ards.stay_id
                  (fun r m => {| Ards.sr_ratio := r;
                                 Ards.sr_intime := option_map Ards.base_intime m |})
                  (flat_map Ards.ratio_of (Ards.sf_pivot base_cohort chartevents))
                  base_cohort)) as Hr by (rewrite Em; by left).
  apply in_merge_left in Hr as (q & Hq & _).
  apply in_flat_map in Hq as (p & Hp & Hq).
  apply Ards_ratio_of_row in Hq as (Hs & Hf & _ & _ & _ & Hpos & _).
  unfold Ards.sf_pivot, Ards.pivot_table in Hp.
  apply in_map_iff in Hp as (k & <- & _).
  cbn [Ards.pv_spo2 Ards.pv_fio2] in Hs, Hf.
  apply Ards_first_value_source in Hs as (y1 & Hy1 & K1 & P1 & V1).
  apply Ards_first_value_source in Hf as (y2 & Hy2 & K2 & P2 & V2).
  unfold Ards.sf_data_60min_normalized in Hy1, Hy2.
  apply in_map_iff in Hy1 as (z1 & <- & Hz1).
  apply in_map_iff in Hy2 as (z2 & <- & Hz2).
  destruct (Ards_convert_fio2_key z1) as (Ek1 & Ep1 & _).
  destruct (Ards_convert_fio2_key z2) as (Ek2 & Ep2 & _).
  rewrite Ek1 in K1. rewrite Ek2 in K2. rewrite Ep1 in P1. rewrite Ep2 in P2.
  rewrite Ards_convert_fio2_value, P2 in V2.
  rewrite bool_decide_eq_true_2 in V2 by done.
  apply Ards_window_reading in Hz1
    as (b1 & e1 & v1 & Hb1 & He1 & Es1 & Ey1 & Eh1 & Et1 & Ev1 & Ex1 & Ec1 & Hw1).
  apply Ards_window_reading in Hz2
    as (b2 & e2 & v2 & Hb2 & He2 & Es2 & Ey2 & Eh2 & Et2 & Ev2 & Ex2 & Ec2 & Hw2).
  unfold Ards.pivot_key in K1, K2. rewrite Eh1 in K1. rewrite Eh2 in K2.
  rewrite <- K2 in K1. injection K1 as Ks Kh Kt.
  exists e1, b1, e2, b2, v1, v2.
  repeat (split; [done|]).
  split; [apply Ards_classify_items; congruence|].
  split; [done|]. split; [done|]. split; [done|]. split; [done|]. split; [done|].
  split; [apply Ards_classify_items; congruence|].
  split; [done|].
  split; [apply normalize_fio2_pos; rewrite <- Ex2, V2; exact Hpos|].
  split; [done|]. split; [congruence|]. split; [done|]. congruence.
Qed.

End ArdsRun.

(** ** The column-wise classifier *)

Lemma zip_with_map_same {A B C D : Type} (f : B -> C -> D) (g : A -> B) (h : A -> C)
    (l : list A) :
  zip_with f (map g l) (map h l) = map (fun x => f (g x) (h x)) l.
Proof. induction l as [|x l IH]; cbn; [done|]. by rewrite IH. Qed.

Lemma fold_contains (ps : list regex) (column : list string) (f : string -> bool) :
  fold_left (fun acc pattern => zip_with orb acc (str_contains pattern column))
    ps (map f column)
  = map (fun s => f s || existsb (fun p => re_search p s) ps) column.
Proof.
  revert f. induction ps as [|p ps IH]; intros f; cbn [fold_left existsb].
  - apply map_ext. intros s. by rewrite orb_false_r.
  - unfold str_contains at 2. rewrite zip_with_map_same, IH.
    apply map_ext. intros s. by rewrite orb_assoc.
Qed.

(** The column-wise classifier of the optimized ARDS notebook gives, report by
    report, the answer of the scalar classifier of the Berlin notebook; a
    missing text is negative in both. *)
Theorem vectorized_detection_agrees (text_series : list (option string)) :
  detect_bilateral_infiltrates_vectorized text_series
  = map detect_bilateral_infiltrates text_series.
Proof.
  unfold detect_bilateral_infiltrates_vectorized.
  set (g := fun t : option string =>
              match t with Some s => lower s | None => EmptyString end).
  replace (map (fun _ : option string => false) text_series)
    with (map (fun _ : string => false) (map g text_series))
    by (rewrite map_map; done).
  rewrite fold_contains. unfold str_contains.
  rewrite (zip_with_map_same andb), (zip_with_map_same orb), map_map.
  apply map_ext. intros [s|]; [done|]. by vm_compute.
Qed.

(** ** The scalar classifier: context and line breaks *)

Lemma append_empty_l (b : string) : (EmptyString ++ b)%string = b.
Proof. reflexivity. Qed.

Lemma append_String (c : ascii) (s b : string) :
  (String c s ++ b)%string = String c (s ++ b).
Proof. reflexivity. Qed.

Lemma lower_app (a b : string) : lower (a ++ b) = (lower a ++ lower b)%string.
Proof.
  induction a as [|c a IH]; rewrite ?append_empty_l, ?append_String; cbn [lower];
    rewrite ?append_empty_l, ?append_String; [done|]. by rewrite IH.
Qed.

Lemma strip_prefix_app (p s rest b : string) :
  strip_prefix p s = Some rest -> strip_prefix p (s ++ b) = Some (rest ++ b)%string.
Proof.
  revert s. induction p as [|a p IH]; intros s; cbn [strip_prefix].
  - by intros [= ->].
  - destruct s as [|c s]; [done|]. rewrite append_String.
    destruct (Ascii.eqb a c); [apply IH|done].
Qed.

Lemma any_star_now (k : string -> bool) (s : string) :
  k s = true -> any_star k s = true.
Proof. intros H. destruct s; cbn [any_star]; by rewrite H. Qed.

Lemma any_star_app (k k' : string -> bool) (s b : string) :
  (forall rest, k rest = true -> k' (rest ++ b)%string = true) ->
  any_star k s = true -> any_star k' (s ++ b) = true.
Proof.
  intros Hk. induction s as [|c s IH]; cbn [any_star].
  - rewrite orb_false_r. intros H. by apply any_star_now, Hk.
  - rewrite append_String. cbn [any_star].
    intros [H|[Hc H]%andb_true_iff]%orb_true_iff.
    + apply Hk in H. rewrite append_String in H. by rewrite H.
    + rewrite Hc, (IH H). apply orb_true_r.
Qed.

Lemma matches_app (r : regex) (k k' : string -> bool) (s b : string) :
  (forall rest, k rest = true -> k' (rest ++ b)%string = true) ->
  matches r k s = true -> matches r k' (s ++ b) = true.
Proof.
  revert k k' s. induction r as [p| | |r1 IH1 r2 IH2|r1 IH1 r2 IH2];
    intros k k' s Hk; cbn [matches].
  - destruct (strip_prefix p s) as [rest|] eqn:E; [|done].
    rewrite (strip_prefix_app _ _ _ b E). apply Hk.
  - by apply any_star_app.
  - intros [H|H]%orb_true_iff.
    + apply Hk in H. by rewrite H.
    + destruct s as [|c s]; [done|]. apply andb_true_iff in H as [Hc H].
      apply Hk in H. rewrite append_String, Hc, H. apply orb_true_r.
  - apply IH1. intros rest. by apply IH2.
  - intros [H|H]%orb_true_iff; apply orb_true_iff; [left; by eapply IH1|right; by eapply IH2].
Qed.

Lemma re_search_now (r : regex) (s : string) :
  matches r (fun _ => true) s = true -> re_search r s = true.
Proof. intros H. destruct s; cbn [re_search]; by rewrite H. Qed.

Lemma re_search_app_r (r : regex) (s b : string) :
  re_search r s = true -> re_search r (s ++ b) = true.
Proof.
  induction s as [|c s IH]; cbn [re_search].
  - rewrite orb_false_r. intros H. apply re_search_now.
    by apply (matches_app r (fun _ => true)).
  - rewrite append_String. cbn [re_search].
    intros [H|H]%orb_true_iff; apply orb_true_iff.
    + left. apply (matches_app r _ (fun _ => true) _ b) in H; [|done].
      by rewrite append_String in H.
    + right. by apply IH.
Qed.

Lemma re_search_app_l (r : regex) (a s : string) :
  re_search r s = true -> re_search r (a ++ s) = true.
Proof.
  intros H. induction a as [|c a IH]; [done|].
  rewrite append_String. cbn [re_search]. rewrite IH. apply orb_true_r.
Qed.

Lemma re_search_context (r : regex) (a s b : string) :
  re_search r (lower s) = true -> re_search r (lower (a ++ s ++ b)) = true.
Proof.
  intros H. rewrite !lower_app. by apply re_search_app_l, re_search_app_r.
Qed.

(** Text added before or after a report never turns a positive report into a
    negative one: the patterns are searched anywhere in the text. *)
Theorem detection_survives_context (a s b : string) :
  detect_bilateral_infiltrates (Some s) = true ->
  detect_bilateral_infiltrates (Some (a ++ s ++ b)%string) = true.
Proof.
  unfold detect_bilateral_infiltrates. cbv zeta.
  intros [H|[Hl Hr]%andb_true_iff]%orb_true_iff; apply orb_true_iff.
  - left. apply existsb_exists in H as (p & Hp & H).
    apply existsb_exists. exists p. split; [done|]. by apply re_search_context.
  - right. apply andb_true_iff. split; by apply re_search_context.
Qed.

Lemma detection_survives_context_witness :
  detect_bilateral_infiltrates (Some "There are diffuse opacities."%string) = true
  /\ detect_bilateral_infiltrates
       (Some ("FINDINGS: " ++ "There are diffuse opacities." ++ " No effusion.")%string)
     = true.
Proof.
  split; [by vm_compute|].
  apply (detection_survives_context "FINDINGS: " "There are diffuse opacities."
           " No effusion."). by vm_compute.
Defined.

Lemma strip_prefix_line (p s rest : string) :
  has_newline p = false ->
  strip_prefix p (s ++ String "010" rest)
  = option_map (fun r => (r ++ String "010" rest)%string) (strip_prefix p s).
Proof.
  intros Hp. revert s. induction p as [|a p IH]; intros s; cbn [strip_prefix]; [done|].
  cbn [has_newline] in Hp. apply orb_false_iff in Hp as [Ha Hp].
  destruct s as [|c s]; rewrite ?append_empty_l, ?append_String;
    cbn [strip_prefix option_map].
  - unfold is_newline in Ha. by rewrite Ha.
  - destruct (Ascii.eqb a c); [by apply IH|done].
Qed.

Lemma any_star_line (k k' : string -> bool) (s rest : string) :
  (forall s', k' (s' ++ String "010" rest)%string = k s') ->
  any_star k' (s ++ String "010" rest) = any_star k s.
Proof.
  intros Hk. induction s as [|c s IH].
  - rewrite append_empty_l. cbn [any_star]. change (is_newline "010") with true.
    cbn [negb andb]. by rewrite <- (Hk EmptyString), append_empty_l.
  - rewrite append_String. cbn [any_star].
    by rewrite <- (Hk (String c s)), append_String, IH.
Qed.

Lemma matches_line (r : regex) (k k' : string -> bool) (s rest : string) :
  within_line r = true ->
  (forall s', k' (s' ++ String "010" rest)%string = k s') ->
  matches r k' (s ++ String "010" rest) = matches r k s.
Proof.
  revert k k' s. induction r as [p| | |r1 IH1 r2 IH2|r1 IH1 r2 IH2];
    intros k k' s Hr Hk; cbn [matches within_line] in *.
  - apply negb_true_iff in Hr. rewrite strip_prefix_line by done.
    destruct (strip_prefix p s); cbn [option_map]; [apply Hk|done].
  - by apply any_star_line.
  - destruct s as [|c s].
    + rewrite append_empty_l. change (is_newline "010") with true.
      cbn [negb andb]. by rewrite <- (Hk EmptyString), append_empty_l.
    + rewrite append_String.
      by rewrite <- (Hk (String c s)), <- (Hk s), append_String.
  - apply andb_true_iff in Hr as [H1 H2]. apply IH1; [done|].
    intros s'. by apply IH2.
  - apply andb_true_iff in Hr as [H1 H2]. by rewrite (IH1 k k'), (IH2 k k').
Qed.

Lemma re_search_line (r : regex) (x y : string) :
  within_line r = true ->
  re_search r (x ++ String "010" y) = re_search r x || re_search r y.
Proof.
  intros Hr.
  pose proof (fun s => matches_line r (fun _ => true) (fun _ => true) s y Hr
                         (fun _ => eq_refl)) as Hm.
  induction x as [|c x IH].
  - rewrite append_empty_l. cbn [re_search].
    rewrite <- (Hm EmptyString), append_empty_l. by rewrite orb_false_r.
  - rewrite append_String. cbn [re_search].
    by rewrite IH, orb_assoc, <- (Hm (String c x)), append_String.
Qed.

Lemma existsb_ext_in {A : Type} (f g : A -> bool) (l : list A) :
  (forall x, In x l -> f x = g x) -> existsb f l = existsb g l.
Proof.
  induction l as [|x l IH]; intros H; cbn; [done|].
  rewrite (H x) by (by left). rewrite IH; [done|]. intros y Hy. apply H. by right.
Qed.

Lemma existsb_orb {A : Type} (f g : A -> bool) (l : list A) :
  existsb (fun x => f x || g x) l = existsb f l || existsb g l.
Proof.
  induction l as [|x l IH]; cbn; [done|]. rewrite IH.
  destruct (f x), (g x), (existsb f l), (existsb g l); done.
Qed.

(** The classifier reads a report line by line: a text made of two parts
    separated by a line feed is positive exactly when one part is positive on
    its own, or one part holds a left-sided finding and the other part a
    right-sided finding. A keyword and its finding on different lines do not
    match. *)
Theorem detection_is_line_by_line (x y : string) :
  detect_bilateral_infiltrates (Some (x ++ newline ++ y)%string) = true
  <-> detect_bilateral_infiltrates (Some x) = true
      \/ detect_bilateral_infiltrates (Some y) = true
      \/ (re_search (then_ (Lit "left") finding_one_side) (lower x) = true
          /\ re_search (then_ (Lit "right") finding_one_side) (lower y) = true)
      \/ (re_search (then_ (Lit "right") finding_one_side) (lower x) = true
          /\ re_search (then_ (Lit "left") finding_one_side) (lower y) = true).
Proof.
  unfold detect_bilateral_infiltrates, newline. cbv zeta.
  rewrite !lower_app. cbn [lower]. rewrite append_String, append_empty_l.
  change (lower_ascii "010") with "010"%char.
  rewrite (existsb_ext_in _
             (fun p => re_search p (lower x) || re_search p (lower y))).
  2:{ intros p Hp. apply re_search_line.
      by apply (proj1 (forallb_forall within_line bilateral_patterns) eq_refl). }
  rewrite existsb_orb, !re_search_line by done.
  destruct (existsb (fun p => re_search p (lower x)) bilateral_patterns),
    (existsb (fun p => re_search p (lower y)) bilateral_patterns),
    (re_search (then_ (Lit "left") finding_one_side) (lower x)),
    (re_search (then_ (Lit "left") finding_one_side) (lower y)),
    (re_search (then_ (Lit "right") finding_one_side) (lower x)),
    (re_search (then_ (Lit "right") finding_one_side) (lower y)); cbn; intuition congruence.
Qed.

(** ** Sorting and the nearest-time matcher *)

Section SortValues.

Context {A : Type} (le : A -> A -> bool).
Hypothesis le_total : forall x y, le x y = false -> le y x = true.
Hypothesis le_trans : forall x y z, le x y = true -> le y z = true -> le x z = true.

Lemma insert_sorted_Permutation (x : A) (l : list A) :
  Permutation (insert_sorted le x l) (x :: l).
Proof.
  induction l as [|y l IH]; cbn; [done|]. destruct (le x y); [done|].
  rewrite IH. apply perm_swap.
Qed.

Lemma sort_values_Permutation (l : list A) : Permutation (sort_values le l) l.
Proof.
  induction l as [|x l IH]; cbn; [done|].
  rewrite insert_sorted_Permutation. by constructor.
Qed.

Lemma insert_sorted_StronglySorted (x : A) (l : list A) :
  StronglySorted (fun a b => le a b = true) l ->
  StronglySorted (fun a b => le a b = true) (insert_sorted le x l).
Proof using le_total le_trans.
  induction 1 as [|y l Hl IH Hy]; cbn; [by repeat constructor|].
  destruct (le x y) eqn:E.
  - constructor; [by constructor|]. constructor; [done|].
    eapply List.Forall_impl; [|exact Hy]. intros z Hz. by eapply le_trans.
  - constructor; [done|].
    eapply Permutation_Forall.
    + symmetry. apply insert_sorted_Permutation.
    + constructor; [by apply le_total|done].
Qed.

Lemma sort_values_StronglySorted (l : list A) :
  StronglySorted (fun a b => le a b = true) (sort_values le l).
Proof using le_total le_trans.
  induction l as [|x l IH]; cbn; [constructor|]. by apply insert_sorted_StronglySorted.
Qed.

End SortValues.

Lemma is_monotonic_increasing_Sorted (l : list Z) :
  is_monotonic_increasing l = true -> StronglySorted Z.le l.
Proof.
  intros H. apply Sorted_StronglySorted; [intros x y z; lia|].
  induction l as [|x [|y l] IH]; [constructor|by repeat constructor|].
  cbn [is_monotonic_increasing] in H. apply andb_true_iff in H as [Hxy H].
  constructor; [by apply IH|]. constructor. lia.
Qed.

Lemma StronglySorted_map_inv {A B : Type} (R : B -> B -> Prop) (f : A -> B) (l : list A) :
  StronglySorted R (map f l) -> StronglySorted (fun a b => R (f a) (f b)) l.
Proof.
  induction l as [|x l IH]; cbn; [constructor|]. intros H.
  apply StronglySorted_inv in H as [H1 H2]. constructor; [by apply IH|].
  apply List.Forall_forall. intros y Hy.
  by apply (proj1 (List.Forall_forall _ _) H2), in_map.
Qed.

Lemma StronglySorted_both {A : Type} (R1 R2 : A -> A -> Prop) (l : list A) :
  StronglySorted R1 l -> StronglySorted R2 l ->
  forall a b, In a l -> In b l -> a = b \/ (R1 a b /\ R2 a b) \/ (R1 b a /\ R2 b a).
Proof.
  induction l as [|x l IH]; [done|]. intros H1 H2 a b Ha Hb.
  apply StronglySorted_inv in H1 as [H1 F1]. apply StronglySorted_inv in H2 as [H2 F2].
  rewrite List.Forall_forall in F1, F2.
  destruct Ha as [->|Ha], Hb as [->|Hb]; [by left| | |by apply IH].
  - right. left. split; [by apply F1|by apply F2].
  - right. right. split; [by apply F1|by apply F2].
Qed.

Lemma reading_le_total (x y : CohortV1.Reading) :
  CohortV1.reading_le x y = false -> CohortV1.reading_le y x = true.
Proof. unfold CohortV1.reading_le. lia. Qed.

Lemma reading_le_trans (x y z : CohortV1.Reading) :
  CohortV1.reading_le x y = true -> CohortV1.reading_le y z = true ->
  CohortV1.reading_le x z = true.
Proof. unfold CohortV1.reading_le. lia. Qed.

Lemma sorted_by_admission_not_by_time (l : list CohortV1.Reading)
    (r1 r2 : CohortV1.Reading) :
  In r1 l -> In r2 l ->
  CohortV1.rd_hadm_id r1 < CohortV1.rd_hadm_id r2 ->
  CohortV1.rd_charttime r2 < CohortV1.rd_charttime r1 ->
  is_monotonic_increasing
    (map CohortV1.rd_charttime (sort_values CohortV1.reading_le l)) = false.
Proof.
  intros H1 H2 Hh Ht. apply not_true_iff_false. intros Hm.
  apply is_monotonic_increasing_Sorted, StronglySorted_map_inv in Hm.
  pose proof (sort_values_StronglySorted _ reading_le_total reading_le_trans l) as Hs.
  pose proof (sort_values_Permutation CohortV1.reading_le l) as Hp.
  destruct (StronglySorted_both _ _ _ Hs Hm r1 r2) as [->|[[Ha Hb]|[Ha Hb]]].
  - by rewrite Hp.
  - by rewrite Hp.
  - lia.
  - lia.
  - unfold CohortV1.reading_le in Ha. lia.
Qed.

Lemma CohortV1_sf_ratios_unsorted (t : Tables) :
  (forall r1 r2,
     In r1 (flat_map CohortV1.reading (CohortV1.spo2_data t)) ->
     In r2 (flat_map CohortV1.reading (CohortV1.spo2_data t)) ->
     CohortV1.rd_hadm_id r1 < CohortV1.rd_hadm_id r2 ->
     CohortV1.rd_charttime r2 < CohortV1.rd_charttime r1 ->
     CohortV1.sf_ratios t = Raise (ValueError "left keys must be sorted"))
  /\ (forall r1 r2,
     is_monotonic_increasing
       (map CohortV1.rd_charttime
          (sort_values CohortV1.reading_le
             (flat_map CohortV1.reading (CohortV1.spo2_data t)))) = true ->
     In r1 (flat_map CohortV1.reading (CohortV1.fio2_normalized t)) ->
     In r2 (flat_map CohortV1.reading (CohortV1.fio2_normalized t)) ->
     CohortV1.rd_hadm_id r1 < CohortV1.rd_hadm_id r2 ->
     CohortV1.rd_charttime r2 < CohortV1.rd_charttime r1 ->
     CohortV1.sf_ratios t = Raise (ValueError "right keys must be sorted")).
Proof.
  split.
  - intros r1 r2 H1 H2 Hh Ht. unfold CohortV1.sf_ratios, CohortV1.merge_asof.
    by rewrite (sorted_by_admission_not_by_time _ r1 r2 H1 H2 Hh Ht).
  - intros r1 r2 Hl H1 H2 Hh Ht. unfold CohortV1.sf_ratios, CohortV1.merge_asof.
    by rewrite Hl, (sorted_by_admission_not_by_time _ r1 r2 H1 H2 Hh Ht).
Qed.

(** The S/F cell hands its readings to [merge_asof] only when it has both
    SpO2 and FiO2 readings; an error of the merge ends the cell and the
    run. *)
Lemma CohortV1_cell_raises (t : Tables) (e : exn) :
  CohortV1.spo2_data t <> [] -> CohortV1.fio2_data t <> [] ->
  CohortV1.sf_ratios t = Raise e ->
  CohortV1.cohort_with_criteria t = Raise e /\ CohortV1.run_notebook t = Raise e.
Proof.
  intros Hs Hf E.
  assert (CohortV1.cohort_with_criteria t = Raise e) as Hc.
  { unfold CohortV1.cohort_with_criteria.
    destruct (CohortV1.spo2_data t); [done|].
    destruct (CohortV1.fio2_data t); [done|].
    cbn [length Nat.ltb Nat.leb andb]. by rewrite E. }
  split; [exact Hc|]. unfold CohortV1.run_notebook. by rewrite Hc.
Qed.

(** In the earlier cohort notebook the readings handed to [merge_asof] are
    sorted by admission and then by time. When the S/F cell has readings of
    both kinds, and two SpO2 readings (or, the SpO2 side being in order, two
    FiO2 readings) of different admissions are such that the admission with
    the smaller identifier has the later reading, the chart times are not
    sorted over the whole frame: the cell raises [ValueError], and so does a
    run of the notebook. *)
Theorem sf_cell_raises_when_admissions_interleave (t : Tables) :
  (forall r1 r2,
     CohortV1.fio2_data t <> [] ->
     In r1 (flat_map CohortV1.reading (CohortV1.spo2_data t)) ->
     In r2 (flat_map CohortV1.reading (CohortV1.spo2_data t)) ->
     CohortV1.rd_hadm_id r1 < CohortV1.rd_hadm_id r2 ->
     CohortV1.rd_charttime r2 < CohortV1.rd_charttime r1 ->
     CohortV1.cohort_with_criteria t = Raise (ValueError "left keys must be sorted")
     /\ CohortV1.run_notebook t = Raise (ValueError "left keys must be sorted"))
  /\ (forall r1 r2,
     CohortV1.spo2_data t <> [] ->
     is_monotonic_increasing
       (map CohortV1.rd_charttime
          (sort_values CohortV1.reading_le
             (flat_map CohortV1.reading (CohortV1.spo2_data t)))) = true ->
     In r1 (flat_map CohortV1.reading (CohortV1.fio2_normalized t)) ->
     In r2 (flat_map CohortV1.reading (CohortV1.fio2_normalized t)) ->
     CohortV1.rd_hadm_id r1 < CohortV1.rd_hadm_id r2 ->
     CohortV1.rd_charttime r2 < CohortV1.rd_charttime r1 ->
     CohortV1.cohort_with_criteria t = Raise (ValueError "right keys must be sorted")
     /\ CohortV1.run_notebook t = Raise (ValueError "right keys must be sorted")).
Proof.
  split.
  - intros r1 r2 Hf H1 H2 Hh Ht. apply CohortV1_cell_raises; [|done|].
    + intros E. by rewrite E in H1.
    + by apply (proj1 (CohortV1_sf_ratios_unsorted t) r1 r2).
  - intros r1 r2 Hs Hl H1 H2 Hh Ht. apply CohortV1_cell_raises; [done| |].
    + intros E. unfold CohortV1.fio2_normalized in H1. by rewrite E in H1.
    + by apply (proj2 (CohortV1_sf_ratios_unsorted t) r1 r2).
Qed.

Lemma sf_cell_raises_when_admissions_interleave_witness :
  CohortV1.cohort_with_criteria interleaved_tables
  = Raise (ValueError "left keys must be sorted")
  /\ CohortV1.run_notebook interleaved_tables
     = Raise (ValueError "left keys must be sorted").
Proof.
  apply (proj1 (sf_cell_raises_when_admissions_interleave interleaved_tables)
           {| CohortV1.rd_hadm_id := 100; CohortV1.rd_charttime := 11 * hour;
              CohortV1.rd_valuenum := 90 |}
           {| CohortV1.rd_hadm_id := 200; CohortV1.rd_charttime := 5 * hour;
              CohortV1.rd_valuenum := 95 |}).
  - intros E. vm_compute in E. discriminate E.
  - vm_compute. left. reflexivity.
  - vm_compute. right. left. reflexivity.
  - reflexivity.
  - reflexivity.
Defined.

Lemma StronglySorted_filter {A : Type} (R : A -> A -> Prop) (P : A -> bool) (l : list A) :
  StronglySorted R l -> StronglySorted R (List.filter P l).
Proof.
  induction 1 as [|x l Hl IH Hx]; cbn; [constructor|].
  destruct (P x); [|done]. constructor; [done|].
  apply List.Forall_forall. intros y [Hy _]%filter_In.
  by apply (proj1 (List.Forall_forall _ _) Hx).
Qed.

Lemma StronglySorted_last {A : Type} (R : A -> A -> Prop) (l : list A) (b : A) :
  StronglySorted R l -> last l = Some b ->
  In b l /\ forall x, In x l -> x = b \/ R x b.
Proof.
  induction 1 as [|x l Hl IH Hx]; [done|]. destruct l as [|y l].
  - intros [= ->]. split; [by left|]. intros z [->|[]]. by left.
  - change (last (x :: y :: l)) with (last (y :: l)). intros Hb.
    destruct (IH Hb) as [Hin Hmax]. split; [by right|].
    intros z [->|Hz]; [|by apply Hmax].
    right. by apply (proj1 (List.Forall_forall _ _) Hx).
Qed.

Lemma StronglySorted_head {A : Type} (R : A -> A -> Prop) (l : list A) (f : A) :
  StronglySorted R l -> head l = Some f ->
  In f l /\ forall x, In x l -> x = f \/ R f x.
Proof.
  intros H. destruct l as [|y l]; [done|]. intros [= ->].
  apply StronglySorted_inv in H as [_ H]. split; [by left|].
  intros z [->|Hz]; [by left|]. right. by apply (proj1 (List.Forall_forall _ _) H).
Qed.

Section Nearest.

Variable right : list CohortV1.Reading.
Hypothesis right_sorted :
  is_monotonic_increasing (map CohortV1.rd_charttime right) = true.

Lemma right_by_time :
  StronglySorted
    (fun a b => CohortV1.rd_charttime a <= CohortV1.rd_charttime b) right.
Proof using right_sorted.
  by apply (StronglySorted_map_inv Z.le), is_monotonic_increasing_Sorted.
Qed.

Lemma backward_candidate (s : CohortV1.Reading) :
  match last (List.filter
                (fun f => (CohortV1.rd_hadm_id f =? CohortV1.rd_hadm_id s)
                          && (CohortV1.rd_charttime f <=? CohortV1.rd_charttime s))
                right) with
  | Some b =>
      In b right /\ CohortV1.rd_hadm_id b = CohortV1.rd_hadm_id s
      /\ CohortV1.rd_charttime b <= CohortV1.rd_charttime s
      /\ forall f, In f right -> CohortV1.rd_hadm_id f = CohortV1.rd_hadm_id s ->
           CohortV1.rd_charttime f <= CohortV1.rd_charttime s ->
           CohortV1.rd_charttime f <= CohortV1.rd_charttime b
  | None =>
      forall f, In f right -> CohortV1.rd_hadm_id f = CohortV1.rd_hadm_id s ->
        CohortV1.rd_charttime s < CohortV1.rd_charttime f
  end.
Proof using right_sorted.
  set (P := fun f => (CohortV1.rd_hadm_id f =? CohortV1.rd_hadm_id s)
                     && (CohortV1.rd_charttime f <=? CohortV1.rd_charttime s)).
  destruct (last (List.filter P right)) as [b|] eqn:E.
  - destruct (StronglySorted_last _ _ b
                (StronglySorted_filter _ P _ right_by_time) E) as [Hb Hmax].
    apply filter_In in Hb as [Hb Hp]. unfold P in Hp.
    split; [done|]. split; [lia|]. split; [lia|].
    intros f Hf Hh Ht.
    destruct (Hmax f) as [->|H]; [|lia|exact H].
    apply filter_In. split; [done|]. unfold P. lia.
  - apply last_None in E. intros f Hf Hh.
    destruct (Z.le_gt_cases (CohortV1.rd_charttime f) (CohortV1.rd_charttime s)); [|lia].
    assert (In f (List.filter P right)) as Hin
      by (apply filter_In; split; [done|unfold P; lia]).
    by rewrite E in Hin.
Qed.

Lemma forward_candidate (s : CohortV1.Reading) :
  match head (List.filter
                (fun f => (CohortV1.rd_hadm_id f =? CohortV1.rd_hadm_id s)
                          && (CohortV1.rd_charttime s <=? CohortV1.rd_charttime f))
                right) with
  | Some b =>
      In b right /\ CohortV1.rd_hadm_id b = CohortV1.rd_hadm_id s
      /\ CohortV1.rd_charttime s <= CohortV1.rd_charttime b
      /\ forall f, In f right -> CohortV1.rd_hadm_id f = CohortV1.rd_hadm_id s ->
           CohortV1.rd_charttime s <= CohortV1.rd_charttime f ->
           CohortV1.rd_charttime b <= CohortV1.rd_charttime f
  | None =>
      forall f, In f right -> CohortV1.rd_hadm_id f = CohortV1.rd_hadm_id s ->
        CohortV1.rd_charttime f < CohortV1.rd_charttime s
  end.
Proof using right_sorted.
  set (P := fun f => (CohortV1.rd_hadm_id f =? CohortV1.rd_hadm_id s)
                     && (CohortV1.rd_charttime s <=? CohortV1.rd_charttime f)).
  destruct (head (List.filter P right)) as [b|] eqn:E.
  - destruct (StronglySorted_head _ _ b
                (StronglySorted_filter _ P _ right_by_time) E) as [Hb Hmin].
    apply filter_In in Hb as [Hb Hp]. unfold P in Hp.
    split; [done|]. split; [lia|]. split; [lia|].
    intros f Hf Hh Ht.
    destruct (Hmin f) as [->|H]; [|lia|exact H].
    apply filter_In. split; [done|]. unfold P. lia.
  - apply head_None in E. intros f Hf Hh.
    destruct (Z.le_gt_cases (CohortV1.rd_charttime s) (CohortV1.rd_charttime f)); [|lia].
    assert (In f (List.filter P right)) as Hin
      by (apply filter_In; split; [done|unfold P; lia]).
    by rewrite E in Hin.
Qed.

Lemma nearest_spec (s : CohortV1.Reading) :
  match CohortV1.nearest right s with
  | Some f =>
      In f right /\ CohortV1.rd_hadm_id f = CohortV1.rd_hadm_id s
      /\ Z.abs (CohortV1.rd_charttime f - CohortV1.rd_charttime s) <= CohortV1.tolerance
      /\ forall f', In f' right -> CohortV1.rd_hadm_id f' = CohortV1.rd_hadm_id s ->
           Z.abs (CohortV1.rd_charttime f - CohortV1.rd_charttime s)
           <= Z.abs (CohortV1.rd_charttime f' - CohortV1.rd_charttime s)
  | None =>
      forall f', In f' right -> CohortV1.rd_hadm_id f' = CohortV1.rd_hadm_id s ->
        CohortV1.tolerance < Z.abs (CohortV1.rd_charttime f' - CohortV1.rd_charttime s)
  end.
Proof using right_sorted.
  pose proof (backward_candidate s) as HB. pose proof (forward_candidate s) as HF.
  unfold CohortV1.nearest, CohortV1.backward, CohortV1.forward.
  destruct (last _) as [b|]; destruct (head _) as [f|].
  - destruct HB as (Hb1 & Hb2 & Hb3 & Hb4), HF as (Hf1 & Hf2 & Hf3 & Hf4).
    destruct (Z.ltb_spec CohortV1.tolerance
                (CohortV1.rd_charttime s - CohortV1.rd_charttime b)),
      (Z.ltb_spec CohortV1.tolerance
                (CohortV1.rd_charttime f - CohortV1.rd_charttime s));
      [| | |destruct (Z.leb_spec (CohortV1.rd_charttime s - CohortV1.rd_charttime b)
                       (CohortV1.rd_charttime f - CohortV1.rd_charttime s))];
      repeat split; try done; try lia;
      intros f' Hf' Hh';
      specialize (Hb4 f' Hf' Hh'); specialize (Hf4 f' Hf' Hh'); lia.
  - destruct HB as (Hb1 & Hb2 & Hb3 & Hb4).
    destruct (Z.ltb_spec CohortV1.tolerance
                (CohortV1.rd_charttime s - CohortV1.rd_charttime b));
      repeat split; try done; try lia;
      intros f' Hf' Hh';
      specialize (Hb4 f' Hf' Hh'); specialize (HF f' Hf' Hh'); lia.
  - destruct HF as (Hf1 & Hf2 & Hf3 & Hf4).
    destruct (Z.ltb_spec CohortV1.tolerance
                (CohortV1.rd_charttime f - CohortV1.rd_charttime s));
      repeat split; try done; try lia;
      intros f' Hf' Hh';
      specialize (HB f' Hf' Hh'); specialize (Hf4 f' Hf' Hh'); lia.
  - intros f' Hf' Hh'. specialize (HB f' Hf' Hh'). specialize (HF f' Hf' Hh'). lia.
Qed.

End Nearest.

Lemma merge_asof_Ok (left right : list CohortV1.Reading)
    (m : list (CohortV1.Reading * option CohortV1.Reading)) :
  CohortV1.merge_asof left right = Ok m ->
  is_monotonic_increasing (map CohortV1.rd_charttime right) = true
  /\ m = map (fun s => (s, CohortV1.nearest right s)) left.
Proof.
  unfold CohortV1.merge_asof.
  destruct (is_monotonic_increasing (map CohortV1.rd_charttime left)); [|done].
  destruct (is_monotonic_increasing (map CohortV1.rd_charttime right)); [|done].
  cbn. by intros [= <-].
Qed.

(** Every S/F ratio of the earlier cohort notebook pairs an SpO2 reading
    with an FiO2 reading of the same admission that lies within two hours of
    it and is nearest in time: no other FiO2 reading of the admission is
    closer. The row carries the time and value of the SpO2 reading and the
    (normalised) value of the FiO2 reading. *)
Theorem sf_ratio_pairs_nearest_fio2 (t : Tables) (rows : list CohortV1.SfRow)
    (r : CohortV1.SfRow) :
  CohortV1.sf_ratios t = Ok rows -> In r rows ->
  exists s f,
    In s (flat_map CohortV1.reading (CohortV1.spo2_data t))
    /\ In f (flat_map CohortV1.reading (CohortV1.fio2_normalized t))
    /\ CohortV1.rd_hadm_id s = CohortV1.sfr_hadm_id r
    /\ CohortV1.rd_hadm_id f = CohortV1.sfr_hadm_id r
    /\ CohortV1.rd_charttime s = CohortV1.sfr_charttime r
    /\ CohortV1.rd_valuenum s = CohortV1.valuenum_spo2 r
    /\ CohortV1.rd_valuenum f = CohortV1.valuenum_fio2 r
    /\ Z.abs (CohortV1.rd_charttime f - CohortV1.rd_charttime s) <= 2 * hour
    /\ forall f',
         In f' (flat_map CohortV1.reading (CohortV1.fio2_normalized t)) ->
         CohortV1.rd_hadm_id f' = CohortV1.sfr_hadm_id r ->
         Z.abs (CohortV1.rd_charttime f - CohortV1.rd_charttime s)
         <= Z.abs (CohortV1.rd_charttime f' - CohortV1.rd_charttime s).
Proof.
  unfold CohortV1.sf_ratios. intros H Hr.
  destruct (CohortV1.merge_asof _ _) as [m|e] eqn:E; [|done].
  cbn in H. injection H as <-.
  apply merge_asof_Ok in E as [Hm ->].
  apply in_flat_map in Hr as (x & Hx & Hr).
  apply in_map_iff in Hx as (s & <- & Hs).
  pose proof (nearest_spec _ Hm s) as Hn.
  unfold CohortV1.ratio_of in Hr. cbn [fst snd] in Hr.
  destruct (CohortV1.nearest _ s) as [f|]; [|done].
  destruct (Qlt_bool 0 (CohortV1.rd_valuenum f)); [|done].
  destruct Hr as [<-|[]]. cbn.
  destruct Hn as (Hf & Hh & Htol & Hnear).
  exists s, f.
  split; [by rewrite <- (sort_values_Permutation CohortV1.reading_le)|].
  split; [by rewrite <- (sort_values_Permutation CohortV1.reading_le)|].
  repeat split; try done.
  intros f' Hf' Hh'. apply Hnear; [|done].
  by rewrite (sort_values_Permutation CohortV1.reading_le).
Qed.

Lemma sf_ratio_pairs_nearest_fio2_witness :
  exists rows r s f,
    CohortV1.sf_ratios scenario = Ok rows /\ In r rows
    /\ In f (flat_map CohortV1.reading (CohortV1.fio2_normalized scenario))
    /\ CohortV1.rd_valuenum f = CohortV1.valuenum_fio2 r
    /\ Z.abs (CohortV1.rd_charttime f - CohortV1.rd_charttime s) <= 2 * hour.
Proof.
  destruct (CohortV1.sf_ratios scenario) as [rows|] eqn:E; [|by vm_compute in E].
  destruct rows as [|r rows]; [by vm_compute in E|].
  destruct (sf_ratio_pairs_nearest_fio2 scenario (r :: rows) r E (or_introl eq_refl))
    as (s & f & _ & Hf & _ & _ & _ & _ & Hv & Ht & _).
  exists (r :: rows), r, s, f.
  exact (conj eq_refl (conj (or_introl eq_refl) (conj Hf (conj Hv Ht)))).
Defined.

(** ** Rows of the two cohorts *)

Lemma drop_duplicates_from_NoDup {A : Type} (key : A -> Z) (seen : list Z) (l : list A) :
  NoDup (map key (drop_duplicates_from key seen l))
  /\ forall x, In x (drop_duplicates_from key seen l) -> In x l /\ ~ In (key x) seen.
Proof.
  revert seen. induction l as [|x l IH]; intros seen; cbn; [split; [constructor|done]|].
  destruct (isin (key x) seen) eqn:E.
  - destruct (IH seen) as [H1 H2]. split; [done|]. intros y Hy.
    destruct (H2 y Hy). auto.
  - destruct (IH (key x :: seen)) as [H1 H2]. split.
    + cbn. apply NoDup_cons. split; [|done]. intros Hin.
      apply list_elem_of_In, in_map_iff in Hin as (y & Hk & Hy).
      destruct (H2 y Hy) as [_ Hn]. apply Hn. left. done.
    + intros y [<-|Hy].
      * split; [by left|]. intros Hin. apply isin_In in Hin. congruence.
      * destruct (H2 y Hy) as [Hl Hn]. split; [by right|]. intros Hin. apply Hn. by right.
Qed.

Lemma drop_duplicates_NoDup {A : Type} (key : A -> Z) (l : list A) :
  NoDup (map key (drop_duplicates key l)).
Proof. apply drop_duplicates_from_NoDup. Qed.

Lemma NoDup_map_filter {A : Type} (key : A -> Z) (P : A -> bool) (l : list A) :
  NoDup (map key l) -> NoDup (map key (List.filter P l)).
Proof.
  induction l as [|x l IH]; cbn; [done|]. intros [Hx Hl]%NoDup_cons.
  destruct (P x); [|by apply IH]. cbn. apply NoDup_cons. split; [|by apply IH].
  intros Hin. apply Hx. apply list_elem_of_In in Hin. apply list_elem_of_In.
  apply in_map_iff in Hin as (y & Hk & Hy). apply in_map_iff. exists y.
  split; [done|]. by apply filter_In in Hy as [? _].
Qed.

Lemma merge_inner_unique_right {A B C : Type} (ka : A -> Z) (kb : B -> Z)
    (mk : A -> B -> C) (left_of : C -> A) (l : list A) (r : list B) :
  (forall a b, left_of (mk a b) = a) ->
  NoDup (map kb r) ->
  map left_of (merge_inner ka kb mk l r)
  = List.filter (fun a => isin (ka a) (map kb r)) l.
Proof.
  intros Hmk Hr. unfold merge_inner. induction l as [|a l IH]; [done|].
  cbn [flat_map List.filter]. rewrite map_app, IH, map_map.
  pose proof (filter_key_unique kb r (ka a) Hr) as Hlen.
  destruct (List.filter (fun b => kb b =? ka a) r) as [|b [|b' rest]] eqn:E.
  - destruct (isin (ka a) (map kb r)) eqn:Hin; [|done].
    apply isin_In, in_map_iff in Hin as (b & Hk & Hb).
    assert (In b (List.filter (fun b => kb b =? ka a) r)) as Hf
      by (apply filter_In; split; [done|lia]).
    by rewrite E in Hf.
  - assert (In b (List.filter (fun b => kb b =? ka a) r)) as Hf by (rewrite E; by left).
    apply filter_In in Hf as [Hb Hk].
    replace (isin (ka a) (map kb r)) with true.
    + cbn. by rewrite Hmk.
    + symmetry. apply isin_In, in_map_iff. exists b. split; [lia|done].
  - cbn in Hlen. lia.
Qed.

Lemma merge_left_unique_right {A B C : Type} (ka : A -> Z) (kb : B -> Z)
    (mk : A -> option B -> C) (key : C -> Z) (l : list A) (r : list B) :
  (forall a m, key (mk a m) = ka a) ->
  NoDup (map kb r) -> NoDup (map ka l) ->
  NoDup (map key (merge_left ka kb mk l r)).
Proof.
  intros Hmk Hr Hl.
  assert (map key (merge_left ka kb mk l r) = map ka l) as ->; [|done].
  unfold merge_left. induction l as [|a l IH]; [done|].
  apply NoDup_cons in Hl as [_ Hl].
  cbn [flat_map]. rewrite map_app, (IH Hl).
  pose proof (filter_key_unique kb r (ka a) Hr) as Hlen.
  destruct (List.filter (fun b => kb b =? ka a) r) as [|b [|b' rest]]; cbn.
  - by rewrite Hmk.
  - by rewrite Hmk.
  - cbn in Hlen. lia.
Qed.

Section CohortRows.

Variable t : Tables.
Hypothesis unique_patients : NoDup (map p_subject_id (patients t)).
Hypothesis unique_admissions : NoDup (map a_hadm_id (admissions t)).

Lemma patient_data_keys :
  NoDup (map (fun r => a_hadm_id (Cohort.pd_adm r)) (Cohort.patient_data t)).
Proof using unique_patients unique_admissions.
  unfold Cohort.patient_data.
  rewrite <- (map_map Cohort.pd_adm a_hadm_id).
  rewrite (merge_left_keeps_rows a_subject_id p_subject_id Cohort.Build_PatientData
             Cohort.pd_adm); done.
Qed.

Lemma adult_admissions_keys :
  NoDup (map (fun r => a_hadm_id (Cohort.pd_adm r)) (Cohort.adult_admissions t)).
Proof using unique_patients unique_admissions.
  apply NoDup_map_filter, patient_data_keys.
Qed.

Lemma admissions_with_icu_keys :
  NoDup (map Cohort.hadm_id (CohortV1.admissions_with_icu t)).
Proof using unique_patients unique_admissions.
  unfold CohortV1.admissions_with_icu, Cohort.hadm_id.
  rewrite <- (map_map Cohort.ai_adm (fun r => a_hadm_id (Cohort.pd_adm r))).
  rewrite (merge_inner_unique_right _ _ Cohort.Build_AdultIcu Cohort.ai_adm);
    [|done|apply drop_duplicates_NoDup].
  apply NoDup_map_filter, adult_admissions_keys.
Qed.

End CohortRows.

Lemma admissions_with_icu_row (t : Tables) (r : Cohort.AdultIcu) :
  In r (CohortV1.admissions_with_icu t) ->
  Cohort.is_adult (Cohort.ai_adm r) = true
  /\ In (Cohort.pd_adm (Cohort.ai_adm r)) (admissions t)
  /\ head (List.filter (fun s => s_hadm_id s =? Cohort.hadm_id r) (icustays t))
     = Some (Cohort.ai_stay r).
Proof.
  unfold CohortV1.admissions_with_icu. intros H.
  apply in_merge_inner in H as (a & s & Ha & Hs & Hk & ->).
  apply filter_In in Ha as [Ha Had].
  apply in_merge_left in Ha as (adm & Hadm & Hrow).
  split; [done|]. split.
  { destruct Hrow as [(p & _ & _ & ->)|[_ ->]]; done. }
  cbn. unfold Cohort.hadm_id. cbn.
  assert (In s (List.filter (fun y => s_hadm_id y =? a_hadm_id (Cohort.pd_adm a))
                  (drop_duplicates s_hadm_id (icustays t)))) as Hin
    by (apply filter_In; split; [done|lia]).
  rewrite filter_drop_duplicates in Hin.
  destruct (List.filter _ (icustays t)) as [|x rest]; [done|].
  by destruct Hin as [->|[]].
Qed.

(** Every row of the final cohort of the earlier notebook is an adult
    admission that passed the PEEP stage, has a radiology report and carries
    neither exclusion: the two exclusion columns it keeps are constantly
    false. The ICU stay of the row is the first stay listed for the admission
    in the stays table, whatever its admission time. When patients and
    admissions are listed once, no admission has two rows. *)
Theorem earlier_cohort_rows (t : Tables) (fc : DataFrame CohortV1.FinalRow) :
  CohortV1.final_cohort t = Ok fc ->
  (forall r, In r (rows_of fc) ->
     CohortV1.has_heart_failure r = false /\ CohortV1.is_pregnant r = false
     /\ (CohortV1.hadm_id r ∉ CohortV1.hf_hadm_ids t)
     /\ (CohortV1.hadm_id r ∉ CohortV1.pregnant_hadm_ids t)
     /\ (CohortV1.hadm_id r ∈ CohortV1.admissions_with_radiology t)
     /\ (CohortV1.hadm_id r ∈ CohortV1.admissions_with_peep t)
     /\ Cohort.is_adult (Cohort.ai_adm (CohortV1.fr_row r)) = true
     /\ head (List.filter (fun s => s_hadm_id s =? CohortV1.hadm_id r) (icustays t))
        = Some (Cohort.ai_stay (CohortV1.fr_row r)))
  /\ (NoDup (map p_subject_id (patients t)) -> NoDup (map a_hadm_id (admissions t)) ->
      NoDup (map CohortV1.hadm_id (rows_of fc))).
Proof.
  unfold CohortV1.final_cohort, CohortV1.cohort_with_criteria.
  destruct ((0 <? length (CohortV1.spo2_data t))%nat
            && (0 <? length (CohortV1.fio2_data t))%nat).
  2:{ cbn. intros [= <-]. split; [done|]. intros _ _. constructor. }
  destruct (CohortV1.sf_ratios t) as [sf|e]; [|done]. cbn [mbind result_bind].
  set (c1 := List.filter _ (CohortV1.admissions_with_icu t)).
  unfold CohortV1.cohort_with_radiology.
  destruct (0 <? len (Frame c1))%nat.
  2:{ cbn. intros [= <-]. split; [done|]. intros _ _. constructor. }
  cbn [getitem mbind result_bind rows_of].
  set (c2 := List.filter _ c1).
  unfold CohortV1.apply_exclusions.
  destruct (0 <? len (Frame c2))%nat.
  2:{ cbn. intros [= <-]. split; [done|]. intros _ _. constructor. }
  cbn [getitem mbind result_bind rows_of]. intros [= <-]. cbn [rows_of]. split.
  - intros r [Hr Hx]%filter_In. apply in_map_iff in Hr as (a & <- & Ha).
    apply andb_true_iff in Hx as [Hhf Hpr]. apply negb_true_iff in Hhf, Hpr.
    cbn in Hhf, Hpr. subst c2 c1.
    apply filter_In in Ha as [Ha Hrad]. apply filter_In in Ha as [Ha Hq].
    apply isin_set_iff in Hrad. apply isin_set_iff in Hq.
    unfold CohortV1.qualifying_admissions in Hq. apply elem_of_intersection in Hq as [Hq _].
    destruct (admissions_with_icu_row t a Ha) as (Had & _ & Hst).
    cbn. unfold CohortV1.hadm_id. cbn.
    split; [done|]. split; [done|].
    split; [by intros H%isin_set_iff; congruence|].
    split; [by intros H%isin_set_iff; congruence|]. done.
  - intros Hp Ha. rewrite filter_map_swap, map_map.
    change (fun x => CohortV1.hadm_id (CohortV1.final_row t x)) with Cohort.hadm_id.
    subst c2 c1. do 3 apply NoDup_map_filter. by apply admissions_with_icu_keys.
Qed.

Lemma earlier_cohort_rows_witness :
  exists fc r,
    CohortV1.final_cohort two_stay_tables = Ok fc /\ In r (rows_of fc)
    /\ CohortV1.has_heart_failure r = false
    /\ Cohort.ai_stay (CohortV1.fr_row r) = sample_stay.
Proof.
  destruct (CohortV1.final_cohort two_stay_tables) as [[|[|r rows]]|] eqn:E;
    try (by vm_compute in E).
  destruct (earlier_cohort_rows _ _ E) as [H _].
  destruct (H r (or_introl eq_refl)) as (Hhf & _ & _ & _ & _ & _ & _ & Hst).
  exists (Frame (r :: rows)), r.
  split; [done|]. split; [by left|]. split; [done|].
  assert (CohortV1.hadm_id r = 100) as Hh
    by (vm_compute in E; injection E as <- _; reflexivity).
  rewrite Hh in Hst. injection Hst as Hst. exact (eq_sym Hst).
Defined.

Lemma final_cohort_rows (t : Tables) :
  rows_of (Cohort.final_cohort t)
  = map (Cohort.cohort_row t)
      (List.filter
         (fun r => isin_set (Cohort.hadm_id r) (Cohort.final_cohort_admissions_w_reports t))
         (Cohort.adult_icu_admissions t)).
Proof.
  unfold Cohort.final_cohort.
  destruct (nonempty (Cohort.final_cohort_admissions_w_reports t)) eqn:E; [done|].
  apply nonempty_false in E. rewrite E. cbn.
  rewrite filter_none; [done|]. intros x _. apply not_true_iff_false.
  intros H%isin_set_iff. set_solver.
Qed.

Lemma adult_icu_row (t : Tables) (r : Cohort.AdultIcu) :
  In r (Cohort.adult_icu_admissions t) <->
  In (Cohort.ai_adm r) (Cohort.adult_admissions t)
  /\ In (Cohort.ai_stay r) (icustays t)
  /\ s_hadm_id (Cohort.ai_stay r) = Cohort.hadm_id r.
Proof.
  unfold Cohort.adult_icu_admissions. rewrite in_merge_inner. split.
  - intros (a & s & Ha & Hs & Hk & ->). done.
  - intros (Ha & Hs & Hk). exists (Cohort.ai_adm r), (Cohort.ai_stay r).
    destruct r. done.
Qed.

Lemma adult_admission_row (t : Tables) (a : Cohort.PatientData) :
  In a (Cohort.adult_admissions t) ->
  In (Cohort.pd_adm a) (admissions t)
  /\ exists p age, Cohort.pd_patient a = Some p /\ In p (patients t)
       /\ p_subject_id p = a_subject_id (Cohort.pd_adm a)
       /\ Cohort.age_at_admission a = Some age /\ 18 <= age.
Proof.
  intros [Ha Had]%filter_In.
  apply in_merge_left in Ha as (adm & Hadm & [(p & Hp & Hk & ->)|[_ ->]]).
  - split; [done|]. unfold Cohort.is_adult, Cohort.age_at_admission in *. cbn in *.
    eexists p, _. repeat split; [done|done|lia].
  - done.
Qed.

(** Every row of the final cohort of the optimized notebook joins an
    admission of the admissions table, a patient record that makes the age at
    admission at least 18, and an ICU stay of that admission. The two
    exclusion columns kept for reference are constantly false, since the
    excluded admissions were removed from the set the rows are drawn from. *)
Theorem optimized_cohort_rows (t : Tables) (r : Cohort.CohortRow) :
  In r (rows_of (Cohort.final_cohort t)) ->
  Cohort.excluded_hf r = false /\ Cohort.excluded_pregnancy r = false
  /\ (Cohort.hadm_id (Cohort.c_row r) ∉ Cohort.hf_admissions t)
  /\ (Cohort.hadm_id (Cohort.c_row r) ∉ Cohort.pregnancy_admissions t)
  /\ In (Cohort.pd_adm (Cohort.ai_adm (Cohort.c_row r))) (admissions t)
  /\ (exists p age,
        Cohort.pd_patient (Cohort.ai_adm (Cohort.c_row r)) = Some p /\ In p (patients t)
        /\ p_subject_id p = Cohort.subject_id (Cohort.c_row r)
        /\ Cohort.age_at_admission (Cohort.ai_adm (Cohort.c_row r)) = Some age
        /\ 18 <= age)
  /\ In (Cohort.ai_stay (Cohort.c_row r)) (icustays t)
  /\ s_hadm_id (Cohort.ai_stay (Cohort.c_row r)) = Cohort.hadm_id (Cohort.c_row r).
Proof.
  rewrite final_cohort_rows. intros (a & <- & Ha)%in_map_iff.
  apply filter_In in Ha as [Ha Hin]. apply isin_set_iff in Hin.
  rewrite Cohort_final_set in Hin.
  apply elem_of_difference in Hin as [_ Hex].
  assert (Cohort.hadm_id a ∉ Cohort.hf_admissions t) as Hhf by set_solver.
  assert (Cohort.hadm_id a ∉ Cohort.pregnancy_admissions t) as Hpr by set_solver.
  apply adult_icu_row in Ha as (Had & Hs & Hk).
  destruct (adult_admission_row t _ Had) as (Hadm & Hp).
  cbn. split; [|split]; [| |done].
  - destruct (nonempty _); [|done]. apply not_true_iff_false. by intros H%isin_set_iff.
  - destruct (nonempty _); [|done]. apply not_true_iff_false. by intros H%isin_set_iff.
Qed.

Lemma optimized_cohort_rows_witness :
  exists r, In r (rows_of (Cohort.final_cohort scenario))
            /\ Cohort.excluded_hf r = false
            /\ In (Cohort.ai_stay (Cohort.c_row r)) (icustays scenario).
Proof.
  destruct (rows_of (Cohort.final_cohort scenario)) as [|r rows] eqn:E;
    [by vm_compute in E|].
  assert (In r (rows_of (Cohort.final_cohort scenario))) as Hr by (rewrite E; by left).
  destruct (optimized_cohort_rows scenario r Hr) as (Hhf & _ & _ & _ & _ & _ & Hs & _).
  exists r. exact (conj (or_introl eq_refl) (conj Hhf Hs)).
Defined.

(** ** The duplicate check of the optimized cohort notebook *)

Lemma in_duplicated {A : Type} (key : A -> Z) (l : list A) (x : A) :
  In x (duplicated key l) <->
  In x l /\ (1 < length (List.filter (fun y => (key y =? key x)%Z) l))%nat.
Proof. unfold duplicated. rewrite filter_In. by rewrite Nat.ltb_lt. Qed.

Lemma duplicated_NoDup {A : Type} (key : A -> Z) (l : list A) :
  NoDup (map key l) -> duplicated key l = [].
Proof.
  intros H. apply filter_none. intros x _. apply Nat.ltb_ge.
  by apply filter_key_unique.
Qed.

Lemma filter_key_singleton {A : Type} (key : A -> Z) (l : list A) (a : A) :
  NoDup (map key l) -> In a l ->
  List.filter (fun x => (key x =? key a)%Z) l = [a].
Proof.
  induction l as [|x l IH]; [done|]. intros [Hx Hl]%NoDup_cons [->|Ha]; cbn.
  - rewrite Z.eqb_refl. f_equal. apply filter_none. intros y Hy.
    apply Z.eqb_neq. intros E. apply Hx. rewrite <- E.
    apply list_elem_of_In. by apply in_map.
  - destruct (Z.eqb_spec (key x) (key a)) as [E|_]; [|by apply IH].
    exfalso. apply Hx. rewrite E. apply list_elem_of_In. by apply in_map.
Qed.

Lemma NoDup_map_inj_in {A : Type} (key : A -> Z) (l : list A) (x y : A) :
  NoDup (map key l) -> In x l -> In y l -> key x = key y -> x = y.
Proof.
  intros Hn Hx Hy E.
  assert (In y (List.filter (fun z => (key z =? key x)%Z) l)) as H
    by (apply filter_In; split; [done|lia]).
  rewrite (filter_key_singleton key l x Hn Hx) in H. by destruct H as [->|[]].
Qed.

Lemma merge_inner_right_keys {A B C : Type} (ka : A -> Z) (kb : B -> Z) (sid : B -> Z)
    (mk : A -> B -> C) (right_of : C -> B) (l : list A) (r : list B) :
  (forall a b, right_of (mk a b) = b) ->
  NoDup (map ka l) -> NoDup (map sid r) ->
  NoDup (map (fun c => sid (right_of c)) (merge_inner ka kb mk l r)).
Proof.
  intros Hmk Hl Hr. unfold merge_inner. induction l as [|a l IH]; [constructor|].
  apply NoDup_cons in Hl as [Ha Hl]. cbn [flat_map]. rewrite map_app.
  apply NoDup_app. split; [|split; [|by apply IH]].
  - rewrite map_map.
    rewrite (map_ext _ sid) by (intros b; by rewrite Hmk).
    by apply NoDup_map_filter.
  - intros k Hk1 Hk2.
    apply list_elem_of_In, in_map_iff in Hk1 as (c1 & <- & Hc1).
    apply list_elem_of_In, in_map_iff in Hk2 as (c2 & E & Hc2).
    apply in_map_iff in Hc1 as (b1 & <- & Hb1). apply filter_In in Hb1 as [Hb1 Hk1].
    apply in_flat_map in Hc2 as (a2 & Ha2 & Hc2).
    apply in_map_iff in Hc2 as (b2 & <- & Hb2). apply filter_In in Hb2 as [Hb2 Hk2].
    rewrite !Hmk in E.
    assert (b2 = b1) as -> by (by apply (NoDup_map_inj_in sid r)).
    apply Ha. replace (ka a) with (ka a2) by lia.
    apply list_elem_of_In. by apply in_map.
Qed.

Section DuplicateCheck.

Variable t : Tables.
Hypothesis unique_patients : NoDup (map p_subject_id (patients t)).
Hypothesis unique_admissions : NoDup (map a_hadm_id (admissions t)).
Hypothesis unique_stays : NoDup (map s_stay_id (icustays t)).

Lemma adult_icu_stay_keys : NoDup (map Cohort.stay_id (Cohort.adult_icu_admissions t)).
Proof using unique_patients unique_admissions unique_stays.
  apply (merge_inner_right_keys _ _ s_stay_id Cohort.Build_AdultIcu Cohort.ai_stay);
    [done| |done].
  by apply adult_admissions_keys.
Qed.

Lemma final_cohort_stay_keys :
  NoDup (map (fun r => Cohort.stay_id (Cohort.c_row r)) (rows_of (Cohort.final_cohort t))).
Proof using unique_patients unique_admissions unique_stays.
  rewrite final_cohort_rows, map_map. cbn.
  apply NoDup_map_filter, adult_icu_stay_keys.
Qed.

Lemma final_cohort_rows_of_admission (r : Cohort.CohortRow) :
  In r (rows_of (Cohort.final_cohort t)) ->
  List.filter (fun y => Cohort.hadm_id (Cohort.c_row y) =? Cohort.hadm_id (Cohort.c_row r))
    (rows_of (Cohort.final_cohort t))
  = map (fun s => Cohort.cohort_row t (Cohort.Build_AdultIcu (Cohort.ai_adm (Cohort.c_row r)) s))
      (List.filter (fun s => s_hadm_id s =? Cohort.hadm_id (Cohort.c_row r)) (icustays t)).
Proof using unique_patients unique_admissions.
  rewrite final_cohort_rows. intros (a & <- & Ha)%in_map_iff.
  apply filter_In in Ha as [Ha Hin]. cbn [Cohort.c_row Cohort.cohort_row].
  rewrite filter_map_swap. cbn [Cohort.c_row Cohort.cohort_row].
  rewrite filter_filter_and.
  rewrite (filter_ext _ (fun x => Cohort.hadm_id x =? Cohort.hadm_id a)).
  2:{ intros x. destruct (Z.eqb_spec (Cohort.hadm_id x) (Cohort.hadm_id a)) as [->|];
        [by rewrite Hin|apply andb_false_r]. }
  unfold Cohort.adult_icu_admissions.
  rewrite (filter_merge_inner _ _ (fun r => a_hadm_id (Cohort.pd_adm r)) Cohort.hadm_id)
    by done.
  apply adult_icu_row in Ha as (Had & _ & _).
  change (Cohort.hadm_id a) with (a_hadm_id (Cohort.pd_adm (Cohort.ai_adm a))).
  rewrite (filter_key_singleton (fun r => a_hadm_id (Cohort.pd_adm r)) _ _
             (adult_admissions_keys t unique_patients unique_admissions) Had).
  unfold merge_inner. cbn [flat_map]. rewrite app_nil_r, map_map. done.
Qed.

(** When patients, admissions and ICU stays are each listed once, the
    duplicate check of the optimized cohort notebook finds no repeated stay
    identifier, and the rows it reports for repeated admission identifiers
    are exactly the cohort rows of the admissions that have more than one ICU
    stay. An admission of the cohort has as many rows as it has stays. *)
Theorem duplicate_check :
  Cohort.stay_duplicates (Cohort.final_cohort t) = []
  /\ (forall r,
        In r (Cohort.hadm_duplicates (Cohort.final_cohort t)) <->
        In r (rows_of (Cohort.final_cohort t))
        /\ (1 < length (List.filter
                          (fun s => (s_hadm_id s =? Cohort.hadm_id (Cohort.c_row r))%Z)
                          (icustays t)))%nat)
  /\ (forall r,
        In r (rows_of (Cohort.final_cohort t)) ->
        length (List.filter
                  (fun y => (Cohort.hadm_id (Cohort.c_row y) =? Cohort.hadm_id (Cohort.c_row r))%Z)
                  (rows_of (Cohort.final_cohort t)))
        = length (List.filter
                    (fun s => (s_hadm_id s =? Cohort.hadm_id (Cohort.c_row r))%Z)
                    (icustays t))).
Proof using unique_patients unique_admissions unique_stays.
  split; [|split].
  - apply duplicated_NoDup, final_cohort_stay_keys.
  - intros r. unfold Cohort.hadm_duplicates. rewrite in_duplicated.
    split; intros [Hr Hn]; (split; [done|]);
      rewrite (final_cohort_rows_of_admission r Hr), length_map in *; done.
  - intros r Hr. by rewrite (final_cohort_rows_of_admission r Hr), length_map.
Qed.

End DuplicateCheck.

Lemma duplicate_check_witness :
  Cohort.stay_duplicates (Cohort.final_cohort two_stay_tables) = []
  /\ length (Cohort.hadm_duplicates (Cohort.final_cohort two_stay_tables)) = 2%nat.
Proof.
  assert (NoDup (map p_subject_id (patients two_stay_tables))) as Hp
    by (cbn; repeat constructor; set_solver).
  assert (NoDup (map a_hadm_id (admissions two_stay_tables))) as Ha
    by (cbn; repeat constructor; set_solver).
  assert (NoDup (map s_stay_id (icustays two_stay_tables))) as Hs
    by (cbn; repeat constructor; set_solver).
  split; [exact (proj1 (duplicate_check two_stay_tables Hp Ha Hs))|].
  by vm_compute.
Defined.

(** ** Flags, severity and onset timing of the optimized ARDS notebook *)

Section ArdsFlags.

Variable base_cohort : list Ards.BaseRow.
Variable chartevents : list ChartEvent.
Variable radiology : list RadiologyNote.
Variable detect : option string -> bool.

Lemma Ards_onset_row (o : Ards.Onset) :
  In o (rows_of (Ards.ards_onset_times base_cohort chartevents)) ->
  let crit := Ards.ards_sf_criteria (rows_of (Ards.sf_ratios base_cohort chartevents)) in
  (exists r, In r crit /\ Ards.sr_hadm_id r = Ards.on_hadm_id o
             /\ Ards.sr_charttime r = Ards.ards_onset_time o)
  /\ (exists r, In r crit /\ Ards.sr_hadm_id r = Ards.on_hadm_id o
                /\ Ards.sf_ratio r = Ards.ards_onset_sf_ratio o).
Proof.
  unfold Ards.ards_onset_times.
  destruct (0 <? len _)%nat; [|done].
  destruct (0 <? length _)%nat; [|done]. cbn [rows_of].
  set (crit := Ards.ards_sf_criteria _). intros Ho.
  apply in_flat_map in Ho as (h & _ & Ho).
  unfold Ards.onset_of in Ho.
  destruct (min_of_Z _) as [tmin|] eqn:Et; [|done].
  destruct (min_of_Q (map Ards.sf_ratio _)) as [qmin|] eqn:Eq; [|done].
  destruct Ho as [<-|[]]. cbn.
  apply min_of_Z_spec in Et as [Ht _]. apply min_of_Q_spec in Eq as [Hq _].
  apply in_map_iff in Ht as (r1 & E1 & H1). apply in_map_iff in Hq as (r2 & E2 & H2).
  apply Ards_group_in in H1 as [H1 K1]. apply Ards_group_in in H2 as [H2 K2].
  split; [by exists r1|by exists r2].
Qed.

Lemma Ards_onset_of_flag (f : Ards.Flagged) :
  In f (Ards.final_cohort base_cohort chartevents radiology detect) ->
  (exists o, In o (rows_of (Ards.ards_onset_times base_cohort chartevents))
             /\ Ards.on_hadm_id o = Ards.hadm_id (Ards.f_base f)
             /\ Ards.f_ards_onset_time f = Some (Ards.ards_onset_time o)
             /\ Ards.f_ards_onset_sf_ratio f = Some (Ards.ards_onset_sf_ratio o)
             /\ Ards.has_ards_onset f = true
             /\ Ards.ards_severity f
                = Ards.severity_of true (Some (Ards.ards_onset_sf_ratio o))
             /\ Ards.hours_icu_to_ards_onset f
                = Some (total_seconds (Ards.ards_onset_time o
                                       - Ards.base_intime (Ards.f_base f)) / 3600)%Q)
  \/ (Ards.f_ards_onset_time f = None /\ Ards.f_ards_onset_sf_ratio f = None
      /\ Ards.has_ards_onset f = false /\ Ards.ards_severity f = Ards.none
      /\ Ards.hours_icu_to_ards_onset f = None).
Proof.
  unfold Ards.final_cohort. intros (x & <- & Hx)%in_map_iff.
  assert (In x.1 (Ards.merge_onset base_cohort chartevents)) as Hy.
  { rewrite <- (Ards_merge_bilateral_rows base_cohort chartevents radiology detect).
    by apply in_map. }
  destruct x as [[b o] m]. cbn [fst] in Hy.
  unfold Ards.merge_onset in Hy.
  destruct (0 <? len _)%nat.
  - apply in_merge_left in Hy as (a & Ha & [(on & Hon & E & [= -> ->])|[_ [= -> ->]]]).
    + left. exists on. cbn. done.
    + right. done.
  - apply in_map_iff in Hy as (a & [= -> <-] & Ha). right. done.
Qed.

(** The flags of a row of the flagged cohort: [has_ards] is the conjunction
    of the onset flag and the bilateral flag. Without an onset the severity is
    ['none'] and no onset ratio is kept. With an onset the ratio kept is at
    most 315 and the severity is read off it: severe up to 150, moderate
    above 150 and up to 235, mild above 235. *)
Theorem ards_severity_bands (f : Ards.Flagged) :
  In f (Ards.final_cohort base_cohort chartevents radiology detect) ->
  Ards.has_ards f = Ards.has_ards_onset f && Ards.f_has_bilateral_infiltrates f
  /\ (Ards.has_ards_onset f = false <-> Ards.ards_severity f = Ards.none)
  /\ (Ards.has_ards_onset f = false -> Ards.f_ards_onset_sf_ratio f = None)
  /\ (Ards.has_ards_onset f = true ->
      exists q, Ards.f_ards_onset_sf_ratio f = Some q /\ (q <= 315)%Q
        /\ (Ards.ards_severity f = Ards.severe <-> (q <= 150)%Q)
        /\ (Ards.ards_severity f = Ards.moderate <-> (150 < q)%Q /\ (q <= 235)%Q)
        /\ (Ards.ards_severity f = Ards.mild <-> (235 < q)%Q)).
Proof.
  intros Hf. split.
  { unfold Ards.final_cohort in Hf. by apply in_map_iff in Hf as (x & <- & _). }
  destruct (Ards_onset_of_flag f Hf)
    as [(o & Ho & _ & _ & Hq & Hon & Hs & _)|(_ & Hq & Hon & Hs & _)].
  2:{ rewrite Hon, Hs. done. }
  rewrite Hon, Hs, Hq.
  destruct (Ards_onset_row o Ho) as [_ (r & Hr & _ & Er)].
  apply filter_In in Hr as [_ Hle]. apply Qle_bool_iff in Hle. rewrite Er in Hle.
  set (q := Ards.ards_onset_sf_ratio o) in *.
  assert (Ards.severity_of true (Some q) =
          if Qle_bool q 150 then Ards.severe
          else if Qle_bool q 235 then Ards.moderate else Ards.mild) as ->.
  { unfold Ards.severity_of, nan_le. cbn [andb].
    destruct (Qle_bool q 150) eqn:E1; [done|].
    destruct (Qle_bool q 235) eqn:E2.
    - apply not_true_iff_false in E1. rewrite Qle_bool_iff in E1.
      apply Qnot_le_lt, Qlt_bool_iff in E1. by rewrite E1.
    - apply not_true_iff_false in E2. rewrite Qle_bool_iff in E2.
      apply Qnot_le_lt, Qlt_bool_iff in E2. by rewrite E2. }
  split.
  { split; [done|]. by destruct (Qle_bool q 150), (Qle_bool q 235). }
  split; [done|]. intros _. exists q. split; [done|]. split; [done|].
  destruct (Qle_bool q 150) eqn:E1; [|destruct (Qle_bool q 235) eqn:E2].
  - apply Qle_bool_iff in E1. repeat split; try done; intros; lra.
  - apply Qle_bool_iff in E2. apply not_true_iff_false in E1.
    rewrite Qle_bool_iff in E1. apply Qnot_le_lt in E1.
    repeat split; try done; intros; lra.
  - apply not_true_iff_false in E2. rewrite Qle_bool_iff in E2. apply Qnot_le_lt in E2.
    repeat split; try done; intros; lra.
Qed.

(** The onset time attached to a cohort row was charted within the first 60
    minutes of an ICU stay of the row's admission that is in the base cohort;
    [hours_icu_to_ards_onset] is measured from the ICU admission of the row
    itself. When the admission has no other row, that is between 0 and 1
    hour. *)
Theorem onset_within_first_hour (f : Ards.Flagged) (t1 : Timestamp) :
  In f (Ards.final_cohort base_cohort chartevents radiology detect) ->
  Ards.f_ards_onset_time f = Some t1 ->
  (exists b, In b base_cohort /\ Ards.hadm_id b = Ards.hadm_id (Ards.f_base f)
             /\ 0 <= t1 - Ards.base_intime b <= 60 * minute)
  /\ Ards.hours_icu_to_ards_onset f
     = Some (total_seconds (t1 - Ards.base_intime (Ards.f_base f)) / 3600)%Q
  /\ ((forall b, In b base_cohort -> Ards.hadm_id b = Ards.hadm_id (Ards.f_base f) ->
                 b = Ards.f_base f) ->
      exists hrs, Ards.hours_icu_to_ards_onset f = Some hrs /\ (0 <= hrs)%Q /\ (hrs <= 1)%Q).
Proof.
  intros Hf Ht.
  destruct (Ards_onset_of_flag f Hf)
    as [(o & Ho & Hk & Hto & _ & _ & _ & Hh)|(Hno & _)]; [|congruence].
  rewrite Hto in Ht. injection Ht as <-.
  destruct (Ards_onset_row o Ho) as [(r & Hr & Kr & Er) _].
  apply filter_In in Hr as [Hr _].
  destruct (Ards_sf_ratio_in base_cohort chartevents r Hr) as (_ & _ & b & Hb & _ & Kb & Hw).
  rewrite Er in Hw.
  split; [exists b; split; [done|]; split; [congruence|exact Hw]|].
  split; [done|]. intros Huniq. eexists. split; [exact Hh|].
  rewrite <- (Huniq b Hb) by congruence.
  pose proof (hours_ge (Ards.ards_onset_time o - Ards.base_intime b) 0) as H0.
  pose proof (hours_le (Ards.ards_onset_time o - Ards.base_intime b) 1) as H1.
  split; [apply H0|apply H1]; unfold minute in Hw; lia.
Qed.

End ArdsFlags.

Lemma ards_severity_bands_witness :
  exists f q,
    In f (Ards.final_cohort onset_base_cohort onset_events two_reports
            detect_bilateral_infiltrates)
    /\ Ards.f_ards_onset_sf_ratio f = Some q /\ (q <= 315)%Q.
Proof.
  destruct (Ards.final_cohort onset_base_cohort onset_events two_reports
              detect_bilateral_infiltrates) as [|f rows] eqn:E; [by vm_compute in E|].
  assert (Ards.has_ards_onset f = true) as Hon
    by (vm_compute in E; injection E as <- _; reflexivity).
  destruct (ards_severity_bands onset_base_cohort onset_events two_reports
              detect_bilateral_infiltrates f) as (_ & _ & _ & H).
  { rewrite E. by left. }
  destruct (H Hon) as (q & Hq & Hle & _).
  exists f, q. exact (conj (or_introl eq_refl) (conj Hq Hle)).
Defined.

Lemma onset_within_first_hour_witness :
  exists f hrs,
    In f (Ards.final_cohort onset_base_cohort onset_events two_reports
            detect_bilateral_infiltrates)
    /\ Ards.hours_icu_to_ards_onset f = Some hrs /\ (0 <= hrs)%Q /\ (hrs <= 1)%Q.
Proof.
  destruct (Ards.final_cohort onset_base_cohort onset_events two_reports
              detect_bilateral_infiltrates) as [|f rows] eqn:E; [by vm_compute in E|].
  assert (In f (Ards.final_cohort onset_base_cohort onset_events two_reports
                  detect_bilateral_infiltrates)) as Hin by (rewrite E; by left).
  assert (Ards.f_ards_onset_time f = Some (hour + 10 * minute)) as Ht
    by (vm_compute in E; injection E as <- _; reflexivity).
  assert (onset_base_cohort = [Ards.f_base f]) as Hb
    by (vm_compute in E; injection E as <- _; reflexivity).
  destruct (onset_within_first_hour onset_base_cohort onset_events two_reports
              detect_bilateral_infiltrates f _ Hin Ht) as (_ & _ & H).
  destruct H as (hrs & Hh & H0 & H1).
  { intros b Hb' _. rewrite Hb in Hb'. by destruct Hb' as [<-|[]]. }
  exists f, hrs. exact (conj (or_introl eq_refl) (conj Hh (conj H0 H1))).
Defined.

(** ** The pivot of the ventilation parameters *)

Lemma sorted_unique2_NoDup (l : list (Z * Z)) : NoDup (sorted_unique2 l).
Proof.
  unfold sorted_unique2. rewrite merge_sort_Permutation. apply NoDup_remove_dups.
Qed.

Lemma lex_le_total : Total (lex_le Z.le).
Proof. intros [a1 a2] [b1 b2]. unfold lex_le. cbn. lia. Qed.

Lemma lex_le_trans : Transitive (lex_le Z.le).
Proof. intros [a1 a2] [b1 b2] [c1 c2]. unfold lex_le. cbn. lia. Qed.

Lemma sorted_unique2_sorted (l : list (Z * Z)) :
  StronglySorted (lex_le Z.le) (sorted_unique2 l).
Proof.
  unfold sorted_unique2.
  apply (@StronglySorted_merge_sort _ _ _ lex_le_trans lex_le_total).
Qed.

Lemma Berlin_vent_keys (df : list ChartEvent) :
  map (fun v => (Berlin.v_hadm_id v, Berlin.v_charttime v))
      (Berlin.process_vent_params_vectorized df)
  = sorted_unique2 (omap Berlin.pivot_key (map Berlin.vent_row df)).
Proof.
  unfold Berlin.process_vent_params_vectorized. cbv zeta. rewrite map_map.
  rewrite <- (map_id (sorted_unique2 _)) at 2. apply map_ext. intros k.
  match goal with
  | |- context [Berlin.with_pf_ratio ?r] =>
      destruct (Berlin_with_pf_ratio r) as (-> & -> & _)
  end.
  by destruct k.
Qed.

Lemma Berlin_pivot_key_in (df : list ChartEvent) (k : Z * Z) :
  In k (omap Berlin.pivot_key (map Berlin.vent_row df)) <->
  exists e x, In e df /\ ce_valuenum e = Some x
              /\ k = (ce_hadm_id e, ce_charttime e).
Proof.
  rewrite <- list_elem_of_In, list_elem_of_omap. split.
  - intros (r & Hr & Hk). apply list_elem_of_In, in_map_iff in Hr as (e & <- & He).
    unfold Berlin.pivot_key, Berlin.vent_row in Hk. cbn in Hk.
    destruct (ce_valuenum e) as [x|] eqn:Ev.
    + exists e, x. split; [done|]. split; [done|].
      destruct (bool_decide _); cbn in Hk; congruence.
    + destruct (bool_decide _); cbn in Hk; congruence.
  - intros (e & x & He & Ev & ->). exists (Berlin.vent_row e).
    split; [apply list_elem_of_In; by apply in_map|].
    unfold Berlin.pivot_key, Berlin.vent_row. cbn. rewrite Ev.
    by destruct (bool_decide _).
Qed.

(** The pivot of the Berlin notebook holds one row per admission and chart
    time, in ascending order of admission and time: a row for every pair at
    which some measurement has a value, and no other row. *)
Theorem vent_pivot_keys (df : list ChartEvent) :
  let keys := map (fun v => (Berlin.v_hadm_id v, Berlin.v_charttime v))
                  (Berlin.process_vent_params_vectorized df) in
  NoDup keys
  /\ StronglySorted (lex_le Z.le) keys
  /\ (forall h c, In (h, c) keys <->
        exists e x, In e df /\ ce_valuenum e = Some x
                    /\ ce_hadm_id e = h /\ ce_charttime e = c).
Proof.
  cbv zeta. rewrite Berlin_vent_keys.
  split; [apply sorted_unique2_NoDup|]. split; [apply sorted_unique2_sorted|].
  intros h c. rewrite <- list_elem_of_In, sorted_unique2_elem, list_elem_of_In.
  rewrite Berlin_pivot_key_in. split.
  - intros (e & x & He & Ev & [= -> ->]). by exists e, x.
  - intros (e & x & He & Ev & <- & <-). by exists e, x.
Qed.

Lemma Berlin_vent_row_fio2 (e : ChartEvent) (f : Q) :
  Berlin.vr_param (Berlin.vent_row e) = Berlin.fio2 ->
  Berlin.vr_value (Berlin.vent_row e) = Some f ->
  (ce_itemid e = 220210 /\ exists x, ce_valuenum e = Some x /\ f = (x / 100)%Q)
  \/ (In (ce_itemid e) [223835; 224698] /\ ce_valuenum e = Some f).
Proof.
  unfold Berlin.vent_row. cbn [Berlin.vr_param Berlin.vr_value].
  unfold Berlin.classify, isin, Berlin.ventilation_itemids.
  generalize (ce_itemid e) as i. intros i. cbn [existsb In].
  repeat match goal with
         | |- context [i =? ?b] => destruct (Z.eqb_spec i b) as [->|?]; cbn
         end; try done; try lia.
  - intros _ H. right. split; [lia|done].
  - intros _ H. right. split; [lia|done].
  - intros _ H. left. split; [done|].
    destruct (ce_valuenum e) as [x|]; [|done]. cbn in H. injection H as <-. by exists x.
Qed.

(** What a pivot row holds: PEEP and PaO2 are values charted for the
    admission at that time under their items. FiO2 is converted by item, not
    by magnitude: a value charted under the percentage item 220210 is divided
    by 100 whatever it is, and a value charted under a fraction item (223835,
    224698) is kept whatever it is. *)
Theorem vent_pivot_columns (df : list ChartEvent) (v : Berlin.Vent) :
  In v (Berlin.process_vent_params_vectorized df) ->
  (forall x, Berlin.v_peep v = Some x ->
     exists e, In e df /\ ce_hadm_id e = Berlin.v_hadm_id v
               /\ ce_charttime e = Berlin.v_charttime v
               /\ In (ce_itemid e) [220339; 224700] /\ ce_valuenum e = Some x)
  /\ (forall x, Berlin.v_pao2 v = Some x ->
     exists e, In e df /\ ce_hadm_id e = Berlin.v_hadm_id v
               /\ ce_charttime e = Berlin.v_charttime v
               /\ In (ce_itemid e) [220224; 224689] /\ ce_valuenum e = Some x)
  /\ (forall f, Berlin.v_fio2 v = Some f ->
     exists e, In e df /\ ce_hadm_id e = Berlin.v_hadm_id v
               /\ ce_charttime e = Berlin.v_charttime v
               /\ ((ce_itemid e = 220210
                    /\ exists x, ce_valuenum e = Some x /\ f = (x / 100)%Q)
                   \/ (In (ce_itemid e) [223835; 224698] /\ ce_valuenum e = Some f))).
Proof.
  unfold Berlin.process_vent_params_vectorized. cbv zeta.
  intros (k & <- & _)%in_map_iff.
  set (r := {| Berlin.v_hadm_id := k.1 |}).
  destruct (Berlin_with_pf_ratio r) as (-> & -> & -> & -> & -> & _). subst r. cbn.
  split; [|split].
  - intros x Hx. apply Berlin_first_value_source in Hx as (e & He & Hh & Hc & Hp & Hv).
    exists e. rewrite Berlin_vent_row_value in Hv by (rewrite Hp; done).
    apply (proj1 (proj1 (proj2 (proj2 (Berlin_param_of_item e))))) in Hp. done.
  - intros x Hx. apply Berlin_first_value_source in Hx as (e & He & Hh & Hc & Hp & Hv).
    exists e. rewrite Berlin_vent_row_value in Hv by (rewrite Hp; done).
    apply (proj1 (proj1 (proj2 (Berlin_param_of_item e)))) in Hp. done.
  - intros f Hf. apply Berlin_first_value_source in Hf as (e & He & Hh & Hc & Hp & Hv).
    exists e. split; [done|]. split; [done|]. split; [done|].
    by apply Berlin_vent_row_fio2.
Qed.

Lemma vent_pivot_columns_witness :
  exists v e,
    In v (Berlin.process_vent_params_vectorized berlin_events)
    /\ In e berlin_events /\ ce_charttime e = Berlin.v_charttime v
    /\ Berlin.v_fio2 v = ce_valuenum e.
Proof.
  destruct (Berlin.process_vent_params_vectorized berlin_events) as [|v rows] eqn:E;
    [by vm_compute in E|].
  assert (In v (Berlin.process_vent_params_vectorized berlin_events)) as Hv
    by (rewrite E; by left).
  assert (Berlin.v_fio2 v = Some 0.5%Q) as Hf
    by (vm_compute in E; injection E as <- _; reflexivity).
  destruct (vent_pivot_columns berlin_events v Hv) as (_ & _ & H).
  destruct (H _ Hf) as (e & He & _ & Hc & [[Hi (x & Hx & Hq)]|[_ Hx]]).
  - exfalso. destruct He as [<-|[<-|[<-|[<-|[]]]]]; discriminate Hi.
  - exists v, e. rewrite Hf. exact (conj (or_introl eq_refl) (conj He (conj Hc (eq_sym Hx)))).
Defined.

(** ** The ARDS cases of the Berlin notebook *)

Section BerlinCases.

Variable bilateral_infiltrates_df : list Berlin.BilateralTime.
Variable vent_processed : list Berlin.Vent.
Variable base_cohort : list CohortV1.FinalRow.

Lemma Berlin_earliest_spec (h : Z) :
  let g := List.filter (fun r => Berlin.v_hadm_id (Berlin.vb_vent r) =? h)
             (Berlin.qualifying_measurements bilateral_infiltrates_df vent_processed
                base_cohort) in
  (g = [] /\ Berlin.earliest bilateral_infiltrates_df vent_processed base_cohort h = [])
  \/ exists r,
       Berlin.earliest bilateral_infiltrates_df vent_processed base_cohort h = [r]
       /\ In r g
       /\ forall q, In q g ->
            Berlin.v_charttime (Berlin.vb_vent r) <= Berlin.v_charttime (Berlin.vb_vent q).
Proof.
  cbv zeta. unfold Berlin.earliest.
  set (g := List.filter _ (Berlin.qualifying_measurements _ _ _)).
  destruct g as [|x g'] eqn:Eg; [by left|]. right. rewrite <- Eg.
  destruct (min_of_Z_is_Some (map (fun r => Berlin.v_charttime (Berlin.vb_vent r)) g))
    as [tmin Et]; [by rewrite Eg|].
  rewrite Et. apply min_of_Z_spec in Et as [Hin Hmin].
  apply in_map_iff in Hin as (r0 & Er0 & Hr0).
  destruct (List.filter (fun r => Berlin.v_charttime (Berlin.vb_vent r) =? tmin) g)
    as [|r rest] eqn:Ef.
  - assert (In r0 (List.filter
                     (fun r => Berlin.v_charttime (Berlin.vb_vent r) =? tmin) g)) as H
      by (apply filter_In; split; [done|lia]).
    by rewrite Ef in H.
  - assert (In r (List.filter
                    (fun r => Berlin.v_charttime (Berlin.vb_vent r) =? tmin) g)) as H
      by (rewrite Ef; by left).
    apply filter_In in H as [Hr Ht]. exists r. split; [done|]. split; [done|].
    intros q Hq. replace (Berlin.v_charttime (Berlin.vb_vent r)) with tmin by lia.
    apply Hmin, in_map_iff. by exists q.
Qed.

Lemma Berlin_earliest_key (k : Z) (r : Berlin.VentBilateral) :
  In r (Berlin.earliest bilateral_infiltrates_df vent_processed base_cohort k) ->
  Berlin.v_hadm_id (Berlin.vb_vent r) = k.
Proof.
  destruct (Berlin_earliest_spec k) as [[_ ->]|(r' & -> & Hr & _)]; [done|].
  intros [<-|[]]. apply filter_In in Hr as [_ Hk]. lia.
Qed.

Lemma Berlin_earliest_one (k : Z) :
  (length (Berlin.earliest bilateral_infiltrates_df vent_processed base_cohort k) <= 1)%nat.
Proof.
  destruct (Berlin_earliest_spec k) as [[_ ->]|(r' & -> & _)]; cbn; lia.
Qed.

Lemma Berlin_rows_of_identify :
  rows_of (Berlin.identify_ards_onset_vectorized_corrected bilateral_infiltrates_df
             vent_processed base_cohort)
  = map (fun r => {| Berlin.ar_row := r;
                     Berlin.ards_severity :=
                       Berlin.severity_of (Berlin.v_pf_ratio (Berlin.vb_vent r)) |})
        (Berlin.earliest_ards bilateral_infiltrates_df vent_processed base_cohort).
Proof.
  unfold Berlin.identify_ards_onset_vectorized_corrected, Berlin.earliest_ards.
  destruct (Berlin.vent_with_bilateral _ _ _) as [|x l] eqn:Ev.
  { unfold Berlin.qualifying_measurements. rewrite Ev. done. }
  cbn [length Nat.eqb].
  destruct (Berlin.qualifying_measurements _ _ _) as [|y l'] eqn:Eq; done.
Qed.

Lemma Berlin_severity_bands (pf : Q) :
  (pf <= 300)%Q ->
  Berlin.severity_of (Some pf) <> Berlin.s_unknown
  /\ (Berlin.severity_of (Some pf) = Berlin.s_severe <-> (pf <= 100)%Q)
  /\ (Berlin.severity_of (Some pf) = Berlin.s_moderate <-> (100 < pf)%Q /\ (pf <= 200)%Q)
  /\ (Berlin.severity_of (Some pf) = Berlin.s_mild <-> (200 < pf)%Q).
Proof.
  intros H. unfold Berlin.severity_of, nan_le.
  destruct (Qle_bool pf 100) eqn:E1;
    [|destruct (Qle_bool pf 200) eqn:E2; [|destruct (Qle_bool pf 300) eqn:E3]].
  - apply Qle_bool_iff in E1. repeat split; try done; intros; lra.
  - apply Qle_bool_iff in E2. apply not_true_iff_false in E1.
    rewrite Qle_bool_iff in E1. apply Qnot_le_lt in E1.
    repeat split; try done; intros; lra.
  - apply not_true_iff_false in E2. rewrite Qle_bool_iff in E2. apply Qnot_le_lt in E2.
    repeat split; try done; intros; lra.
  - apply not_true_iff_false in E3. rewrite Qle_bool_iff in E3. done.
Qed.

(** The rows found are qualifying measurements, and every admission with a
    qualifying measurement has a row. *)
Lemma Berlin_cases_members :
  let out := rows_of (Berlin.identify_ards_onset_vectorized_corrected
                        bilateral_infiltrates_df vent_processed base_cohort) in
  let qualifying := Berlin.qualifying_measurements bilateral_infiltrates_df
                      vent_processed base_cohort in
  (forall q, In q qualifying ->
     exists a, In a out
       /\ Berlin.v_hadm_id (Berlin.vb_vent (Berlin.ar_row a))
          = Berlin.v_hadm_id (Berlin.vb_vent q))
  /\ (forall a, In a out -> In (Berlin.ar_row a) qualifying).
Proof.
  cbv zeta. rewrite Berlin_rows_of_identify. split.
  - intros q Hq.
    set (h := Berlin.v_hadm_id (Berlin.vb_vent q)).
    destruct (Berlin_earliest_spec h) as [[Hg _]|(r & Er & Hr & _)].
    { assert (In q (List.filter (fun r => Berlin.v_hadm_id (Berlin.vb_vent r) =? h)
                      (Berlin.qualifying_measurements bilateral_infiltrates_df
                         vent_processed base_cohort))) as H
        by (apply filter_In; split; [done|unfold h; lia]).
      by rewrite Hg in H. }
    eexists. split.
    + apply in_map. unfold Berlin.earliest_ards. apply in_flat_map. exists h. split.
      * apply list_elem_of_In, sorted_unique_elem, list_elem_of_In.
        apply (in_map (fun r => Berlin.v_hadm_id (Berlin.vb_vent r))) in Hq. exact Hq.
      * rewrite Er. by left.
    + cbn. apply filter_In in Hr as [_ Hk]. lia.
  - intros a (r & <- & Hr)%in_map_iff. cbn [Berlin.ar_row].
    unfold Berlin.earliest_ards in Hr. apply in_flat_map in Hr as (h & _ & Hr).
    destruct (Berlin_earliest_spec h) as [[_ E]|(r' & E & Hg & Hmin)];
      rewrite E in Hr; [done|]. destruct Hr as [<-|[]].
    by apply filter_In in Hg as [Hq Hk].
Qed.

(** The ARDS cases found by the vectorized function: at most one row per
    admission, and one for every admission that has a qualifying
    measurement. The row is a qualifying measurement of the admission, the
    earliest one. Its severity is never ['unknown']: severe for a P/F ratio up
    to 100, moderate above 100 and up to 200, mild above 200 (and at most 300,
    as the filter requires). *)
Theorem berlin_cases :
  let out := rows_of (Berlin.identify_ards_onset_vectorized_corrected
                        bilateral_infiltrates_df vent_processed base_cohort) in
  let qualifying := Berlin.qualifying_measurements bilateral_infiltrates_df
                      vent_processed base_cohort in
  NoDup (map (fun a => Berlin.v_hadm_id (Berlin.vb_vent (Berlin.ar_row a))) out)
  /\ (forall q, In q qualifying ->
        exists a, In a out
          /\ Berlin.v_hadm_id (Berlin.vb_vent (Berlin.ar_row a))
             = Berlin.v_hadm_id (Berlin.vb_vent q))
  /\ (forall a, In a out ->
        In (Berlin.ar_row a) qualifying
        /\ (forall q, In q qualifying ->
              Berlin.v_hadm_id (Berlin.vb_vent q)
              = Berlin.v_hadm_id (Berlin.vb_vent (Berlin.ar_row a)) ->
              Berlin.v_charttime (Berlin.vb_vent (Berlin.ar_row a))
              <= Berlin.v_charttime (Berlin.vb_vent q))
        /\ Berlin.ards_severity a <> Berlin.s_unknown
        /\ exists pf,
             Berlin.v_pf_ratio (Berlin.vb_vent (Berlin.ar_row a)) = Some pf
             /\ (pf <= 300)%Q
             /\ (Berlin.ards_severity a = Berlin.s_severe <-> (pf <= 100)%Q)
             /\ (Berlin.ards_severity a = Berlin.s_moderate
                 <-> (100 < pf)%Q /\ (pf <= 200)%Q)
             /\ (Berlin.ards_severity a = Berlin.s_mild <-> (200 < pf)%Q)).
Proof.
  cbv zeta. rewrite Berlin_rows_of_identify. split; [|split].
  - rewrite map_map. cbn [Berlin.ar_row]. unfold Berlin.earliest_ards.
    apply (group_keys_NoDup (fun r => Berlin.v_hadm_id (Berlin.vb_vent r)));
      [apply Berlin_earliest_key|apply Berlin_earliest_one|apply sorted_unique_NoDup].
  - intros q Hq.
    set (h := Berlin.v_hadm_id (Berlin.vb_vent q)).
    destruct (Berlin_earliest_spec h) as [[Hg _]|(r & Er & Hr & _)].
    { assert (In q (List.filter (fun r => Berlin.v_hadm_id (Berlin.vb_vent r) =? h)
                      (Berlin.qualifying_measurements bilateral_infiltrates_df
                         vent_processed base_cohort))) as H
        by (apply filter_In; split; [done|unfold h; lia]).
      by rewrite Hg in H. }
    eexists. split.
    + apply in_map. unfold Berlin.earliest_ards. apply in_flat_map. exists h. split.
      * apply list_elem_of_In, sorted_unique_elem, list_elem_of_In.
        apply (in_map (fun r => Berlin.v_hadm_id (Berlin.vb_vent r))) in Hq. exact Hq.
      * rewrite Er. by left.
    + cbn. apply filter_In in Hr as [_ Hk]. lia.
  - intros a (r & <- & Hr)%in_map_iff. cbn [Berlin.ar_row Berlin.ards_severity].
    unfold Berlin.earliest_ards in Hr. apply in_flat_map in Hr as (h & _ & Hr).
    destruct (Berlin_earliest_spec h) as [[_ E]|(r' & E & Hg & Hmin)];
      rewrite E in Hr; [done|]. destruct Hr as [<-|[]].
    apply filter_In in Hg as [Hq Hk].
    split; [done|]. split.
    { intros q Hq' Hk'. apply Hmin. apply filter_In. split; [done|]. lia. }
    apply filter_In in Hq as [_ Hmask].
    apply berlin_mask_iff in Hmask as ((pf & Epf & Hpf) & _).
    rewrite Epf. destruct (Berlin_severity_bands pf Hpf) as (H0 & H1 & H2 & H3).
    split; [done|]. exists pf. done.
Qed.

End BerlinCases.

(** ** The per-admission function and the vectorized function *)

Lemma NoDup_inj_in {A K : Type} (key : A -> K) (l : list A) (x y : A) :
  NoDup (map key l) -> In x l -> In y l -> key x = key y -> x = y.
Proof.
  induction l as [|a l IH]; [done|]. cbn. intros [Ha Hl]%NoDup_cons [->|Hx] [->|Hy] E.
  - done.
  - exfalso. apply Ha. rewrite E. apply list_elem_of_In. by apply in_map.
  - exfalso. apply Ha. rewrite <- E. apply list_elem_of_In. by apply in_map.
  - by apply IH.
Qed.

Lemma merge_inner_one_key {A B C : Type} (ka : A -> Z) (kb : B -> Z)
    (mk : A -> B -> C) (l : list A) (r : list B) (h : Z) :
  (forall a, In a l -> ka a = h) ->
  merge_inner ka kb mk l r
  = flat_map (fun a => map (mk a) (List.filter (fun b => kb b =? h) r)) l.
Proof.
  intros H. unfold merge_inner. induction l as [|a l IH]; [done|].
  cbn [flat_map]. rewrite (H a) by (by left). rewrite IH; [done|].
  intros b Hb. apply H. by right.
Qed.

Lemma flat_map_singleton {A C : Type} (f : A -> C) (l : list A) :
  flat_map (fun a => [f a]) l = map f l.
Proof. induction l as [|a l IH]; cbn; [done|]. by rewrite IH. Qed.

Lemma flat_map_nil {A C : Type} (l : list A) :
  flat_map (fun _ : A => @nil C) l = [].
Proof. by induction l. Qed.

Lemma filter_key_cases {B : Type} (kb : B -> Z) (r : list B) (h : Z) :
  NoDup (map kb r) ->
  List.filter (fun b => kb b =? h) r = []
  \/ exists b, List.filter (fun b => kb b =? h) r = [b] /\ In b r /\ kb b = h.
Proof.
  intros Hn. pose proof (filter_key_unique kb r h Hn) as Hlen.
  destruct (List.filter (fun b => kb b =? h) r) as [|b [|b' rest]] eqn:E.
  - by left.
  - right. exists b. split; [done|].
    assert (In b (List.filter (fun b => kb b =? h) r)) as H by (rewrite E; by left).
    apply filter_In in H as [H1 H2]. split; [done|lia].
  - cbn in Hlen. lia.
Qed.

Lemma head_sort_values {A : Type} (le : A -> A -> bool) (l : list A) (x : A) (rest : list A) :
  (forall a b, le a b = false -> le b a = true) ->
  (forall a b c, le a b = true -> le b c = true -> le a c = true) ->
  sort_values le l = x :: rest ->
  In x l /\ forall y, In y l -> x = y \/ le x y = true.
Proof.
  intros Htot Htrans E.
  pose proof (sort_values_Permutation le l) as Hp.
  pose proof (sort_values_StronglySorted le Htot Htrans l) as Hs.
  rewrite E in Hp, Hs. split.
  - rewrite <- Hp. by left.
  - intros y Hy. rewrite <- Hp in Hy. destruct Hy as [->|Hy]; [by left|].
    right. apply StronglySorted_inv in Hs as [_ Hs].
    by apply (proj1 (List.Forall_forall _ _) Hs).
Qed.

Lemma sort_values_nil {A : Type} (le : A -> A -> bool) (l : list A) :
  sort_values le l = [] -> l = [].
Proof.
  intros E. pose proof (sort_values_Permutation le l) as Hp. rewrite E in Hp.
  by apply Permutation_nil in Hp.
Qed.

Lemma days_gt_7 (d : Timedelta) :
  Qlt_bool 7 (total_seconds d / (24 * 3600)) = false <-> d <= 168 * hour.
Proof.
  rewrite Qlt_bool_false. unfold hour.
  rewrite <- (hours_le d 168). change (inject_Z 168) with 168%Q.
  generalize (total_seconds d). intros [n m].
  unfold Qle, Qdiv, Qmult, Qinv. simpl. lia.
Qed.

Lemma hours_nonneg_bool (d : Timedelta) : Qle_bool 0 (Berlin.hours d) = (0 <=? d).
Proof.
  apply Bool.eq_iff_eq_true. change 0%Q with (inject_Z 0).
  rewrite hours_ge_Z, Z.leb_le. lia.
Qed.

Lemma hours_week_bool (d : Timedelta) :
  Qle_bool (Berlin.hours d) 168 = (d <=? Berlin.seven_days).
Proof.
  apply Bool.eq_iff_eq_true. change 168%Q with (inject_Z 168).
  rewrite hours_le_Z, Z.leb_le. unfold Berlin.seven_days. lia.
Qed.

Lemma berlin_mask_of_row (v : Berlin.Vent) (bilateral_time admission_time : Timestamp) :
  Berlin.berlin_mask
    {| Berlin.vb_vent := v; Berlin.vb_bilateral_time := bilateral_time;
       Berlin.vb_admission_dttm := admission_time |}
  = (bilateral_time - admission_time <=? Berlin.seven_days)
    && ((bilateral_time <=? Berlin.v_charttime v)
        && (admission_time <=? Berlin.v_charttime v)
        && (Berlin.v_charttime v <=? admission_time + Berlin.seven_days)
        && nan_ge (Berlin.v_peep v) 5
        && bool_decide (is_Some (Berlin.v_pf_ratio v))
        && nan_le (Berlin.v_pf_ratio v) 300).
Proof.
  unfold Berlin.berlin_mask, Berlin.bilateral_from_admission,
    Berlin.hours_from_bilateral, Berlin.hours_from_admission.
  cbn [Berlin.vb_vent Berlin.vb_bilateral_time Berlin.vb_admission_dttm].
  rewrite !hours_nonneg_bool, !hours_week_bool.
  replace (0 <=? Berlin.v_charttime v - bilateral_time)
    with (bilateral_time <=? Berlin.v_charttime v) by lia.
  replace (0 <=? Berlin.v_charttime v - admission_time)
    with (admission_time <=? Berlin.v_charttime v) by lia.
  replace (Berlin.v_charttime v - admission_time <=? Berlin.seven_days)
    with (Berlin.v_charttime v <=? admission_time + Berlin.seven_days) by lia.
  by rewrite !andb_assoc.
Qed.

Section ScalarAndVectorized.

Variable bilateral_infiltrates_df : list Berlin.BilateralTime.
Variable vent_processed : list Berlin.Vent.
Variable base_cohort : list CohortV1.FinalRow.

Lemma Berlin_rows_for (h : Z) :
  List.filter (fun a => Berlin.v_hadm_id (Berlin.vb_vent (Berlin.ar_row a)) =? h)
    (rows_of (Berlin.identify_ards_onset_vectorized_corrected bilateral_infiltrates_df
                vent_processed base_cohort))
  = map (fun r => {| Berlin.ar_row := r;
                     Berlin.ards_severity :=
                       Berlin.severity_of (Berlin.v_pf_ratio (Berlin.vb_vent r)) |})
        (Berlin.earliest bilateral_infiltrates_df vent_processed base_cohort h).
Proof.
  rewrite Berlin_rows_of_identify, filter_map_swap. cbn [Berlin.ar_row]. f_equal.
  unfold Berlin.earliest_ards.
  rewrite (group_rows (fun r => Berlin.v_hadm_id (Berlin.vb_vent r)));
    [|apply Berlin_earliest_key|apply sorted_unique_NoDup].
  destruct (isin h _) eqn:E; [done|].
  destruct (Berlin_earliest_spec bilateral_infiltrates_df vent_processed base_cohort h)
    as [[_ ->]|(r & _ & Hr & _)]; [done|].
  apply filter_In in Hr as [Hr Hk].
  apply not_true_iff_false in E. exfalso. apply E, isin_In.
  apply list_elem_of_In, sorted_unique_elem, list_elem_of_In, in_map_iff.
  exists r. split; [lia|done].
Qed.

Lemma Berlin_joined_rows_for (h : Z) :
  List.filter (fun r => Berlin.v_hadm_id (Berlin.vb_vent r) =? h)
    (Berlin.vent_with_bilateral bilateral_infiltrates_df vent_processed base_cohort)
  = flat_map
      (fun x : Berlin.Vent * Timestamp =>
         map (fun c => {| Berlin.vb_vent := x.1; Berlin.vb_bilateral_time := x.2;
                          Berlin.vb_admission_dttm := CohortV1.admission_dttm c |})
             (List.filter (fun c => CohortV1.hadm_id c =? h) base_cohort))
      (flat_map
         (fun v => map (fun b => (v, Berlin.bilateral_infiltrates_time b))
                       (List.filter (fun b => Berlin.bt_hadm_id b =? h)
                          bilateral_infiltrates_df))
         (List.filter (fun v => Berlin.v_hadm_id v =? h) vent_processed)).
Proof.
  unfold Berlin.vent_with_bilateral.
  rewrite (filter_merge_inner _ _ (fun x : Berlin.Vent * Timestamp => Berlin.v_hadm_id x.1)
             (fun r => Berlin.v_hadm_id (Berlin.vb_vent r))) by done.
  rewrite (filter_merge_inner _ _ Berlin.v_hadm_id
             (fun x : Berlin.Vent * Timestamp => Berlin.v_hadm_id x.1)) by done.
  rewrite (merge_inner_one_key Berlin.v_hadm_id Berlin.bt_hadm_id _ _ _ h).
  2:{ intros v [_ Hv]%filter_In. lia. }
  rewrite (merge_inner_one_key (fun x : Berlin.Vent * Timestamp => Berlin.v_hadm_id x.1)
             CohortV1.hadm_id _ _ _ h); [done|].
  intros x (v & Hv & Hx)%in_flat_map. apply in_map_iff in Hx as (b & <- & _).
  apply filter_In in Hv as [_ Hv]. cbn. lia.
Qed.

Hypothesis unique_bilateral : NoDup (map Berlin.bt_hadm_id bilateral_infiltrates_df).
Hypothesis unique_cohort : NoDup (map CohortV1.hadm_id base_cohort).
Hypothesis unique_vent :
  NoDup (map (fun v => (Berlin.v_hadm_id v, Berlin.v_charttime v)) vent_processed).

Lemma Berlin_same_time (h : Z) (v w : Berlin.Vent) :
  In v (List.filter (fun v => Berlin.v_hadm_id v =? h) vent_processed) ->
  In w (List.filter (fun v => Berlin.v_hadm_id v =? h) vent_processed) ->
  Berlin.v_charttime v = Berlin.v_charttime w -> v = w.
Proof using unique_vent.
  intros [Hv Kv]%filter_In [Hw Kw]%filter_In E.
  apply (NoDup_inj_in (fun v => (Berlin.v_hadm_id v, Berlin.v_charttime v)) vent_processed);
    [done|done|done|]. f_equal; [lia|done].
Qed.

Lemma Berlin_group_of (h : Z) :
  List.filter (fun r => Berlin.v_hadm_id (Berlin.vb_vent r) =? h)
    (Berlin.qualifying_measurements bilateral_infiltrates_df vent_processed base_cohort)
  = List.filter Berlin.berlin_mask
      (List.filter (fun r => Berlin.v_hadm_id (Berlin.vb_vent r) =? h)
         (Berlin.vent_with_bilateral bilateral_infiltrates_df vent_processed base_cohort)).
Proof. unfold Berlin.qualifying_measurements. apply filter_filter_comm. Qed.

Lemma Berlin_no_group (h : Z) :
  List.filter Berlin.berlin_mask
    (List.filter (fun r => Berlin.v_hadm_id (Berlin.vb_vent r) =? h)
       (Berlin.vent_with_bilateral bilateral_infiltrates_df vent_processed base_cohort))
  = [] ->
  List.filter (fun a => Berlin.v_hadm_id (Berlin.vb_vent (Berlin.ar_row a)) =? h)
    (rows_of (Berlin.identify_ards_onset_vectorized_corrected bilateral_infiltrates_df
                vent_processed base_cohort)) = [].
Proof.
  intros Hg. rewrite Berlin_rows_for.
  destruct (Berlin_earliest_spec bilateral_infiltrates_df vent_processed base_cohort h)
    as [[_ ->]|(r & _ & Hr & _)]; [done|].
  rewrite Berlin_group_of, Hg in Hr. done.
Qed.

(** When the bilateral table, the base cohort and the ventilation pivot each
    hold one row per key, the per-admission function returns, for an
    admission of the base cohort, exactly the row the vectorized function
    holds for it, or [None] when it holds none. For an admission that has a
    bilateral-infiltrates time and is not in the base cohort the vectorized
    function has no row, and the per-admission function raises
    [IndexError]. *)
Theorem scalar_agrees_with_vectorized (h : Z) :
  Berlin.identify_ards_onset_corrected bilateral_infiltrates_df vent_processed
    base_cohort h
  = if isin h (map Berlin.bt_hadm_id bilateral_infiltrates_df)
       && negb (isin h (map CohortV1.hadm_id base_cohort))
    then Berlin.IndexError
    else Berlin.Returns
           (head (List.filter
                    (fun a => Berlin.v_hadm_id (Berlin.vb_vent (Berlin.ar_row a)) =? h)
                    (rows_of (Berlin.identify_ards_onset_vectorized_corrected
                                bilateral_infiltrates_df vent_processed base_cohort)))).
Proof using unique_bilateral unique_cohort unique_vent.
  unfold Berlin.identify_ards_onset_corrected.
  pose proof (Berlin_joined_rows_for h) as HJ.
  destruct (filter_key_cases Berlin.bt_hadm_id bilateral_infiltrates_df h unique_bilateral)
    as [EB|(b & EB & Hb & Kb)]; rewrite EB in HJ |- *.
  { (* no bilateral-infiltrates time *)
    assert (isin h (map Berlin.bt_hadm_id bilateral_infiltrates_df) = false) as ->.
    { apply not_true_iff_false. intros (b & Kb & Hb)%isin_In%in_map_iff.
      assert (In b (List.filter (fun b => Berlin.bt_hadm_id b =? h)
                      bilateral_infiltrates_df)) as H
        by (apply filter_In; split; [done|lia]).
      by rewrite EB in H. }
    cbn [negb andb]. rewrite Berlin_no_group; [done|].
    rewrite HJ. cbn [map]. by rewrite flat_map_nil. }
  assert (isin h (map Berlin.bt_hadm_id bilateral_infiltrates_df) = true) as ->
    by (apply isin_In, in_map_iff; by exists b).
  cbn [negb andb].
  destruct (filter_key_cases CohortV1.hadm_id base_cohort h unique_cohort)
    as [EC|(c & EC & Hc & Kc)]; rewrite EC in HJ |- *.
  { (* not in the base cohort *)
    assert (isin h (map CohortV1.hadm_id base_cohort) = false) as ->; [|done].
    apply not_true_iff_false. intros (c & Kc & Hc)%isin_In%in_map_iff.
    assert (In c (List.filter (fun c => CohortV1.hadm_id c =? h) base_cohort)) as H
      by (apply filter_In; split; [done|lia]).
    by rewrite EC in H. }
  assert (isin h (map CohortV1.hadm_id base_cohort) = true) as ->
    by (apply isin_In, in_map_iff; by exists c).
  cbn [negb]. cbv zeta.
  set (bt := Berlin.bilateral_infiltrates_time b) in *.
  set (adm := CohortV1.admission_dttm c) in *.
  set (hadm_vent := List.filter (fun v => Berlin.v_hadm_id v =? h) vent_processed) in *.
  set (row := fun v => {| Berlin.vb_vent := v; Berlin.vb_bilateral_time := bt;
                          Berlin.vb_admission_dttm := adm |}).
  assert (List.filter (fun r => Berlin.v_hadm_id (Berlin.vb_vent r) =? h)
            (Berlin.vent_with_bilateral bilateral_infiltrates_df vent_processed
               base_cohort) = map row hadm_vent) as HJ'.
  { rewrite HJ. cbn [map]. rewrite !flat_map_singleton, map_map. done. }
  clear HJ.
  destruct (Qlt_bool 7 (total_seconds (bt - adm) / (24 * 3600))) eqn:Edays.
  { (* bilateral infiltrates later than seven days after admission *)
    rewrite Berlin_no_group; [done|]. rewrite HJ'. apply filter_none.
    intros r (v & <- & _)%in_map_iff. unfold row. rewrite berlin_mask_of_row.
    destruct (Z.leb_spec (bt - adm) Berlin.seven_days) as [Hle|]; [|done].
    assert (Qlt_bool 7 (total_seconds (bt - adm) / (24 * 3600)) = false) as Hf
      by (apply days_gt_7; unfold Berlin.seven_days, hour in *; lia).
    congruence. }
  apply days_gt_7 in Edays.
  assert (forall v, Berlin.berlin_mask (row v)
                    = (bt <=? Berlin.v_charttime v) && (adm <=? Berlin.v_charttime v)
                      && (Berlin.v_charttime v <=? adm + Berlin.seven_days)
                      && nan_ge (Berlin.v_peep v) 5
                      && bool_decide (is_Some (Berlin.v_pf_ratio v))
                      && nan_le (Berlin.v_pf_ratio v) 300) as Hmask.
  { intros v. unfold row. rewrite berlin_mask_of_row.
    replace (bt - adm <=? Berlin.seven_days) with true; [done|].
    symmetry. apply Z.leb_le. unfold Berlin.seven_days, hour in *. lia. }
  destruct (length hadm_vent =? 0)%nat eqn:Elen.
  { apply Nat.eqb_eq, length_zero_iff_nil in Elen.
    rewrite Berlin_no_group; [done|]. by rewrite HJ', Elen. }
  set (cond := fun v => _ && nan_le (Berlin.v_pf_ratio v) 300).
  assert (List.filter Berlin.berlin_mask (map row hadm_vent)
          = map row (List.filter cond hadm_vent)) as Hg.
  { rewrite filter_map_swap. f_equal. apply filter_ext. intros v. apply Hmask. }
  destruct (length (List.filter cond hadm_vent) =? 0)%nat eqn:Eq.
  { apply Nat.eqb_eq, length_zero_iff_nil in Eq.
    rewrite Berlin_no_group; [done|]. by rewrite HJ', Hg, Eq. }
  apply Nat.eqb_neq in Eq.
  destruct (sort_values _ (List.filter cond hadm_vent)) as [|first rest] eqn:Es.
  { apply sort_values_nil in Es. by rewrite Es in Eq. }
  apply head_sort_values in Es as [Hfirst Hmin]; [|lia|lia].
  rewrite Berlin_rows_for.
  destruct (Berlin_earliest_spec bilateral_infiltrates_df vent_processed base_cohort h)
    as [[Hnil _]|(r & -> & Hr & Hrmin)].
  { exfalso. rewrite Berlin_group_of, HJ', Hg in Hnil.
    apply map_eq_nil in Hnil. by rewrite Hnil in Eq. }
  rewrite Berlin_group_of, HJ', Hg in Hr, Hrmin.
  apply in_map_iff in Hr as (vr & <- & Hvr).
  assert (first = vr) as <-.
  { apply (Berlin_same_time h).
    - by apply filter_In in Hfirst as [? _].
    - by apply filter_In in Hvr as [? _].
    - specialize (Hrmin (row first)). cbn in Hrmin.
      destruct (Hmin vr Hvr) as [->|Hle]; [done|].
      assert (Berlin.v_charttime vr <= Berlin.v_charttime first)
        by (apply Hrmin, in_map_iff; by exists first).
      lia. }
  cbn [map head]. do 3 f_equal. cbn [Berlin.vb_vent].
  apply filter_In in Hfirst as [_ Hcond]. unfold cond in Hcond.
  apply andb_true_iff in Hcond as [_ H300].
  unfold Berlin.severity_of, row. cbn [Berlin.vb_vent]. by rewrite H300.
Qed.

End ScalarAndVectorized.

Lemma scalar_agrees_with_vectorized_witness :
  exists a,
    Berlin.identify_ards_onset_corrected berlin_bilateral berlin_case_vent
      berlin_base_cohort 100 = Berlin.Returns (Some a)
    /\ head (rows_of (Berlin.identify_ards_onset_vectorized_corrected berlin_bilateral
                        berlin_case_vent berlin_base_cohort)) = Some a.
Proof.
  assert (NoDup (map Berlin.bt_hadm_id berlin_bilateral)) as H1
    by (vm_compute; apply NoDup_singleton).
  assert (NoDup (map CohortV1.hadm_id berlin_base_cohort)) as H2
    by (vm_compute; apply NoDup_singleton).
  assert (NoDup (map (fun v => (Berlin.v_hadm_id v, Berlin.v_charttime v))
                     berlin_case_vent)) as H3
    by (vm_compute; apply NoDup_singleton).
  pose proof (scalar_agrees_with_vectorized berlin_bilateral berlin_case_vent
                berlin_base_cohort H1 H2 H3 100) as H.
  assert (isin 100 (map Berlin.bt_hadm_id berlin_bilateral)
          && negb (isin 100 (map CohortV1.hadm_id berlin_base_cohort)) = false) as Ec
    by (vm_compute; reflexivity).
  assert (exists a rows,
            rows_of (Berlin.identify_ards_onset_vectorized_corrected berlin_bilateral
                       berlin_case_vent berlin_base_cohort) = a :: rows
            /\ Berlin.v_hadm_id (Berlin.vb_vent (Berlin.ar_row a)) = 100)
    as (a & rows & E & Ha)
    by (vm_compute; eexists _, _; split; reflexivity).
  rewrite Ec, E in H. cbn [List.filter] in H. rewrite Ha in H.
  change (100 =? 100) with true in H. cbn [head] in H.
  exists a. rewrite E. exact (conj H eq_refl).
Defined.

(** ** A run of the Berlin notebook *)

Section BerlinRun.

Variable base_cohort : list CohortV1.FinalRow.
Variable radiology : list RadiologyNote.
Variable icustays : list IcuStay.
Variable chartevents : list ChartEvent.
Variable detect : option string -> bool.

Lemma Berlin_ards_cohort_rows (vp : list Berlin.Vent) (rows : list Berlin.ArdsCohortRow) :
  Berlin.ards_cohort base_cohort
    (Berlin.identify_ards_onset_vectorized_corrected
       (Berlin.bilateral_infiltrates_df base_cohort radiology detect) vp base_cohort)
  = Ok rows ->
  rows = merge_inner CohortV1.hadm_id
           (fun a => Berlin.v_hadm_id (Berlin.vb_vent (Berlin.ar_row a)))
           (fun b a =>
              {| Berlin.ac_base := b; Berlin.ac_ards := a;
                 Berlin.hours_to_ards_onset :=
                   Berlin.hours (Berlin.v_charttime (Berlin.vb_vent (Berlin.ar_row a))
                                 - CohortV1.admission_dttm b) |})
           base_cohort
           (rows_of (Berlin.identify_ards_onset_vectorized_corrected
                       (Berlin.bilateral_infiltrates_df base_cohort radiology detect)
                       vp base_cohort)).
Proof.
  unfold Berlin.ards_cohort.
  destruct (Berlin.identify_ards_onset_vectorized_corrected _ _ _); [done|].
  by intros [= <-].
Qed.

(** A run of the Berlin notebook on a cohort that has radiology reports ends
    in one of three ways. With no chart event of a cohort stay under a listed
    item, [pd.concat] raises [ValueError]. With such events but no qualifying
    measurement, the function returns the frame without columns and the merge
    on ['hadm_id'] raises [KeyError]: the notebook stops exactly when it found
    no ARDS case. Otherwise the run reaches a cohort with at least one row;
    when the base cohort holds an admission once, every row has its onset
    between 0 and 168 hours after admission. *)
Theorem berlin_run_outcome :
  Berlin.cohort_radiology base_cohort radiology <> [] ->
  let matching :=
    List.filter
      (fun e => isin (ce_stay_id e)
                  (map s_stay_id (Berlin.cohort_icustays base_cohort icustays))
                && isin (ce_itemid e) Berlin.all_itemids) chartevents in
  let qualifying :=
    Berlin.qualifying_measurements
      (Berlin.bilateral_infiltrates_df base_cohort radiology detect)
      (Berlin.process_vent_params_vectorized matching) base_cohort in
  (matching = [] ->
   Berlin.run_notebook base_cohort radiology icustays chartevents detect
   = Raise (ValueError "No objects to concatenate"))
  /\ (matching <> [] -> qualifying = [] ->
      Berlin.run_notebook base_cohort radiology icustays chartevents detect
      = Raise (KeyError "hadm_id"))
  /\ (matching <> [] -> qualifying <> [] ->
      exists rows,
        Berlin.run_notebook base_cohort radiology icustays chartevents detect = Ok rows
        /\ rows <> []
        /\ (NoDup (map CohortV1.hadm_id base_cohort) ->
            forall r, In r rows ->
              (0 <= Berlin.hours_to_ards_onset r)%Q
              /\ (Berlin.hours_to_ards_onset r <= 168)%Q)).
Proof.
  intros _. cbv zeta.
  unfold Berlin.run_notebook, Berlin.ards_df, Berlin.vent_processed, Berlin.vent_df.
  remember (List.filter
              (fun e => isin (ce_stay_id e)
                          (map s_stay_id (Berlin.cohort_icustays base_cohort icustays))
                        && isin (ce_itemid e) Berlin.all_itemids) chartevents)
    as matching eqn:Ematching.
  destruct matching as [|e0 es].
  { split; [done|]. split; intros Hne; by destruct Hne. }
  clear Ematching. set (matching := e0 :: es).
  split; [done|]. split.
  - intros _ Hq. cbn [mbind result_bind].
    unfold Berlin.identify_ards_onset_vectorized_corrected. rewrite Hq.
    cbn [length Nat.eqb]. by destruct (length _ =? 0)%nat.
  - intros _ Hq. cbn [mbind result_bind].
    set (bdf := Berlin.bilateral_infiltrates_df base_cohort radiology detect) in *.
    set (vp := Berlin.process_vent_params_vectorized matching) in *.
    destruct (Berlin.ards_cohort base_cohort
                (Berlin.identify_ards_onset_vectorized_corrected bdf vp base_cohort))
      as [rows|e] eqn:E.
    2:{ exfalso. unfold Berlin.ards_cohort,
          Berlin.identify_ards_onset_vectorized_corrected in E.
        destruct (Berlin.qualifying_measurements bdf vp base_cohort) as [|q qs] eqn:Eq;
          [done|].
        assert (Berlin.vent_with_bilateral bdf vp base_cohort <> []) as Hv.
        { intros Hv. unfold Berlin.qualifying_measurements in Eq. by rewrite Hv in Eq. }
        destruct (Berlin.vent_with_bilateral bdf vp base_cohort); done. }
    exists rows. split; [done|].
    pose proof (Berlin_ards_cohort_rows vp rows E) as ->. fold bdf.
    destruct (Berlin_cases_members bdf vp base_cohort) as (Hall & Hrow).
    split.
    + destruct (Berlin.qualifying_measurements bdf vp base_cohort) as [|q qs] eqn:Eq;
        [done|].
      destruct (Hall q (or_introl eq_refl)) as (a & Ha & Hk).
      pose proof (Hrow a Ha) as Hqa.
      rewrite <- Eq in Hqa. apply filter_In in Hqa as [Hv _].
      apply Berlin_vent_with_bilateral_in in Hv as (b & c & _ & _ & Hc & _ & Kc & _).
      intros Hnil.
      assert (In {| Berlin.ac_base := c; Berlin.ac_ards := a;
                    Berlin.hours_to_ards_onset :=
                      Berlin.hours (Berlin.v_charttime (Berlin.vb_vent (Berlin.ar_row a))
                                    - CohortV1.admission_dttm c) |}
                 (merge_inner CohortV1.hadm_id
                    (fun a => Berlin.v_hadm_id (Berlin.vb_vent (Berlin.ar_row a)))
                    (fun b a =>
                       {| Berlin.ac_base := b; Berlin.ac_ards := a;
                          Berlin.hours_to_ards_onset :=
                            Berlin.hours
                              (Berlin.v_charttime (Berlin.vb_vent (Berlin.ar_row a))
                               - CohortV1.admission_dttm b) |})
                    base_cohort
                    (rows_of (Berlin.identify_ards_onset_vectorized_corrected bdf vp
                                base_cohort)))) as Hin.
      { apply in_merge_inner. exists c, a. done. }
      by rewrite Hnil in Hin.
    + intros Hnd r Hr. apply in_merge_inner in Hr as (c & a & Hc & Ha & Hk & ->).
      cbn [Berlin.hours_to_ards_onset].
      pose proof (Hrow a Ha) as Hqa.
      apply filter_In in Hqa as [Hv Hmask].
      apply Berlin_vent_with_bilateral_in in Hv as (b & c' & _ & _ & Hc' & _ & Kc' & _ & Eadm).
      assert (c' = c) as ->
        by (apply (NoDup_inj_in CohortV1.hadm_id base_cohort); [done|done|done|congruence]).
      apply berlin_mask_iff in Hmask as (_ & _ & _ & H0 & H168 & _).
      rewrite Eadm in H0, H168.
      pose proof (hours_ge_Z (Berlin.v_charttime (Berlin.vb_vent (Berlin.ar_row a))
                              - CohortV1.admission_dttm c) 0) as G0.
      pose proof (hours_le_Z (Berlin.v_charttime (Berlin.vb_vent (Berlin.ar_row a))
                              - CohortV1.admission_dttm c) 168) as G1.
      rewrite Qle_bool_iff in G0, G1. unfold hour in H168.
      split; [apply G0|apply G1]; lia.
Qed.

End BerlinRun.

Lemma berlin_run_outcome_witness :
  Berlin.run_notebook berlin_base_cohort two_reports [sample_stay] berlin_events
    detect_bilateral_infiltrates
  = Raise (KeyError "hadm_id").
Proof.
  assert (Berlin.cohort_radiology berlin_base_cohort two_reports <> []) as Hr
    by (intros Hr; vm_compute in Hr; discriminate Hr).
  apply (proj1 (proj2 (berlin_run_outcome berlin_base_cohort two_reports [sample_stay]
                         berlin_events detect_bilateral_infiltrates Hr))).
  - by vm_compute.
  - by vm_compute.
Defined.

(** ** The flags are per admission *)

Lemma merge_left_head {A B C : Type} (ka : A -> Z) (kb : B -> Z)
    (mk : A -> option B -> C) (l : list A) (r : list B) :
  NoDup (map kb r) ->
  merge_left ka kb mk l r
  = map (fun a => mk a (head (List.filter (fun b => kb b =? ka a) r))) l.
Proof.
  intros Hr. unfold merge_left. induction l as [|a l IH]; [done|].
  cbn [flat_map]. rewrite IH. cbn [map].
  pose proof (filter_key_unique kb r (ka a) Hr) as Hlen.
  destruct (List.filter (fun b => kb b =? ka a) r) as [|b [|b' rest]];
    [reflexivity|reflexivity|].
  cbn in Hlen. lia.
Qed.

Section PerAdmission.

Variable base_cohort : list Ards.BaseRow.
Variable chartevents : list ChartEvent.
Variable radiology : list RadiologyNote.
Variable detect : option string -> bool.

Lemma Ards_final_cohort_by_admission :
  Ards.final_cohort base_cohort chartevents radiology detect
  = map (fun b =>
           Ards.flag
             (b,
              head (List.filter (fun o => Ards.on_hadm_id o =? Ards.hadm_id b)
                      (rows_of (Ards.ards_onset_times base_cohort chartevents))),
              head (List.filter (fun x => Ards.bl_hadm_id x =? Ards.hadm_id b)
                      (Ards.bilateral_by_admission base_cohort radiology detect))))
        base_cohort.
Proof.
  unfold Ards.final_cohort.
  assert (Ards.merge_onset base_cohort chartevents
          = map (fun b =>
                   (b, head (List.filter (fun o => Ards.on_hadm_id o =? Ards.hadm_id b)
                               (rows_of (Ards.ards_onset_times base_cohort chartevents)))))
                base_cohort) as Ho.
  { unfold Ards.merge_onset. destruct (0 <? len _)%nat eqn:E.
    - apply merge_left_head, Ards_onset_keys_NoDup.
    - assert (rows_of (Ards.ards_onset_times base_cohort chartevents) = []) as ->; [|done].
      apply Nat.ltb_ge in E.
      destruct (Ards.ards_onset_times base_cohort chartevents) as [|rows]; [done|].
      cbn in *. destruct rows; [done|cbn in E; lia]. }
  assert (Ards.merge_bilateral base_cohort chartevents radiology detect
          = map (fun x : Ards.BaseRow * option Ards.Onset =>
                   (x, head (List.filter (fun y => Ards.bl_hadm_id y =? Ards.hadm_id x.1)
                               (Ards.bilateral_by_admission base_cohort radiology detect))))
                (Ards.merge_onset base_cohort chartevents)) as Hb.
  { unfold Ards.merge_bilateral. destruct (0 <? length _)%nat eqn:E.
    - apply merge_left_head, Ards_bilateral_keys_NoDup.
    - apply length_pos_false in E. rewrite E. done. }
  rewrite Hb, Ho, !map_map. done.
Qed.

(** The columns the flagging stage attaches depend on the admission only: two
    rows of the flagged cohort with the same [hadm_id] (two ICU stays of one
    admission) carry the same onset time, onset ratio, onset minutes,
    bilateral flag, first radiology time, onset flag, ARDS flag and
    severity. *)
Theorem flags_are_per_admission (f1 f2 : Ards.Flagged) :
  In f1 (Ards.final_cohort base_cohort chartevents radiology detect) ->
  In f2 (Ards.final_cohort base_cohort chartevents radiology detect) ->
  Ards.hadm_id (Ards.f_base f1) = Ards.hadm_id (Ards.f_base f2) ->
  Ards.f_ards_onset_time f1 = Ards.f_ards_onset_time f2
  /\ Ards.f_ards_onset_sf_ratio f1 = Ards.f_ards_onset_sf_ratio f2
  /\ Ards.f_ards_onset_minutes_from_icu f1 = Ards.f_ards_onset_minutes_from_icu f2
  /\ Ards.f_has_bilateral_infiltrates f1 = Ards.f_has_bilateral_infiltrates f2
  /\ Ards.f_first_radiology_time f1 = Ards.f_first_radiology_time f2
  /\ Ards.has_ards_onset f1 = Ards.has_ards_onset f2
  /\ Ards.has_ards f1 = Ards.has_ards f2
  /\ Ards.ards_severity f1 = Ards.ards_severity f2.
Proof.
  rewrite Ards_final_cohort_by_admission.
  intros (b1 & <- & _)%in_map_iff (b2 & <- & _)%in_map_iff.
  cbn [Ards.flag Ards.f_base fst snd]. intros ->. cbn. done.
Qed.

End PerAdmission.

Lemma flags_are_per_admission_witness :
  exists f1 f2 t1 hrs,
    In f1 (Ards.final_cohort two_stay_base_cohort onset_events two_reports
             detect_bilateral_infiltrates)
    /\ In f2 (Ards.final_cohort two_stay_base_cohort onset_events two_reports
                detect_bilateral_infiltrates)
    /\ Ards.stay_id (Ards.f_base f1) = 7 /\ Ards.stay_id (Ards.f_base f2) = 8
    /\ Ards.f_ards_onset_time f1 = Some t1 /\ Ards.f_ards_onset_time f2 = Some t1
    /\ Ards.hours_icu_to_ards_onset f2 = Some hrs /\ (hrs < 0)%Q.
Proof.
  assert (exists f1 f2 t1 hrs,
            Ards.final_cohort two_stay_base_cohort onset_events two_reports
              detect_bilateral_infiltrates = [f1; f2]
            /\ Ards.hadm_id (Ards.f_base f1) = Ards.hadm_id (Ards.f_base f2)
            /\ Ards.stay_id (Ards.f_base f1) = 7 /\ Ards.stay_id (Ards.f_base f2) = 8
            /\ Ards.f_ards_onset_time f1 = Some t1
            /\ Ards.hours_icu_to_ards_onset f2 = Some hrs /\ (hrs < 0)%Q)
    as (f1 & f2 & t1 & hrs & E & Hk & H7 & H8 & Ht & Hh & Hneg).
  { vm_compute. eexists _, _, _, _. repeat split. }
  assert (In f1 (Ards.final_cohort two_stay_base_cohort onset_events two_reports
                   detect_bilateral_infiltrates)) as Hf1 by (rewrite E; by left).
  assert (In f2 (Ards.final_cohort two_stay_base_cohort onset_events two_reports
                   detect_bilateral_infiltrates)) as Hf2 by (rewrite E; right; by left).
  destruct (flags_are_per_admission two_stay_base_cohort onset_events two_reports
              detect_bilateral_infiltrates f1 f2 Hf1 Hf2 Hk) as (Hsame & _).
  exists f1, f2, t1, hrs. rewrite <- Hsame.
  exact (conj Hf1 (conj Hf2 (conj H7 (conj H8 (conj Ht (conj Ht (conj Hh Hneg))))))).
Defined.

(** ** The pivot matcher of the optimized cohort notebook *)

Lemma Cohort_classify_spo2_fio2 (i : Z) :
  (Cohort.classify i = Cohort.spo2 <-> In i Cohort.SPO2_ITEMIDS)
  /\ (Cohort.classify i = Cohort.fio2 <-> In i Cohort.FIO2_ITEMIDS).
Proof.
  unfold Cohort.classify, isin, Cohort.PEEP_ITEMIDS, Cohort.SPO2_ITEMIDS,
    Cohort.FIO2_ITEMIDS. cbn [existsb In].
  repeat match goal with
         | |- context [i =? ?b] => destruct (Z.eqb_spec i b) as [->|?]; cbn
         end; intuition (discriminate || lia).
Qed.

Lemma Cohort_first_value_source (rows : list Cohort.VentData) (k : Z * Timestamp)
    (p : Cohort.ParamType) (x : Q) :
  Cohort.first_value rows k p = Some x ->
  exists r, In r rows /\ Cohort.pivot_key r = Some k /\ Cohort.param_type r = p
            /\ Cohort.valuenum r = x.
Proof.
  unfold Cohort.first_value. intros H. apply head_In in H.
  apply in_map_iff in H as (r & <- & Hr). apply filter_In in Hr as [Hr Hc].
  apply andb_true_iff in Hc as [Hk Hp].
  apply bool_decide_eq_true in Hk, Hp. by exists r.
Qed.

Lemma Cohort_normalized_row (t : Tables) (r : Cohort.VentData) :
  In r (Cohort.spo2_fio2_normalized t) ->
  exists e v s,
    In e (chartevents t) /\ ce_valuenum e = Some v
    /\ In s (Cohort.adult_icu_admissions t) /\ Cohort.stay_id s = ce_stay_id e
    /\ Cohort.pivot_key r = Some (Cohort.hadm_id s, ce_charttime e)
    /\ Cohort.param_type r = Cohort.classify (ce_itemid e)
    /\ Cohort.valuenum r
       = (if bool_decide (Cohort.classify (ce_itemid e) = Cohort.fio2)
          then normalize_fio2 v else v).
Proof.
  unfold Cohort.spo2_fio2_normalized. intros (r0 & <- & Hr0)%in_map_iff.
  unfold Cohort.spo2_fio2_data, Cohort.vent_data_filtered in Hr0.
  apply filter_In in Hr0 as [Hr0 _]. apply filter_In in Hr0 as [Hr0 _].
  apply Cohort_vent_data_in in Hr0 as (e & v & s & He & Hv & _ & Hs & Hk & ->).
  exists e, v, s.
  destruct (Cohort_convert_fio2_key
              {| Cohort.vd_event :=
                   {| Cohort.ve_stay_id := ce_stay_id e; Cohort.ve_itemid := ce_itemid e;
                      Cohort.ve_charttime := ce_charttime e; Cohort.ve_valuenum := v |};
                 Cohort.param_type := Cohort.classify (ce_itemid e);
                 Cohort.vd_hadm_id := Some (Cohort.hadm_id s);
                 Cohort.vd_intime := Some (intime (Cohort.ai_stay s)) |}) as [-> ->].
  rewrite Cohort_convert_fio2_value. done.
Qed.

(** Every S/F ratio of the optimized cohort notebook pairs an SpO2 value and
    an FiO2 value charted for the same admission at exactly the same chart
    time (there is no time tolerance), each under an ICU stay of the
    admission; the FiO2 value is the normalised reading, and the admission
    passed the PEEP stage. *)
Theorem sf_ratio_pairs_same_instant (t : Tables) (r : Cohort.SfRatio) :
  In r (Cohort.sf_ratios t) ->
  (Cohort.sr_hadm_id r ∈ Cohort.peep_qualifying_admissions t)
  /\ (exists e s,
        In e (chartevents t) /\ In s (Cohort.adult_icu_admissions t)
        /\ Cohort.stay_id s = ce_stay_id e /\ Cohort.hadm_id s = Cohort.sr_hadm_id r
        /\ ce_charttime e = Cohort.sr_charttime r
        /\ In (ce_itemid e) Cohort.SPO2_ITEMIDS
        /\ ce_valuenum e = Some (Cohort.sr_spo2 r))
  /\ (exists e s x,
        In e (chartevents t) /\ In s (Cohort.adult_icu_admissions t)
        /\ Cohort.stay_id s = ce_stay_id e /\ Cohort.hadm_id s = Cohort.sr_hadm_id r
        /\ ce_charttime e = Cohort.sr_charttime r
        /\ In (ce_itemid e) Cohort.FIO2_ITEMIDS
        /\ ce_valuenum e = Some x /\ Cohort.sr_fio2 r = normalize_fio2 x).
Proof.
  intros Hr. split; [by apply Cohort_sf_ratio_hadm|].
  unfold Cohort.sf_ratios in Hr. apply in_flat_map in Hr as (p & Hp & Hr).
  apply Cohort_ratio_of_row in Hr as (Hs & Hf & Hh & Hc & _).
  unfold Cohort.sf_pivot, Cohort.pivot_table in Hp.
  apply in_map_iff in Hp as (k & <- & _). cbn in Hs, Hf, Hh, Hc.
  split.
  - apply Cohort_first_value_source in Hs as (x & Hx & Hk & Hp & Hv).
    apply Cohort_normalized_row in Hx as (e & v & s & He & Ev & Hs & Ks & Hk' & Hp' & Hv').
    rewrite Hp in Hp'. symmetry in Hp'.
    rewrite Hp', bool_decide_eq_false_2 in Hv' by done.
    apply Cohort_classify_spo2_fio2 in Hp'.
    rewrite Hk in Hk'. injection Hk' as ->. cbn in Hh, Hc.
    exists e, s. repeat split; congruence.
  - apply Cohort_first_value_source in Hf as (x & Hx & Hk & Hp & Hv).
    apply Cohort_normalized_row in Hx as (e & v & s & He & Ev & Hs' & Ks & Hk' & Hp' & Hv').
    rewrite Hp in Hp'. symmetry in Hp'.
    rewrite Hp', bool_decide_eq_true_2 in Hv' by done.
    apply Cohort_classify_spo2_fio2 in Hp'.
    rewrite Hk in Hk'. injection Hk' as ->. cbn in Hh, Hc.
    exists e, s, v. repeat split; congruence.
Qed.

Lemma sf_ratio_pairs_same_instant_witness :
  exists r e x,
    In r (Cohort.sf_ratios scenario) /\ In e (chartevents scenario)
    /\ ce_charttime e = Cohort.sr_charttime r
    /\ ce_valuenum e = Some x /\ Cohort.sr_fio2 r = normalize_fio2 x.
Proof.
  assert (exists r, In r (Cohort.sf_ratios scenario)) as [r Hr]
    by (vm_compute; eexists; left; reflexivity).
  destruct (sf_ratio_pairs_same_instant scenario r Hr)
    as (_ & _ & e & s & x & He & _ & _ & _ & Hc & _ & Hv & Hf).
  exists r, e, x. exact (conj Hr (conj He (conj Hc (conj Hv Hf)))).
Defined.

(** ** The diagnosis code rules *)

Lemma prefix_String (a c : ascii) (p s : string) :
  String.prefix (String a p) (String c s) = Ascii.eqb a c && String.prefix p s.
Proof.
  cbn [String.prefix]. destruct (ascii_dec a c) as [->|Hn].
  - by rewrite Ascii.eqb_refl.
  - apply Ascii.eqb_neq in Hn. by rewrite Hn.
Qed.

Lemma substring_eqb_prefix (p s : string) :
  String.eqb (substring 0 (String.length p) s) p = String.prefix p s.
Proof.
  revert s. induction p as [|a p IH]; intros s.
  - destruct s; reflexivity.
  - destruct s as [|c s]; [reflexivity|].
    rewrite prefix_String. cbn [String.length substring String.eqb].
    by rewrite IH, Ascii.eqb_sym.
Qed.

Lemma prefix_app_l (a b s : string) :
  String.prefix (a ++ b) s = true -> String.prefix a s = true.
Proof.
  revert s. induction a as [|c a IH]; intros s; [by destruct s|].
  rewrite append_String. destruct s as [|d s]; [done|].
  rewrite !prefix_String.
  intros [Hc H]%andb_true_iff. rewrite Hc. by apply IH.
Qed.

(** The pregnancy mask (first three characters among 630..679, or a leading
    O) is the prefix rule of the list [pregnancy_codes] that the notebook
    builds and does not use: a code is flagged exactly when it starts with
    one of the entries of that list. A missing code is not flagged. *)
Theorem pregnancy_mask_is_prefix_rule (d : Diagnosis) :
  pregnancy_mask d = startswith pregnancy_codes (icd_code d).
Proof.
  unfold pregnancy_mask, first3_isin, startswith, pregnancy_codes.
  destruct (icd_code d) as [s|]; [|done].
  rewrite existsb_app. f_equal.
  apply existsb_ext_in. intros p Hp.
  assert (String.length p = 3%nat) as Hlen.
  { assert (forallb (fun p => Nat.eqb (String.length p) 3) pregnancy_icd9_prefixes
            = true) as H by reflexivity.
    by apply Nat.eqb_eq, (proj1 (forallb_forall _ _) H). }
  by rewrite <- substring_eqb_prefix, Hlen.
Qed.

(** In the heart-failure rule the ten prefixes I500..I509 are redundant:
    the mask is the prefix rule of 4280..4289 and I50 alone. So every code
    that starts with I50 is flagged, and an ICD-9 code is flagged only with a
    fourth digit after 428. *)
Theorem hf_prefixes_redundant (d : Diagnosis) :
  hf_mask d = startswith (map str (range 4280 4290) ++ ["I50"%string]) (icd_code d).
Proof.
  unfold hf_mask, startswith, hf_codes.
  destruct (icd_code d) as [s|]; [|done].
  rewrite !existsb_app. f_equal.
  destruct (existsb (fun p => String.prefix p s) ["I50"%string]) eqn:E; [done|].
  cbn [orb]. apply not_true_iff_false. intros (p & Hp & H)%existsb_exists.
  apply in_map_iff in Hp as (x & <- & _). apply prefix_app_l in H.
  cbn [existsb] in E. by rewrite H in E.
Qed.

(** ** The note kept with the bilateral-infiltrates time *)

Lemma omap_filter_snd {A : Type} (f : A -> option Z) (keep : Z -> bool)
    (P : Z -> A -> bool) (l : list A) :
  map snd
    (List.filter (fun x : Z * A => P x.1 x.2)
       (omap (fun n => match f n with
                       | Some h => if keep h then Some (h, n) else None
                       | None => None
                       end) l))
  = List.filter (fun n => match f n with
                          | Some h => keep h && P h n
                          | None => false
                          end) l.
Proof.
  induction l as [|n l IH]; [done|]. cbn [omap list_omap List.filter].
  destruct (f n) as [h|]; [|exact IH]. destruct (keep h); [|exact IH].
  cbn [List.filter fst snd andb]. destruct (P h n); cbn [map snd]; by rewrite IH.
Qed.

Section NoteKept.

Variable base_cohort : list CohortV1.FinalRow.
Variable radiology : list RadiologyNote.
Variable detect : option string -> bool.

Lemma Berlin_positive_reports_listed (h : Z) :
  h ∈ Berlin.cohort_hadm_ids base_cohort ->
  Berlin.positive_reports base_cohort radiology detect h
  = List.filter (fun n => bool_decide (r_hadm_id n = Some h) && detect (text n)) radiology.
Proof.
  intros Hh. unfold Berlin.positive_reports, Berlin.cohort_radiology.
  rewrite (omap_filter_snd r_hadm_id
             (fun k => isin_set k (Berlin.cohort_hadm_ids base_cohort))
             (fun k n => (k =? h) && detect (text n))).
  apply filter_ext. intros n. destruct (r_hadm_id n) as [k|]; [|done].
  destruct (Z.eqb_spec k h) as [->|Hn].
  - rewrite bool_decide_eq_true_2 by done.
    replace (isin_set h (Berlin.cohort_hadm_ids base_cohort)) with true; [done|].
    symmetry. by apply isin_set_iff.
  - rewrite bool_decide_eq_false_2 by congruence. apply andb_false_r.
Qed.

(** The [note_id] kept in [bilateral_infiltrates_df] is that of the first
    positive report of the admission in the order of the radiology table,
    while the time kept is the earliest chart time over the positive reports:
    the note and the time need not belong to the same report. *)
Theorem bilateral_note_is_first_listed (b : Berlin.BilateralTime) :
  In b (Berlin.bilateral_infiltrates_df base_cohort radiology detect) ->
  exists n,
    head (List.filter
            (fun n => bool_decide (r_hadm_id n = Some (Berlin.bt_hadm_id b))
                      && detect (text n)) radiology) = Some n
    /\ Berlin.bt_note_id b = note_id n
    /\ Berlin.bilateral_infiltrates_time b <= r_charttime n
    /\ exists m, In m radiology /\ r_hadm_id m = Some (Berlin.bt_hadm_id b)
                 /\ detect (text m) = true
                 /\ r_charttime m = Berlin.bilateral_infiltrates_time b.
Proof.
  intros Hb.
  destruct (Berlin_bilateral_time radiology detect base_cohort b Hb) as [Hex Hmin].
  assert (Berlin.bt_hadm_id b ∈ Berlin.cohort_hadm_ids base_cohort) as Hh.
  { apply (Berlin_flagged_iff radiology detect base_cohort). by exists b. }
  apply Berlin_bilateral_row in Hb as (n & rest & Hp & _ & Hn).
  rewrite (Berlin_positive_reports_listed _ Hh) in Hp.
  exists n. rewrite Hp. split; [done|]. split; [done|]. split; [|done].
  assert (In n (List.filter
                  (fun n => bool_decide (r_hadm_id n = Some (Berlin.bt_hadm_id b))
                            && detect (text n)) radiology)) as Hin
    by (rewrite Hp; by left).
  apply filter_In in Hin as [Hin Hc]. apply andb_true_iff in Hc as [Hk Hd].
  apply bool_decide_eq_true in Hk. by apply Hmin.
Qed.

End NoteKept.

Lemma bilateral_note_is_first_listed_witness :
  In out_of_order_row
     (Berlin.bilateral_infiltrates_df berlin_base_cohort out_of_order_reports
        detect_bilateral_infiltrates)
  /\ exists n,
       head (List.filter
               (fun n => bool_decide (r_hadm_id n = Some (Berlin.bt_hadm_id out_of_order_row))
                         && detect_bilateral_infiltrates (text n)) out_of_order_reports)
       = Some n
       /\ Berlin.bt_note_id out_of_order_row = note_id n
       /\ Berlin.bilateral_infiltrates_time out_of_order_row <= r_charttime n
       /\ exists m, In m out_of_order_reports
                    /\ r_hadm_id m = Some (Berlin.bt_hadm_id out_of_order_row)
                    /\ detect_bilateral_infiltrates (text m) = true
                    /\ r_charttime m = Berlin.bilateral_infiltrates_time out_of_order_row.
Proof.
  assert (In out_of_order_row
            (Berlin.bilateral_infiltrates_df berlin_base_cohort out_of_order_reports
               detect_bilateral_infiltrates)) as Hb
    by (vm_compute; left; reflexivity).
  exact (conj Hb
           (bilateral_note_is_first_listed berlin_base_cohort out_of_order_reports
              detect_bilateral_infiltrates out_of_order_row Hb)).
Defined.
